(** * StepLinearUVLM: packing, stepping and unpacking of the linear UVLM solver

    A shallow embedding of [sharpy/solvers/steplinearuvlm.py], followed by
    one of the post-processor [sharpy/postproc/pickledata.py].

    - A numpy array is the nested sequence of its elements, read in logical
      C order; [shape] and [size] are computed from it and a reshape checks
      the element count as numpy does.
    - A Python exception is a value of an error monad; a method that
      assigns to attributes threads the objects it can reach.
    - Snapshot objects live in a store and are named by their address, so
      that the [aero_tstep] argument of [run] may or may not be one of the
      retained snapshots.
    - The calls made to the operator and to the velocity generator are
      recorded in order. *)

Set Warnings "-notation-overridden,-rewrite-rw".

From Stdlib Require Import PrimFloat ZArith String.
From mathcomp Require Import ssreflect ssrfun ssrbool eqtype ssrnat seq.

Set Implicit Arguments.
Unset Strict Implicit.
Unset Printing Implicit Defensive.

(** ** Exceptions and the error monad *)

Inductive exn : Type :=
  | AttributeError
  | IndexError
  | KeyError
  | NameError
  | TypeError
  | ValueError
  | MissingHistoryError
  | DimensionMismatchError.

Inductive result (A : Type) : Type :=
  | Ok of A
  | Raise of exn.

Arguments Ok {A} _.
Arguments Raise {A} _.

Definition rbind {A B : Type} (c : result A) (k : A -> result B) : result B :=
  match c with
  | Ok a => k a
  | Raise e => Raise e
  end.

Notation "x <- c ;; k" := (rbind c (fun x => k))
  (at level 100, c at next level, right associativity).

Notation "' p <- c ;; k" := (rbind c (fun x => let p := x in k))
  (at level 100, p pattern, c at next level, right associativity).

Definition is_ok {A : Type} (c : result A) : bool :=
  if c is Ok _ then true else false.

(** A list comprehension [[f x for x in s]] whose body may raise. *)
Fixpoint mapM {A B : Type} (f : A -> result B) (s : seq A) : result (seq B) :=
  match s with
  | [::] => Ok [::]
  | x :: s' => y <- f x ;; ys <- mapM f s' ;; Ok (y :: ys)
  end.

(** A [for] loop over [s] threading the loop variables [acc]. *)
Fixpoint foldM {A S : Type} (body : A -> S -> result S) (s : seq A) (acc : S)
  : result S :=
  match s with
  | [::] => Ok acc
  | x :: s' => acc' <- body x acc ;; foldM body s' acc'
  end.

(** ** Python sequences *)

(** [s[i]] for a non-negative [i]. *)
Fixpoint getitem {T : Type} (s : seq T) (i : nat) : result T :=
  match s, i with
  | [::], _ => Raise IndexError
  | x :: _, 0 => Ok x
  | _ :: s', i'.+1 => getitem s' i'
  end.

(** [s[-k]] for a positive [k]. *)
Definition getitem_back {T : Type} (s : seq T) (k : nat) : result T :=
  if (0 < k) && (k <= size s) then getitem s (size s - k) else Raise IndexError.

(** [s[i] = x]. *)
Fixpoint setitem {T : Type} (s : seq T) (i : nat) (x : T) : result (seq T) :=
  match s, i with
  | [::], _ => Raise IndexError
  | _ :: s', 0 => Ok (x :: s')
  | y :: s', i'.+1 => s'' <- setitem s' i' x ;; Ok (y :: s'')
  end.

(** [v[lo:hi]] for [0 <= lo <= hi]: a slice never raises, it is clipped. *)
Definition slice {T : Type} (v : seq T) (lo hi : nat) : seq T :=
  take (hi - lo) (drop lo v).

(** ** Scalars

    The element type of the arrays with the arithmetic the solver uses on
    it.  Every structural result below holds for any such type; [binary64]
    instantiates it with IEEE 754 double precision, numpy's [float64]. *)

Record dtype : Type := Dtype {
  elt :> Type;
  fzero : elt;
  fadd : elt -> elt -> elt;
  fsub : elt -> elt -> elt;
  fmul : elt -> elt -> elt;
  fdiv : elt -> elt -> elt;
  of_int : Z -> elt
}.

(** Conversion of a Python [int], exact below 2^53. *)
Fixpoint float_of_pos (p : positive) : float :=
  match p with
  | xH => 1%float
  | xO q => PrimFloat.mul 2%float (float_of_pos q)
  | xI q => PrimFloat.add (PrimFloat.mul 2%float (float_of_pos q)) 1%float
  end.

Definition float_of_Z (z : Z) : float :=
  match z with
  | Z0 => 0%float
  | Zpos p => float_of_pos p
  | Zneg p => PrimFloat.opp (float_of_pos p)
  end.

Definition binary64 : dtype :=
  Dtype 0%float PrimFloat.add PrimFloat.sub PrimFloat.mul PrimFloat.div
    float_of_Z.

(** ** numpy arrays *)

Section Numpy.

Variable F : dtype.

Definition vec : Type := seq F.
Definition array2 : Type := seq (seq F).
Definition array3 : Type := seq (seq (seq F)).

(** [a.shape].  Behind an axis of length 0 the nested sequence keeps no
    extents and they read as 0; the element count and every reshape below
    are the same either way. *)
Definition shape2 (a : array2) : nat * nat := (size a, size (head [::] a)).
Definition shape3 (a : array3) : nat * nat * nat :=
  (size a, size (head [::] a), size (head [::] (head [::] a))).

(** [a.size]: the product of the shape. *)
Definition asize2 (a : array2) : nat := (shape2 a).1 * (shape2 a).2.
Definition asize3 (a : array3) : nat :=
  (shape3 a).1.1 * (shape3 a).1.2 * (shape3 a).2.

(** A nested sequence is an array of shape [d] when it is rectangular. *)
Definition rect2 (d : nat * nat) (a : array2) : bool :=
  (size a == d.1) && all (fun r => size r == d.2) a.

Definition rect3 (d : nat * nat * nat) (a : array3) : bool :=
  (size a == d.1.1) && all (rect2 (d.1.2, d.2)) a.

Definition is_array2 (a : array2) : bool := rect2 (shape2 a) a.

(** [a.reshape(-1, order='C')]: the last axis varies fastest. *)
Definition ravel2 (a : array2) : vec := flatten a.
Definition ravel3 (a : array3) : vec := flatten [seq flatten p | p <- a].

(** The nested sequence of shape [d] read from [v] in C order. *)
Definition unflatten2 (d : nat * nat) (v : vec) : array2 :=
  reshape (nseq d.1 d.2) v.

Definition unflatten3 (d : nat * nat * nat) (v : vec) : array3 :=
  [seq unflatten2 (d.1.2, d.2) p | p <- reshape (nseq d.1.1 (d.1.2 * d.2)) v].

(** [v.reshape(d, order='C')] of a one-dimensional [v]: the element counts
    must agree. *)
Definition reshape2 (v : vec) (d : nat * nat) : result array2 :=
  if size v == d.1 * d.2 then Ok (unflatten2 d v) else Raise ValueError.

Definition reshape3 (v : vec) (d : nat * nat * nat) : result array3 :=
  if size v == d.1.1 * d.1.2 * d.2 then Ok (unflatten3 d v)
  else Raise ValueError.

(** [np.zeros(d)] *)
Definition np_zeros3 (d : nat * nat * nat) : array3 :=
  nseq d.1.1 (nseq d.1.2 (nseq d.2 (fzero F))).

(** [np.concatenate(arrs)] of one-dimensional arrays: an empty sequence of
    arrays is refused. *)
Definition np_concatenate (arrs : seq vec) : result vec :=
  if arrs is [::] then Raise ValueError else Ok (flatten arrs).

(** [np.concatenate((a, b))] of three-dimensional arrays, along axis 0: the
    other axes must agree. *)
Definition np_concatenate3 (a b : array3) : result array3 :=
  if ((shape3 a).1.2 == (shape3 b).1.2) && ((shape3 a).2 == (shape3 b).2)
  then Ok (a ++ b) else Raise ValueError.

(** [c * v] for a Python float [c]. *)
Definition np_scale (c : F) (v : vec) : vec := [seq fmul c x | x <- v].

(** [u op v] on one-dimensional arrays, with numpy's broadcasting of a
    one-element operand. *)
Definition np_binop (op : F -> F -> F) (u v : vec) : result vec :=
  if size u == size v then Ok [seq op p.1 p.2 | p <- zip u v]
  else if size v == 1 then Ok [seq op x (head (fzero F) v) | x <- u]
  else if size u == 1 then Ok [seq op (head (fzero F) u) y | y <- v]
  else Raise ValueError.

Definition np_sub : vec -> vec -> result vec := np_binop (@fsub F).
Definition np_add : vec -> vec -> result vec := np_binop (@fadd F).

(** ** Aerodynamic snapshots *)

(** The fields of [AeroTimeStepInfo] the solver reads and writes: one array
    per surface in each list. *)
Record AeroTimeStepInfo : Type := MkAeroTimeStepInfo {
  n_surf : nat;
  zeta : seq array3;
  zeta_dot : seq array3;
  u_ext : seq array3;
  gamma : seq array2;
  gamma_dot : seq array2;
  gamma_star : seq array2;
  forces : seq array3;
  rho : option F
}.

(** [np.concatenate([arrs[ss].reshape(-1, order='C') for ss in range(n)])] *)
Definition concat_surfaces {A : Type} (ravel : A -> vec) (arrs : seq A)
    (n : nat) : result vec :=
  blocks <- mapM (fun ss => a <- getitem arrs ss ;; Ok (ravel a)) (iota 0 n) ;;
  np_concatenate blocks.

(** ** Vector packer *)

Definition pack_input_vector (aero_tstep : AeroTimeStepInfo) : result vec :=
  zeta_v <- concat_surfaces ravel3 (zeta aero_tstep) (n_surf aero_tstep) ;;
  zeta_dot_v <-
    concat_surfaces ravel3 (zeta_dot aero_tstep) (n_surf aero_tstep) ;;
  u_ext_v <- concat_surfaces ravel3 (u_ext aero_tstep) (n_surf aero_tstep) ;;
  np_concatenate [:: zeta_v; zeta_dot_v; u_ext_v].

(** [aero_tstep_m1] is [None] or a snapshot object; an object is true in a
    condition. *)
Definition pack_state_vector (aero_tstep : AeroTimeStepInfo)
    (aero_tstep_m1 : option AeroTimeStepInfo) (dt : F) (integr_order : Z)
  : result vec :=
  gamma_v <- concat_surfaces ravel2 (gamma aero_tstep) (n_surf aero_tstep) ;;
  gamma_star_v <-
    concat_surfaces ravel2 (gamma_star aero_tstep) (n_surf aero_tstep) ;;
  gamma_dot_v <-
    concat_surfaces ravel2 (gamma_dot aero_tstep) (n_surf aero_tstep) ;;
  gamma_m1 <-
    (if (integr_order =? 1)%Z then Ok [::]
     else
       match aero_tstep_m1 with
       | Some tstep_m1 =>
           concat_surfaces ravel2 (gamma tstep_m1) (n_surf aero_tstep)
       | None => np_sub gamma_v (np_scale dt gamma_dot_v)
       end) ;;
  np_concatenate [:: gamma_v; gamma_star_v; np_scale dt gamma_dot_v; gamma_m1].

(** The reference forces of [initialise]:
    [np.concatenate([forces[ss][0:3].reshape(-1, order='C') ...])]. *)
Definition pack_forces (aero_tstep : AeroTimeStepInfo) : result vec :=
  concat_surfaces (fun f => ravel3 (slice f 0 3)) (forces aero_tstep)
    (n_surf aero_tstep).

End Numpy.

Arguments MkAeroTimeStepInfo {F} _ _ _ _ _ _ _ _ _.

(** ** External collaborators

    [linuvlm.Dynamic] (the linear operator) and the velocity-field
    generators are not part of these sources.  They are taken as an
    interface: opaque objects with the methods the solver calls on them.  A
    method returns a value or raises; following the specification (section
    4.2: no mutation of A, B, C, D occurs during stepping) the methods of the
    operator do not change the operator. *)

(** The dictionary [run] hands to the velocity generator. *)
Record gen_params (F : dtype) : Type := MkGenParams {
  p_zeta : seq (array3 F);
  p_override : bool;
  p_t : F;
  p_ts : Z;
  p_dt : F;
  p_for_pos : vec F
}.

Record collaborators (F : dtype) : Type := MkCollaborators {
  Dynamic : Type;
  StateSpace : Type;
  Generator : Type;
  GeneratorInput : Type;
  (* linuvlm.Dynamic(aero_tstep, dt, integr_order, ScalingDict,
     RemovePredictor, UseSparse) *)
  Dynamic_new : AeroTimeStepInfo F -> F -> Z -> F * F * F -> bool -> bool ->
                result Dynamic;
  assemble_ss : Dynamic -> result Dynamic;
  get_SS : Dynamic -> StateSpace;
  (* solve_step(dx_m1, du_m1, du_n, transform_state) *)
  solve_step : Dynamic -> vec F -> option (vec F) -> vec F -> bool ->
               result (vec F * vec F);
  (* unpack_state(x_n, u_n) -> gamma_vec, gamma_star_vec, gamma_dot_vec *)
  unpack_state : Dynamic -> vec F -> vec F ->
                 result (vec F * vec F * vec F);
  generator_from_string : string -> result Generator;
  generator_initialise : Generator -> GeneratorInput -> result Generator;
  (* generate(params, uext): the new contents of the list [uext] *)
  generate : Generator -> gen_params F -> seq (array3 F) ->
             result (seq (array3 F))
}.

Section Solver.

Variable F : dtype.
Variable E : collaborators F.

(** ** The stored objects *)

(** Values held by the dictionary [data.aero.linear]. *)
Inductive pyobj : Type :=
  | PyVec of vec F
  | PySystem of Dynamic E
  | PySS of StateSpace E.

Definition dict : Type := seq (string * pyobj).

(** [d[k]] *)
Fixpoint dict_get (d : dict) (k : string) : result pyobj :=
  match d with
  | [::] => Raise KeyError
  | (k', v) :: d' => if String.eqb k' k then Ok v else dict_get d' k
  end.

(** [d[k] = v] *)
Fixpoint dict_set (d : dict) (k : string) (v : pyobj) : dict :=
  match d with
  | [::] => [:: (k, v)]
  | (k', v') :: d' =>
      if String.eqb k' k then (k, v) :: d' else (k', v') :: dict_set d' k v
  end.

Definition as_vec (o : pyobj) : result (vec F) :=
  if o is PyVec v then Ok v else Raise TypeError.

Definition as_system (o : pyobj) : result (Dynamic E) :=
  if o is PySystem s then Ok s else Raise AttributeError.

(** The solver settings after [settings.to_custom_types]. *)
Record Settings : Type := MkSettings {
  s_dt : F;
  s_integr_order : Z;
  s_density : F;
  s_ScalingDict : F * F * F;
  s_remove_predictor : bool;
  s_use_sparse : bool;
  s_physical_model : bool;
  s_velocity_field_generator : option string;
  s_velocity_field_input : option (GeneratorInput E)
}.

Record StructTimeStepInfo : Type := MkStructTimeStepInfo {
  for_pos : vec F
}.

(** A reference to a snapshot object. *)
Definition addr : Type := nat.

(** Calls made to the external collaborators, in order. *)
Inductive event : Type :=
  | EvGenerate of gen_params F
  | EvSolveStep of vec F & option (vec F) & vec F & bool.

(** The objects reachable from the solver: the store of snapshot objects,
    the [data] object ([data.aero], [data.structure], [data.ts],
    [data.settings]) and the attributes of [self]. *)
Record world : Type := MkWorld {
  heap : addr -> AeroTimeStepInfo F;
  timestep_info : seq addr;
  linear : option dict;
  aero_dimensions : seq (nat * nat);
  aero_dimensions_star : seq (nat * nat);
  structure_timestep_info : seq StructTimeStepInfo;
  ts : Z;
  data_settings : option Settings;
  self_data : bool;
  self_settings : option Settings;
  velocity_generator : option (Generator E);
  trace : seq event
}.

Definition set_heap (h : addr -> AeroTimeStepInfo F) (w : world) : world :=
  MkWorld h (timestep_info w) (linear w) (aero_dimensions w)
    (aero_dimensions_star w) (structure_timestep_info w) (ts w)
    (data_settings w) (self_data w) (self_settings w) (velocity_generator w)
    (trace w).

Definition set_linear (l : option dict) (w : world) : world :=
  MkWorld (heap w) (timestep_info w) l (aero_dimensions w)
    (aero_dimensions_star w) (structure_timestep_info w) (ts w)
    (data_settings w) (self_data w) (self_settings w) (velocity_generator w)
    (trace w).

Definition set_self_data (b : bool) (w : world) : world :=
  MkWorld (heap w) (timestep_info w) (linear w) (aero_dimensions w)
    (aero_dimensions_star w) (structure_timestep_info w) (ts w)
    (data_settings w) b (self_settings w) (velocity_generator w) (trace w).

Definition set_self_settings (s : option Settings) (w : world) : world :=
  MkWorld (heap w) (timestep_info w) (linear w) (aero_dimensions w)
    (aero_dimensions_star w) (structure_timestep_info w) (ts w)
    (data_settings w) (self_data w) s (velocity_generator w) (trace w).

Definition set_velocity_generator (g : option (Generator E)) (w : world)
  : world :=
  MkWorld (heap w) (timestep_info w) (linear w) (aero_dimensions w)
    (aero_dimensions_star w) (structure_timestep_info w) (ts w)
    (data_settings w) (self_data w) (self_settings w) g (trace w).

Definition log (e : event) (w : world) : world :=
  MkWorld (heap w) (timestep_info w) (linear w) (aero_dimensions w)
    (aero_dimensions_star w) (structure_timestep_info w) (ts w)
    (data_settings w) (self_data w) (self_settings w) (velocity_generator w)
    (rcons (trace w) e).

(** Attribute assignments on a snapshot object. *)
Definition with_u_ext (v : seq (array3 F)) (s : AeroTimeStepInfo F) :=
  MkAeroTimeStepInfo (n_surf s) (zeta s) (zeta_dot s) v (gamma s)
    (gamma_dot s) (gamma_star s) (forces s) (rho s).

Definition with_forces (v : seq (array3 F)) (s : AeroTimeStepInfo F) :=
  MkAeroTimeStepInfo (n_surf s) (zeta s) (zeta_dot s) (u_ext s) (gamma s)
    (gamma_dot s) (gamma_star s) v (rho s).

Definition with_gamma (v : seq (array2 F)) (s : AeroTimeStepInfo F) :=
  MkAeroTimeStepInfo (n_surf s) (zeta s) (zeta_dot s) (u_ext s) v
    (gamma_dot s) (gamma_star s) (forces s) (rho s).

Definition with_gamma_dot (v : seq (array2 F)) (s : AeroTimeStepInfo F) :=
  MkAeroTimeStepInfo (n_surf s) (zeta s) (zeta_dot s) (u_ext s) (gamma s)
    v (gamma_star s) (forces s) (rho s).

Definition with_gamma_star (v : seq (array2 F)) (s : AeroTimeStepInfo F) :=
  MkAeroTimeStepInfo (n_surf s) (zeta s) (zeta_dot s) (u_ext s) (gamma s)
    (gamma_dot s) v (forces s) (rho s).

Definition with_rho (v : option F) (s : AeroTimeStepInfo F) :=
  MkAeroTimeStepInfo (n_surf s) (zeta s) (zeta_dot s) (u_ext s) (gamma s)
    (gamma_dot s) (gamma_star s) (forces s) v.

(** [obj.field = v] for the object at address [a]. *)
Definition assign (a : addr) (f : AeroTimeStepInfo F -> AeroTimeStepInfo F)
    (w : world) : world :=
  set_heap (fun b => if b == a then f (heap w a) else heap w b) w.

(** ** State and exceptions *)

Definition M (A : Type) : Type := world -> world * result A.
Definition retM {A : Type} (a : A) : M A := fun w => (w, Ok a).
Definition bindM {A B : Type} (c : M A) (k : A -> M B) : M B :=
  fun w =>
    match c w with
    | (w', Ok a) => k a w'
    | (w', Raise e) => (w', Raise e)
    end.

Definition lift {A : Type} (r : result A) : M A := fun w => (w, r).

Definition gets {A : Type} (f : world -> A) : M A := fun w => (w, Ok (f w)).

Definition modify (f : world -> world) : M unit := fun w => (f w, Ok tt).

(** Reading an attribute that may be missing or [None]. *)
Definition attr {A : Type} (e : exn) (o : option A) : result A :=
  if o is Some a then Ok a else Raise e.

Notation "x <~ c ;; k" := (bindM c (fun x => k))
  (at level 100, c at next level, right associativity).

Notation "' p <~ c ;; k" := (bindM c (fun x => let p := x in k))
  (at level 100, p pattern, c at next level, right associativity).

(** A computation that reads the current objects and may raise. *)
Definition reads {A : Type} (f : world -> result A) : M A :=
  fun w => (w, f w).

(** [self.data.aero.linear]: [self.data] may be [None] and the attribute
    [linear] may not exist; both raise [AttributeError]. *)
Definition the_linear (w : world) : result dict :=
  if self_data w then attr AttributeError (linear w) else Raise AttributeError.

(** [self.data.aero.linear[k]] used as an array. *)
Definition linear_vec (k : string) (w : world) : result (vec F) :=
  l <- the_linear w ;; o <- dict_get l k ;; as_vec o.

(** [self.data.aero.linear['System']] used as the operator. *)
Definition linear_system (w : world) : result (Dynamic E) :=
  l <- the_linear w ;; o <- dict_get l "System"%string ;; as_system o.

(** [self.data.aero.linear[k] = v] *)
Definition linear_setitem (k : string) (v : pyobj) : M unit :=
  l <~ reads the_linear ;; modify (set_linear (Some (dict_set l k v))).

(** [self.data.aero.timestep_info[-k]] *)
Definition retained (k : nat) (w : world) : result addr :=
  if self_data w then getitem_back (timestep_info w) k
  else Raise AttributeError.

(** [self.settings[...]] *)
Definition the_settings (w : world) : result Settings :=
  attr TypeError (self_settings w).

(** ** [unpack_ss_vectors] *)

(** The variables of the loop over the surfaces. *)
Record unpack_vars : Type := MkUnpackVars {
  v_forces : seq (array3 F);
  v_gamma : seq (array2 F);
  v_gamma_dot : seq (array2 F);
  v_gamma_star : seq (array2 F);
  worked_points : nat;
  worked_panels : nat;
  worked_wake_panels : nat
}.

Definition unpack_surface (dims dims_star : seq (nat * nat))
    (f_aero gamma_vec gamma_star_vec gamma_dot_vec : vec F)
    (aero_tstep : AeroTimeStepInfo F) (i_surf : nat) (v : unpack_vars)
  : result unpack_vars :=
  zeta_i <- getitem (zeta aero_tstep) i_surf ;;
  let dimensions := shape3 zeta_i in
  dimensions_gamma <- getitem dims i_surf ;;
  dimensions_wake <- getitem dims_star i_surf ;;
  let points_in_surface := asize3 zeta_i in
  gamma_i <- getitem (gamma aero_tstep) i_surf ;;
  let panels_in_surface := asize2 gamma_i in
  gamma_star_i <- getitem (gamma_star aero_tstep) i_surf ;;
  let panels_in_wake := asize2 gamma_star_i in
  f <- reshape3 (slice f_aero (worked_points v)
                   (worked_points v + points_in_surface)) dimensions ;;
  let forces1 := rcons (v_forces v) f in
  f_i <- getitem forces1 i_surf ;;
  f6 <- np_concatenate3 f_i (np_zeros3 F dimensions) ;;
  forces2 <- setitem forces1 i_surf f6 ;;
  g <- reshape2 (slice gamma_vec (worked_panels v)
                   (worked_panels v + panels_in_surface)) dimensions_gamma ;;
  gd <- reshape2 (slice gamma_dot_vec (worked_panels v)
                    (worked_panels v + panels_in_surface)) dimensions_gamma ;;
  gs <- reshape2 (slice gamma_star_vec (worked_wake_panels v)
                    (worked_wake_panels v + panels_in_wake)) dimensions_wake ;;
  Ok (MkUnpackVars forces2 (rcons (v_gamma v) g) (rcons (v_gamma_dot v) gd)
        (rcons (v_gamma_star v) gs)
        (worked_points v + points_in_surface)
        (worked_panels v + panels_in_surface)
        (worked_wake_panels v + panels_in_wake)).

Definition unpack_loop (dims dims_star : seq (nat * nat))
    (f_aero gamma_vec gamma_star_vec gamma_dot_vec : vec F)
    (aero_tstep : AeroTimeStepInfo F) : result unpack_vars :=
  foldM (unpack_surface dims dims_star f_aero gamma_vec gamma_star_vec
           gamma_dot_vec aero_tstep)
    (iota 0 (n_surf aero_tstep))
    (MkUnpackVars [::] [::] [::] [::] 0 0 0).

Definition unpack_ss_vectors (w : world) (y_n x_n u_n : vec F)
    (aero_tstep : AeroTimeStepInfo F)
  : result (seq (array3 F) * seq (array2 F) * seq (array2 F)
            * seq (array2 F)) :=
  let f_aero := y_n in
  sys <- linear_system w ;;
  ' (gamma_vec, gamma_star_vec, gamma_dot_vec) <- unpack_state sys x_n u_n ;;
  v <- unpack_loop (aero_dimensions w) (aero_dimensions_star w) f_aero
         gamma_vec gamma_star_vec gamma_dot_vec aero_tstep ;;
  Ok (v_forces v, v_gamma v, v_gamma_dot v, v_gamma_star v).

(** ** [initialise] *)

(** Evaluating a name that is bound neither in the function nor at module
    level.  The module binds [os], [sys], [BaseSolver], [solver], [np],
    [settings], [gen_interface], [linuvlm] and [StepLinearUVLM]; [initialise]
    binds [self], [data], [custom_settings], [aero_tstep], [lin_uvlm_system],
    [u_0], [dt], [x_0] and [f_0]. *)
Definition unbound_name : result pyobj := Raise NameError.

(** Lines 142-177: the handler of [AttributeError], run when
    [self.data.aero.linear] does not exist yet. *)
Definition linearise (st : Settings) : M unit :=
  _ <~ modify (set_linear (Some [::])) ;;
  aero_tstep <~ reads (retained 1) ;;
  _ <~ modify (assign aero_tstep (with_rho (Some (s_density st)))) ;;
  (* Generate instance of linuvlm.Dynamic() *)
  lin_uvlm_system <~
    reads (fun w =>
             Dynamic_new E (heap w aero_tstep) (s_dt st) (s_integr_order st)
               (s_ScalingDict st) (s_remove_predictor st) (s_use_sparse st)) ;;
  (* Save reference values *)
  u_0 <~ reads (fun w => pack_input_vector (heap w aero_tstep)) ;;
  let dt := s_dt st in
  x_0 <~ reads (fun w => pack_state_vector (heap w aero_tstep) None dt
                           (s_integr_order st)) ;;
  f_0 <~ reads (fun w => pack_forces (heap w aero_tstep)) ;;
  (* Assemble the state space system *)
  lin_uvlm_system <~ lift (assemble_ss lin_uvlm_system) ;;
  _ <~ linear_setitem "System" (PySystem lin_uvlm_system) ;;
  _ <~ linear_setitem "SS" (PySS (get_SS lin_uvlm_system)) ;;
  _ <~ linear_setitem "x_0" (PyVec x_0) ;;
  _ <~ linear_setitem "u_0" (PyVec u_0) ;;
  _ <~ linear_setitem "y_0" (PyVec f_0) ;;
  gamma <~ lift unbound_name ;;
  _ <~ linear_setitem "gamma_0" gamma ;;
  gamma_star <~ lift unbound_name ;;
  _ <~ linear_setitem "gamma_star_0" gamma_star ;;
  gamma_dot <~ lift unbound_name ;;
  linear_setitem "gamma_dot_0" gamma_dot.

(** The settings are taken as already converted by
    [settings.to_custom_types]. *)
Definition initialise (custom_settings : option Settings) : M unit :=
  _ <~ modify (set_self_data true) ;;
  st <~ reads (fun w => if custom_settings is Some s then Ok s
                        else attr KeyError (data_settings w)) ;;
  _ <~ modify (set_self_settings (Some st)) ;;
  (* Check whether linear UVLM has been initialised *)
  has_linear <~ gets (fun w => isSome (linear w)) ;;
  _ <~ (if has_linear then retM tt else linearise st) ;;
  (* Initialise velocity generator *)
  name <~ lift (attr KeyError (s_velocity_field_generator st)) ;;
  velocity_generator_type <~ lift (generator_from_string E name) ;;
  _ <~ modify (set_velocity_generator (Some velocity_generator_type)) ;;
  input <~ lift (attr KeyError (s_velocity_field_input st)) ;;
  g <~ lift (generator_initialise velocity_generator_type input) ;;
  modify (set_velocity_generator (Some g)).

(** ** [run] *)

(** Lines 279-283: the previous-step input delta, packed from the last
    retained snapshot when the predictor is removed, [None] otherwise. *)
Definition input_delta_m1 (st : Settings) (w : world)
  : result (option (vec F)) :=
  if s_remove_predictor st then
    last_tstep <- retained 1 w ;;
    u_m1 <- pack_input_vector (heap w last_tstep) ;;
    u_0 <- linear_vec "u_0" w ;;
    du_m1 <- np_sub u_m1 u_0 ;;
    Ok (Some du_m1)
  else Ok None.

(** Lines 286-289: the state vector at time n-1. *)
Definition state_m1 (aero_tstep : addr) (dt : F) (integr_order : Z)
    (w : world) : result (vec F) :=
  if self_data w then
    if size (timestep_info w) < 2
    then pack_state_vector (heap w aero_tstep) None dt integr_order
    else
      tstep_m1 <- getitem_back (timestep_info w) 2 ;;
      pack_state_vector (heap w aero_tstep) (Some (heap w tstep_m1)) dt
        integr_order
  else Raise AttributeError.

(** Lines 251-252: the snapshot the step works on. *)
Definition current (aero_tstep : option addr) (w : world) : result addr :=
  if aero_tstep is Some a then Ok a else retained 1 w.

Definition run (aero_tstep : option addr)
    (structure_tstep : option StructTimeStepInfo) (dt t : option F)
  : M unit :=
  aero_tstep <~ reads (current aero_tstep) ;;
  structure_tstep <~
    reads (fun w =>
             if structure_tstep is Some s then Ok s
             else if self_data w
                  then getitem_back (structure_timestep_info w) 1
                  else Raise AttributeError) ;;
  dt <~ reads (fun w => if dt is Some d then Ok d
                        else st <- the_settings w ;; Ok (s_dt st)) ;;
  t <~ reads (fun w => if t is Some t' then Ok t'
                       else if self_data w
                            then Ok (fmul (of_int F (ts w)) dt)
                            else Raise AttributeError) ;;
  st <~ reads the_settings ;;
  let integr_order := s_integr_order st in
  (* Generate external velocity field u_ext *)
  gen <~ reads (fun w => attr AttributeError (velocity_generator w)) ;;
  params <~
    reads (fun w =>
             if self_data w
             then Ok (MkGenParams (zeta (heap w aero_tstep)) true t (ts w) dt
                        (for_pos structure_tstep))
             else Raise AttributeError) ;;
  _ <~ modify (log (EvGenerate params)) ;;
  u_ext' <~ reads (fun w => generate gen params (u_ext (heap w aero_tstep))) ;;
  _ <~ modify (assign aero_tstep (with_u_ext u_ext')) ;;
  (* Input at time step n *)
  u_n <~ reads (fun w => pack_input_vector (heap w aero_tstep)) ;;
  u_0 <~ reads (linear_vec "u_0") ;;
  du_n <~ lift (np_sub u_n u_0) ;;
  du_m1 <~ reads (input_delta_m1 st) ;;
  (* State vector at time n-1 *)
  x_m1 <~ reads (state_m1 aero_tstep dt integr_order) ;;
  x_0 <~ reads (linear_vec "x_0") ;;
  dx_m1 <~ lift (np_sub x_m1 x_0) ;;
  (* Solve system *)
  sys <~ reads linear_system ;;
  _ <~ modify (log (EvSolveStep dx_m1 du_m1 du_n true)) ;;
  dxy <~ lift (solve_step sys dx_m1 du_m1 du_n true) ;;
  x_0 <~ reads (linear_vec "x_0") ;;
  x_n <~ lift (np_add x_0 dxy.1) ;;
  y_0 <~ reads (linear_vec "y_0") ;;
  y_n <~ lift (np_add y_0 dxy.2) ;;
  unpacked <~
    reads (fun w => unpack_ss_vectors w y_n x_n u_n (heap w aero_tstep)) ;;
  _ <~ modify (assign aero_tstep (with_forces unpacked.1.1.1)) ;;
  _ <~ modify (assign aero_tstep (with_gamma unpacked.1.1.2)) ;;
  _ <~ modify (assign aero_tstep (with_gamma_dot unpacked.1.2)) ;;
  modify (assign aero_tstep (with_gamma_star unpacked.2)).

End Solver.

Notation "x <~ c ;; k" := (bindM c (fun x => k))
  (at level 100, c at next level, right associativity).

(** ** [__init__] *)

Section Constructor.

Variable F : dtype.
Variable E : collaborators F.

(** Lines 103-106: a new solver holds no data, no settings and no velocity
    generator.  The dictionaries of setting types and defaults of lines
    77-101 are only handed to [settings.to_custom_types], which is not part
    of these sources ([initialise] takes the settings as already converted),
    and the attribute [lin_uvlm_system] is never read. *)
Definition __init__ : M E unit :=
  _ <~ modify (@set_self_data F E false) ;;
  _ <~ modify (@set_self_settings F E None) ;;
  modify (@set_velocity_generator F E None).

End Constructor.

(** ** The linear state-space stepper of the specification *)

Section Stepper.

Variable F : dtype.

Definition matrix : Type := seq (vec F).

Record StateSpaceOperator : Type := MkStateSpaceOperator {
  ss_A : matrix;
  ss_B : matrix;
  ss_C : matrix;
  ss_D : matrix
}.

(** The operator with the form chosen at linearization time and the layout
    of its state vector. *)
Record LinearSystemState : Type := MkLinearSystemState {
  operator : StateSpaceOperator;
  predictor_removed : bool;
  n_bound : nat;
  n_wake : nat;
  step_dt : F
}.

Definition dot (r v : vec F) : F :=
  foldr (fun p acc => fadd (fmul p.1 p.2) acc) (fzero F) (zip r v).

Definition matvec (m : matrix) (v : vec F) : result (vec F) :=
  if all (fun r => size r == size v) m then Ok [seq dot r v | r <- m]
  else Raise DimensionMismatchError.

Definition vadd (u v : vec F) : result (vec F) :=
  if size u == size v then Ok [seq fadd p.1 p.2 | p <- zip u v]
  else Raise DimensionMismatchError.

(** Modelled from the spec: [linuvlm.Dynamic.solve_step] is not part of
    these sources.  Section 4.2: the standard form computes
    [x[n] = A x[n-1] + B u[n]] and [y[n] = C x[n] + D u[n]] and does not use
    the previous-step input; the predictor-removed form propagates
    [h[n] = A h[n-1] + B u[n-1]] with [y[n] = C h[n] + D u[n]], and
    attempting it without the previous-step input is the fatal
    missing-history error; a dimension mismatch is fatal.  The
    specification gives the transform flag no effect of its own on the
    recurrence. *)
Definition spec_solve_step (sys : LinearSystemState) (dx_m1 : vec F)
    (du_m1 : option (vec F)) (du_n : vec F) (transform_state : bool)
  : result (vec F * vec F) :=
  let op := operator sys in
  if predictor_removed sys then
    match du_m1 with
    | None => Raise MissingHistoryError
    | Some du_m1 =>
        ah <- matvec (ss_A op) dx_m1 ;;
        bu <- matvec (ss_B op) du_m1 ;;
        h_n <- vadd ah bu ;;
        ch <- matvec (ss_C op) h_n ;;
        du <- matvec (ss_D op) du_n ;;
        y_n <- vadd ch du ;;
        Ok (h_n, y_n)
    end
  else
    ax <- matvec (ss_A op) dx_m1 ;;
    bu <- matvec (ss_B op) du_n ;;
    x_n <- vadd ax bu ;;
    cx <- matvec (ss_C op) x_n ;;
    du <- matvec (ss_D op) du_n ;;
    y_n <- vadd cx du ;;
    Ok (x_n, y_n).

(** Modelled from the spec: [linuvlm.Dynamic.unpack_state] is not part of
    these sources.  Section 3: the state vector is bound circulation, wake
    circulation, scaled circulation rate and, for the second order, the
    previous bound circulation; the rate is recovered from its scaled
    form. *)
Definition spec_unpack_state (sys : LinearSystemState) (x_n u_n : vec F)
  : result (vec F * vec F * vec F) :=
  let K := n_bound sys in
  let K_star := n_wake sys in
  Ok (slice x_n 0 K, slice x_n K (K + K_star),
      [seq fdiv g (step_dt sys)
      | g <- slice x_n (K + K_star) (K + K_star + K)]).

Definition identity_matrix (n : nat) : matrix :=
  [seq [seq (if i == j then of_int F 1 else fzero F) | j <- iota 0 n]
  | i <- iota 0 n].

Definition zero_matrix (rows cols : nat) : matrix :=
  nseq rows (nseq cols (fzero F)).

(** Modelled from the spec: the assembly routine of [linuvlm.Dynamic] is
    not part of these sources and the specification treats the assembled
    operator as opaque (section 6).  This stand-in fixes the dimensions from
    the snapshot and holds the circulation state ([A] the identity, the
    other matrices zero). *)
Definition spec_Dynamic_new (tsaero : AeroTimeStepInfo F) (dt : F)
    (integr_order : Z) (ScalingDict : F * F * F)
    (RemovePredictor UseSparse : bool) : result LinearSystemState :=
  let K := sumn [seq asize2 g | g <- gamma tsaero] in
  let K_star := sumn [seq asize2 g | g <- gamma_star tsaero] in
  let n_y := sumn [seq asize3 z | z <- zeta tsaero] in
  let n_u := 3 * n_y in
  let n_x := if (integr_order =? 1)%Z then K + K_star + K
             else K + K_star + K + K in
  Ok (MkLinearSystemState
        (MkStateSpaceOperator (identity_matrix n_x) (zero_matrix n_x n_u)
           (zero_matrix n_y n_x) (zero_matrix n_y n_u))
        RemovePredictor K K_star dt).

(** Modelled from the spec: the velocity-field generators are not part of
    these sources (section 6).  The uniform-flow variant fills every vertex
    of the grid with one velocity vector. *)
Definition uniform_generate (u_inf : vec F) (params : gen_params F)
    (uext : seq (array3 F)) : result (seq (array3 F)) :=
  Ok [seq [seq [seq [seq nth (fzero F) u_inf cp.1 | _ <- row] | row <- cp.2]
          | cp <- zip (iota 0 (size a)) a]
     | a <- uext].

(** Modelled from the spec: the collaborators of sections 4.2 and 6, with
    an assembly that succeeds and a generator registry that knows the
    uniform flow only. *)
Definition spec_collaborators : collaborators F :=
  {| Dynamic := LinearSystemState;
     StateSpace := StateSpaceOperator;
     Generator := vec F;
     GeneratorInput := vec F;
     Dynamic_new := spec_Dynamic_new;
     assemble_ss := fun sys => Ok sys;
     get_SS := operator;
     solve_step := spec_solve_step;
     unpack_state := spec_unpack_state;
     generator_from_string := fun name => Ok [::];
     generator_initialise := fun g input => Ok input;
     generate := uniform_generate |}.

End Stepper.

(** * PickleData: writing the data structure to a pickle file

    A shallow embedding of [sharpy/postproc/pickledata.py].  The structural
    snapshots live in a store, as the aerodynamic ones above; the calls that
    convert a snapshot and the attempts to write the file are recorded in
    order. *)

Module PickleData.

(** ** External collaborators and stored objects *)

Section Objects.

(** What a structural snapshot holds besides its frame flag, and the object
    that may be given as [caller]. *)
Variables (Payload Caller : Type).

Record StructTimeStepInfo : Type := MkStructTimeStepInfo {
  in_global_AFoR : bool;
  payload : Payload
}.

(** [data.structure]: the snapshot objects and the list [timestep_info],
    whose entries may be [None]. *)
Record Structure : Type := MkStructure {
  heap : addr -> StructTimeStepInfo;
  timestep_info : seq (option addr)
}.

(** A dictionary with string keys. *)
Fixpoint dict_get {V : Type} (d : seq (string * V)) (k : string) : result V :=
  match d with
  | [::] => Raise KeyError
  | (k', v) :: d' => if String.eqb k' k then Ok v else dict_get d' k
  end.

Fixpoint dict_set {V : Type} (d : seq (string * V)) (k : string) (v : V)
  : seq (string * V) :=
  match d with
  | [::] => [:: (k, v)]
  | (k', v') :: d' =>
      if String.eqb k' k then (k, v) :: d' else (k', v') :: dict_set d' k v
  end.

(** The settings of one solver, as read from the case file. *)
Definition settings_dict : Type := seq (string * string).

(** The [data] object: the structure, the settings of every solver and the
    output folder. *)
Record PreSharpy : Type := MkPreSharpy {
  structure : Structure;
  settings : seq (string * settings_dict);
  output_folder : string
}.

(** [settings.to_custom_types], the conversion of a structural snapshot and
    the file system are not part of these sources.  They are taken as an
    interface: a call returns or raises, and a call that raises leaves the
    objects as they were. *)
Record collaborators : Type := MkCollaborators {
  (* settings.to_custom_types(settings, types, defaults): the new contents
     of the dictionary [settings], converted in place *)
  to_custom_types : settings_dict -> settings_dict -> settings_dict ->
                    result settings_dict;
  (* tstep.whole_structure_to_global_AFoR(structure): the new contents of
     the structure, the snapshot included *)
  whole_structure_to_global_AFoR : Structure -> addr -> result Structure;
  (* open(filename, 'wb') and pickle.dump(data, f, protocol) *)
  pickle_dump : string -> PreSharpy -> result unit
}.

Variable E : collaborators.

(** Calls made to the external collaborators, in order. *)
Inductive event : Type :=
  | EvToGlobal of addr
  | EvDump of string & PreSharpy.

(** The [data] object and the attributes of [self]. *)
Record world : Type := MkWorld {
  data : PreSharpy;
  self_data : bool;
  self_settings : option settings_dict;
  self_folder : option string;
  self_filename : option string;
  self_caller : option Caller;
  trace : seq event
}.

Definition set_data (d : PreSharpy) (w : world) : world :=
  MkWorld d (self_data w) (self_settings w) (self_folder w) (self_filename w)
    (self_caller w) (trace w).

Definition set_self_data (b : bool) (w : world) : world :=
  MkWorld (data w) b (self_settings w) (self_folder w) (self_filename w)
    (self_caller w) (trace w).

Definition set_self_settings (s : option settings_dict) (w : world) : world :=
  MkWorld (data w) (self_data w) s (self_folder w) (self_filename w)
    (self_caller w) (trace w).

Definition set_self_folder (f : option string) (w : world) : world :=
  MkWorld (data w) (self_data w) (self_settings w) f (self_filename w)
    (self_caller w) (trace w).

Definition set_self_filename (f : option string) (w : world) : world :=
  MkWorld (data w) (self_data w) (self_settings w) (self_folder w) f
    (self_caller w) (trace w).

Definition set_self_caller (c : option Caller) (w : world) : world :=
  MkWorld (data w) (self_data w) (self_settings w) (self_folder w)
    (self_filename w) c (trace w).

Definition log (e : event) (w : world) : world :=
  MkWorld (data w) (self_data w) (self_settings w) (self_folder w)
    (self_filename w) (self_caller w) (rcons (trace w) e).

(** [data.structure] after a conversion, and [data.settings[k] = v]. *)
Definition set_structure (s : Structure) (w : world) : world :=
  set_data (MkPreSharpy s (settings (data w)) (output_folder (data w))) w.

Definition set_settings (k : string) (v : settings_dict) (w : world) : world :=
  set_data (MkPreSharpy (structure (data w)) (dict_set (settings (data w)) k v)
              (output_folder (data w))) w.

(** ** State and exceptions *)

Definition M (A : Type) : Type := world -> world * result A.
Definition retM {A : Type} (a : A) : M A := fun w => (w, Ok a).
Definition bindM {A B : Type} (c : M A) (k : A -> M B) : M B :=
  fun w =>
    match c w with
    | (w', Ok a) => k a w'
    | (w', Raise e) => (w', Raise e)
    end.

Definition lift {A : Type} (r : result A) : M A := fun w => (w, r).
Definition gets {A : Type} (f : world -> A) : M A := fun w => (w, Ok (f w)).
Definition modify (f : world -> world) : M unit := fun w => (f w, Ok tt).
Definition reads {A : Type} (f : world -> result A) : M A :=
  fun w => (w, f w).

Local Notation "x <~ c ;; k" := (bindM c (fun x => k))
  (at level 100, c at next level, right associativity).

(** A [for] loop whose body works on the objects. *)
Fixpoint forM {A : Type} (body : A -> M unit) (s : seq A) : M unit :=
  match s with
  | [::] => retM tt
  | x :: s' => _ <~ body x ;; forM body s'
  end.

(** ** The post-processor *)

Definition solver_id : string := "PickleData".

(** The class attributes [settings_types] and [settings_default]: both are
    empty dictionaries. *)
Definition settings_types : settings_dict := [::].
Definition settings_default : settings_dict := [::].

(** Lines 33-40 *)
Definition __init__ : M unit :=
  _ <~ modify (set_self_settings None) ;;
  _ <~ modify (set_self_data false) ;;
  _ <~ modify (set_self_filename None) ;;
  _ <~ modify (set_self_folder None) ;;
  modify (set_self_caller None).

(** Lines 42-54.  Without custom settings [self.settings] is the dictionary
    [data.settings['PickleData']] itself, so that its conversion in place is
    seen through [data]. *)
Definition initialise (custom_settings : option settings_dict)
    (caller : option Caller) : M unit :=
  _ <~ modify (set_self_data true) ;;
  st <~ reads (fun w => if custom_settings is Some s then Ok s
                        else dict_get (settings (data w)) solver_id) ;;
  _ <~ modify (set_self_settings (Some st)) ;;
  st' <~ lift (to_custom_types E st settings_types settings_default) ;;
  _ <~ modify (set_self_settings (Some st')) ;;
  _ <~ (if custom_settings is Some _ then retM tt
        else modify (set_settings solver_id st')) ;;
  (* create folder for containing files if necessary *)
  folder <~ gets (fun w => output_folder (data w)) ;;
  _ <~ modify (set_self_folder (Some folder)) ;;
  sharpy <~ reads (fun w => dict_get (settings (data w)) "SHARPy") ;;
  case <~ lift (dict_get sharpy "case") ;;
  _ <~ modify (set_self_filename (Some (folder ++ case ++ ".pkl")%string)) ;;
  modify (set_self_caller caller).

(** [self.data.structure]: [self.data] may be [None]. *)
Definition the_structure (w : world) : result Structure :=
  if self_data w then Ok (structure (data w)) else Raise AttributeError.

(** Lines 58-61: the body of the loop over the indices of
    [timestep_info]. *)
Definition to_global_AFoR (it : nat) : M unit :=
  tstep_p <~ reads (fun w => s <- the_structure w ;;
                             getitem (timestep_info s) it) ;;
  if tstep_p is Some p then
    in_global <~ gets (fun w => in_global_AFoR (heap (structure (data w)) p)) ;;
    if in_global then retM tt
    else
      _ <~ modify (log (EvToGlobal p)) ;;
      s' <~ reads (fun w => whole_structure_to_global_AFoR E
                              (structure (data w)) p) ;;
      modify (set_structure s')
  else retM tt.

(** Lines 56-65.  The argument [online] is not used. *)
Definition run (online : bool) : M PreSharpy :=
  n <~ reads (fun w => s <- the_structure w ;; Ok (size (timestep_info s))) ;;
  _ <~ forM to_global_AFoR (iota 0 n) ;;
  filename <~ reads (fun w => attr TypeError (self_filename w)) ;;
  d <~ gets data ;;
  _ <~ modify (log (EvDump filename d)) ;;
  _ <~ lift (pickle_dump E filename d) ;;
  gets data.

(** ** Vocabulary of the statements *)

(** The calls [run] made to its collaborators between [w] and [w']. *)
Definition emitted (w w' : world) : seq event :=
  drop (size (trace w)) (trace w').

(** No retained snapshot needs a conversion: every entry is [None] or a
    snapshot already in the global frame. *)
Definition all_global (s : Structure) : bool :=
  all (fun o => if o is Some p then in_global_AFoR (heap s p) else true)
      (timestep_info s).

(** The first [k] entries need no conversion. *)
Definition global_upto (k : nat) (s : Structure) : bool :=
  all (fun o => if o is Some p then in_global_AFoR (heap s p) else true)
      (take k (timestep_info s)).

(** A conversion that keeps the list of retained snapshots, marks the
    snapshot it is called on as being in the global frame, and clears the
    mark of no snapshot. *)
Definition marks_the_snapshot : Prop :=
  forall s p s',
    whole_structure_to_global_AFoR E s p = Ok s' ->
    [/\ timestep_info s' = timestep_info s,
        in_global_AFoR (heap s' p)
      & forall q, in_global_AFoR (heap s q) -> in_global_AFoR (heap s' q)].

End Objects.

Arguments EvToGlobal {Payload} _.

End PickleData.

(** * Vocabulary of the statements *)

Section PackerTerms.

Variable F : dtype.

Implicit Types (ts : AeroTimeStepInfo F) (v : vec F).

(** The block a list of per-surface arrays contributes to a packed vector. *)
Definition block {A : Type} (ravel : A -> vec F) (arrs : seq A) : vec F :=
  flatten [seq ravel a | a <- arrs].

(** Number of bound-circulation and wake-circulation entries of a snapshot:
    the sums of [gamma[ss].size] and [gamma_star[ss].size]. *)
Definition panels ts : nat := sumn [seq asize2 g | g <- gamma ts].
Definition wake_panels ts : nat := sumn [seq asize2 g | g <- gamma_star ts].

(** The circulation fields hold one array per surface, there is at least one
    surface, and [gamma_dot] has the shape of [gamma] on every surface. *)
Definition wf_circulation ts : bool :=
  [&& 0 < n_surf ts,
      size (gamma ts) == n_surf ts,
      size (gamma_star ts) == n_surf ts,
      size (gamma_dot ts) == n_surf ts,
      all (@is_array2 F) (gamma ts),
      all (@is_array2 F) (gamma_star ts),
      all (@is_array2 F) (gamma_dot ts) &
      [seq asize2 g | g <- gamma_dot ts] == [seq asize2 g | g <- gamma ts]].

(** The grid fields hold one array per surface and there is at least one
    surface. *)
Definition wf_grid ts : bool :=
  [&& 0 < n_surf ts,
      size (zeta ts) == n_surf ts,
      size (zeta_dot ts) == n_surf ts &
      size (u_ext ts) == n_surf ts].

(** Position of element [(c, i, j)] of surface [s] inside a block. *)
Definition block_index (arrs : seq (array3 F)) (s : nat)
    (d : nat * nat * nat) (c i j : nat) : nat :=
  sumn [seq size (ravel3 a) | a <- take s arrs] + ((c * d.1.2 + i) * d.2 + j).

(** The forces of every surface form a 6 x d1 x d2 array where the grid of
    the surface has shape 3 x d1 x d2, and there is at least one surface. *)
Definition wf_forces ts : bool :=
  [&& 0 < n_surf ts,
      size (forces ts) == n_surf ts &
      all (fun zf => ((shape3 zf.1).1.1 == 3)
                     && rect3 (6, (shape3 zf.1).1.2, (shape3 zf.1).2) zf.2)
          (zip (zeta ts) (forces ts))].

End PackerTerms.

Section UnpackTerms.

Variable F : dtype.

Implicit Types (ts : AeroTimeStepInfo F) (v y : vec F).

(** Offset of surface [k] in a vector cut by the element counts [sh], and
    the piece of the vector that belongs to surface [i]. *)
Definition off (sh : seq nat) (k : nat) : nat := sumn (take k sh).

Definition chunk (sh : seq nat) v (i : nat) : vec F :=
  take (nth 0 sh i) (drop (off sh i) v).

Definition surface_points ts : seq nat := [seq asize3 z | z <- zeta ts].
Definition surface_panels ts : seq nat := [seq asize2 g | g <- gamma ts].
Definition surface_wake_panels ts : seq nat :=
  [seq asize2 g | g <- gamma_star ts].

Definition total_points ts : nat := sumn (surface_points ts).

Variables (dims dims_star : seq (nat * nat)).
Variables (f_aero gamma_vec gamma_star_vec gamma_dot_vec : vec F).
Variable ts : AeroTimeStepInfo F.

(** What the loop appends for surface [i]. *)
Definition unpacked_forces (i : nat) : array3 F :=
  let d := shape3 (nth [::] (zeta ts) i) in
  unflatten3 d (chunk (surface_points ts) f_aero i) ++ np_zeros3 F d.

Definition unpacked_gamma (i : nat) : array2 F :=
  unflatten2 (nth (0, 0) dims i) (chunk (surface_panels ts) gamma_vec i).

Definition unpacked_gamma_dot (i : nat) : array2 F :=
  unflatten2 (nth (0, 0) dims i) (chunk (surface_panels ts) gamma_dot_vec i).

Definition unpacked_gamma_star (i : nat) : array2 F :=
  unflatten2 (nth (0, 0) dims_star i)
    (chunk (surface_wake_panels ts) gamma_star_vec i).

(** The loop variables after surfaces [k .. k+m-1], starting from [acc]. *)
Definition extend (acc : unpack_vars F) (k m : nat) : unpack_vars F :=
  MkUnpackVars
    (v_forces acc ++ [seq unpacked_forces i | i <- iota k m])
    (v_gamma acc ++ [seq unpacked_gamma i | i <- iota k m])
    (v_gamma_dot acc ++ [seq unpacked_gamma_dot i | i <- iota k m])
    (v_gamma_star acc ++ [seq unpacked_gamma_star i | i <- iota k m])
    (off (surface_points ts) (k + m))
    (off (surface_panels ts) (k + m))
    (off (surface_wake_panels ts) (k + m)).

(** The vectors hold the elements of the first [k] surfaces. *)
Definition fits_upto (k : nat) : bool :=
  [&& off (surface_points ts) k <= size f_aero,
      off (surface_panels ts) k <= size gamma_vec,
      off (surface_panels ts) k <= size gamma_dot_vec &
      off (surface_wake_panels ts) k <= size gamma_star_vec].

(** The per-surface lists have one entry per surface, and the stored
    dimensions of the bound and wake lattices agree with the sizes of the
    circulation arrays of the template snapshot. *)
Definition wf_unpack : bool :=
  [&& size (zeta ts) == n_surf ts,
      size (gamma ts) == n_surf ts,
      size (gamma_star ts) == n_surf ts,
      size dims == n_surf ts,
      size dims_star == n_surf ts,
      [seq d.1 * d.2 | d <- dims] == surface_panels ts &
      [seq d.1 * d.2 | d <- dims_star] == surface_wake_panels ts].

Definition loop_inv (k : nat) (acc : unpack_vars F) : Prop :=
  [/\ size (v_forces acc) = k,
      worked_points acc = off (surface_points ts) k,
      worked_panels acc = off (surface_panels ts) k
    & worked_wake_panels acc = off (surface_wake_panels ts) k].

(** The result of the whole loop when the vectors are long enough. *)
Definition unpacked : unpack_vars F :=
  extend (MkUnpackVars [::] [::] [::] [::] 0 0 0) 0 (n_surf ts).

(** Each vector holds at least the elements of all the surfaces. *)
Definition fits : bool :=
  [&& total_points ts <= size f_aero,
      panels ts <= size gamma_vec,
      panels ts <= size gamma_dot_vec &
      wake_panels ts <= size gamma_star_vec].

End UnpackTerms.

Section RunTerms.

Variable F : dtype.
Variable E : collaborators F.

Implicit Types (w : world E) (a : addr).

(** The objects after the generator has filled [u_ext] of snapshot [a],
    after the call of [solve_step], and after the results are written. *)
Definition generated a (p : gen_params F) (u' : seq (array3 F)) w : world E :=
  assign a (with_u_ext u') (log (EvGenerate p) w).

Definition stepped a p u' (dx : vec F) (du_m1 : option (vec F)) (du : vec F)
    w : world E :=
  log (EvSolveStep dx du_m1 du true) (generated a p u' w).

Definition written a
    (r : seq (array3 F) * seq (array2 F) * seq (array2 F) * seq (array2 F))
    w : world E :=
  assign a (with_gamma_star r.2)
    (assign a (with_gamma_dot r.1.2)
       (assign a (with_gamma r.1.1.2) (assign a (with_forces r.1.1.1) w))).

(** What [run] has established when it calls [solve_step]. *)
Inductive step_inputs (aero_tstep : option addr) (dt : option F) w a
    (p : gen_params F) (u' : seq (array3 F)) (st : Settings E)
    (dx_m1 : vec F) (du_m1 : option (vec F)) (du_n : vec F) : Prop :=
  StepInputs (dt' : F) (gen : Generator E) (u_n u_0 x_m1 x_0 : vec F) of
    current aero_tstep w = Ok a
  & the_settings w = Ok st
  & dt' = (if dt is Some d then d else s_dt st)
  & velocity_generator w = Some gen
  & generate gen p (u_ext (heap w a)) = Ok u'
  & pack_input_vector (heap (generated a p u' w) a) = Ok u_n
  & linear_vec "u_0" w = Ok u_0
  & np_sub u_n u_0 = Ok du_n
  & input_delta_m1 st (generated a p u' w) = Ok du_m1
  & state_m1 a dt' (s_integr_order st) (generated a p u' w) = Ok x_m1
  & linear_vec "x_0" w = Ok x_0
  & np_sub x_m1 x_0 = Ok dx_m1.

(** Every way a call of [run] can end. *)
Inductive run_spec (aero_tstep : option addr) (dt : option F) w
  : world E * result unit -> Prop :=
  | RunNotStarted e : run_spec aero_tstep dt w (w, Raise e)
  | RunGeneratorFailed p e :
      run_spec aero_tstep dt w (log (EvGenerate p) w, Raise e)
  | RunInputsFailed a p u' e :
      current aero_tstep w = Ok a ->
      run_spec aero_tstep dt w (generated a p u' w, Raise e)
  | RunStepFailed a p u' st dx_m1 du_m1 du_n e :
      step_inputs aero_tstep dt w a p u' st dx_m1 du_m1 du_n ->
      run_spec aero_tstep dt w (stepped a p u' dx_m1 du_m1 du_n w, Raise e)
  | RunCompleted a p u' st dx_m1 du_m1 du_n r :
      step_inputs aero_tstep dt w a p u' st dx_m1 du_m1 du_n ->
      run_spec aero_tstep dt w
        (written a r (stepped a p u' dx_m1 du_m1 du_n w), Ok tt).

(** The calls [run] made to its collaborators between [w] and [w']. *)
Definition emitted w w' : seq (event F) :=
  drop (size (trace w)) (trace w').

(** The dictionary [linearise] has filled when it stops. *)
Definition reference_dict (sys : Dynamic E) (x_0 u_0 f_0 : vec F) : dict E :=
  [:: ("System"%string, PySystem sys); ("SS"%string, PySS (get_SS sys));
      ("x_0"%string, @PyVec _ E x_0); ("u_0"%string, @PyVec _ E u_0);
      ("y_0"%string, @PyVec _ E f_0)].

End RunTerms.

(** ** Vocabulary of the further properties *)

Section OutcomeTerms.

Variable F : dtype.
Variable E : collaborators F.

Implicit Types (w : world E) (a : addr).

(** Lines 253-254: the structural snapshot the step reads. *)
Definition current_structure (structure_tstep : option (StructTimeStepInfo F))
    w : result (StructTimeStepInfo F) :=
  if structure_tstep is Some s then Ok s
  else if self_data w then getitem_back (structure_timestep_info w) 1
       else Raise AttributeError.

(** Lines 255-258: the time increment and the time of the step. *)
Definition time_step (dt : option F) (st : Settings E) : F :=
  if dt is Some d then d else s_dt st.

Definition time_of (t : option F) w (dt' : F) : F :=
  if t is Some t' then t' else fmul (of_int F (ts w)) dt'.

(** What [run] hands to the velocity generator. *)
Inductive generator_call (aero_tstep : option addr)
    (structure_tstep : option (StructTimeStepInfo F)) (dt t : option F) w a
    (p : gen_params F) : Prop :=
  GeneratorCall (s : StructTimeStepInfo F) (st : Settings E) of
    current aero_tstep w = Ok a
  & current_structure structure_tstep w = Ok s
  & the_settings w = Ok st
  & self_data w
  & p = MkGenParams (zeta (heap w a)) true (time_of t w (time_step dt st))
          (ts w) (time_step dt st) (for_pos s).

(** The velocities the generator answered with. *)
Definition generator_answer w a (p : gen_params F) (u' : seq (array3 F))
  : Prop :=
  exists2 gen, velocity_generator w = Some gen
             & generate gen p (u_ext (heap w a)) = Ok u'.

(** What [run] does with the answer of [solve_step]: the references are
    added back and the sums are unpacked on the current snapshot. *)
Inductive step_outputs w a (u' : seq (array3 F)) (dx_m1 : vec F)
    (du_m1 : option (vec F)) (du_n : vec F)
    (r : seq (array3 F) * seq (array2 F) * seq (array2 F) * seq (array2 F))
  : Prop :=
  StepOutputs (sys : Dynamic E) (dx_n dy_n x_0 y_0 x_n y_n u_n : vec F) of
    linear_system w = Ok sys
  & solve_step sys dx_m1 du_m1 du_n true = Ok (dx_n, dy_n)
  & linear_vec "x_0" w = Ok x_0
  & np_add x_0 dx_n = Ok x_n
  & linear_vec "y_0" w = Ok y_0
  & np_add y_0 dy_n = Ok y_n
  & pack_input_vector (with_u_ext u' (heap w a)) = Ok u_n
  & unpack_ss_vectors w y_n x_n u_n (with_u_ext u' (heap w a)) = Ok r.

(** Every way a call of [run] can end, with what it has computed by then. *)
Inductive run_outcome (aero_tstep : option addr)
    (structure_tstep : option (StructTimeStepInfo F)) (dt t : option F) w
  : world E * result unit -> Prop :=
  | NotStarted e : run_outcome aero_tstep structure_tstep dt t w (w, Raise e)
  | GeneratorFailed a p e :
      generator_call aero_tstep structure_tstep dt t w a p ->
      run_outcome aero_tstep structure_tstep dt t w
        (log (EvGenerate p) w, Raise e)
  | InputsFailed a p u' e :
      generator_call aero_tstep structure_tstep dt t w a p ->
      generator_answer w a p u' ->
      run_outcome aero_tstep structure_tstep dt t w
        (generated a p u' w, Raise e)
  | StepFailed a p u' st dx_m1 du_m1 du_n e :
      generator_call aero_tstep structure_tstep dt t w a p ->
      step_inputs aero_tstep dt w a p u' st dx_m1 du_m1 du_n ->
      run_outcome aero_tstep structure_tstep dt t w
        (stepped a p u' dx_m1 du_m1 du_n w, Raise e)
  | Completed a p u' st dx_m1 du_m1 du_n r :
      generator_call aero_tstep structure_tstep dt t w a p ->
      step_inputs aero_tstep dt w a p u' st dx_m1 du_m1 du_n ->
      step_outputs w a u' dx_m1 du_m1 du_n r ->
      run_outcome aero_tstep structure_tstep dt t w
        (written a r (stepped a p u' dx_m1 du_m1 du_n w), Ok tt).

End OutcomeTerms.

Section LatticeTerms.

Variable F : dtype.

(** The circulation arrays of every surface have the stored lattice
    dimensions, and [gamma_dot] holds one array per surface. *)
Definition wf_lattice (dims dims_star : seq (nat * nat))
    (ts : AeroTimeStepInfo F) : bool :=
  [&& size (gamma_dot ts) == n_surf ts,
      all (fun dg => rect2 dg.1 dg.2) (zip dims (gamma ts)),
      all (fun dg => rect2 dg.1 dg.2) (zip dims (gamma_dot ts)) &
      all (fun dg => rect2 dg.1 dg.2) (zip dims_star (gamma_star ts))].

(** The lists of the snapshot and the stored dimensions have one entry per
    surface. *)
Definition wf_lists (dims dims_star : seq (nat * nat))
    (ts : AeroTimeStepInfo F) : bool :=
  [&& size (zeta ts) == n_surf ts,
      size (gamma ts) == n_surf ts,
      size (gamma_star ts) == n_surf ts,
      size dims == n_surf ts &
      size dims_star == n_surf ts].

(** The stored dimensions of surface [i] hold as many entries as its
    circulation arrays. *)
Definition lattice_agrees (dims dims_star : seq (nat * nat))
    (ts : AeroTimeStepInfo F) (i : nat) : bool :=
  ((nth (0, 0) dims i).1 * (nth (0, 0) dims i).2
   == asize2 (nth [::] (gamma ts) i))
  && ((nth (0, 0) dims_star i).1 * (nth (0, 0) dims_star i).2
      == asize2 (nth [::] (gamma_star ts) i)).

End LatticeTerms.

(** * Scenarios in double precision *)

Definition scenario_dt : binary64 := 0x1.999999999999ap-4%float.

(** One surface on a 2 x 2 vertex grid (section 8 of the specification). *)
Definition scenario_tstep : AeroTimeStepInfo binary64 :=
  MkAeroTimeStepInfo 1
    [:: np_zeros3 binary64 (3, 2, 2)]
    [:: np_zeros3 binary64 (3, 2, 2)]
    [:: np_zeros3 binary64 (3, 2, 2)]
    [:: [:: [:: 1; 2]; [:: 3; 4]]]%float
    [:: [:: [:: 0; 0]; [:: 0; 0]]]%float
    [:: [:: [:: 0; 0]]]%float
    [:: np_zeros3 binary64 (6, 2, 2)]
    None.

Definition ramp (start n : nat) : vec binary64 :=
  [seq float_of_Z (Z.of_nat i) | i <- iota start n].

Definition ramp2 (start : nat) (d : nat * nat) : array2 binary64 :=
  unflatten2 d (ramp start (d.1 * d.2)).

Definition ramp3 (start : nat) (d : nat * nat * nat) : array3 binary64 :=
  unflatten3 d (ramp start (d.1.1 * d.1.2 * d.2)).

(** Two surfaces of different shapes, every entry a different number. *)
Definition wing_tstep : AeroTimeStepInfo binary64 :=
  MkAeroTimeStepInfo 2
    [:: ramp3 0 (3, 1, 2); ramp3 6 (3, 2, 1)]
    [:: ramp3 20 (3, 1, 2); ramp3 26 (3, 2, 1)]
    [:: ramp3 40 (3, 1, 2); ramp3 46 (3, 2, 1)]
    [:: ramp2 60 (1, 2); ramp2 62 (2, 1)]
    [:: ramp2 70 (1, 2); ramp2 72 (2, 1)]
    [:: ramp2 80 (1, 2); ramp2 82 (1, 1)]
    [:: ramp3 100 (6, 1, 2); ramp3 112 (6, 2, 1)]
    None.

Definition example_settings (remove_predictor : bool)
  : Settings (spec_collaborators binary64) :=
  @MkSettings binary64 (spec_collaborators binary64) scenario_dt 2 1%float
    (1, 1, 1)%float remove_predictor true true
    (Some "SteadyVelocityField"%string) (Some [:: 1; 0; 0]%float).

(** The objects before the solver is initialised: the store [h], the
    retained snapshots [retained_tsteps] and the lattice dimensions. *)
Definition fresh_world (h : addr -> AeroTimeStepInfo binary64)
    (retained_tsteps : seq addr) (dims dims_star : seq (nat * nat))
    (remove_predictor : bool) : world (spec_collaborators binary64) :=
  @MkWorld binary64 (spec_collaborators binary64) h retained_tsteps None dims
    dims_star [:: @MkStructTimeStepInfo binary64 [:: 0; 0; 0]%float] 0
    (Some (example_settings remove_predictor)) false None None [::].

(** The first call of [initialise] stops after storing the linearisation;
    a second call finds it and sets up the velocity generator. *)
Definition initialised (w : world (spec_collaborators binary64))
  : world (spec_collaborators binary64) :=
  (initialise None (initialise None w).1).1.

Definition scenario_world : world (spec_collaborators binary64) :=
  fresh_world (fun _ => scenario_tstep) [:: 0] [:: (2, 2)] [:: (1, 2)] true.

Definition wing_world : world (spec_collaborators binary64) :=
  fresh_world (fun _ => wing_tstep) [:: 0] [:: (1, 2); (2, 1)]
    [:: (1, 2); (1, 1)] true.

(** Three snapshots that differ in their bound circulation; the first two
    are retained, the third is the working copy of a coupled solver. *)
Definition with_circulation (g : array2 binary64) : AeroTimeStepInfo binary64 :=
  with_gamma [:: g] scenario_tstep.

Definition coupled_heap (a : addr) : AeroTimeStepInfo binary64 :=
  if a == 0 then with_circulation [:: [:: 1; 2]; [:: 3; 4]]%float
  else if a == 1 then with_circulation [:: [:: 5; 6]; [:: 7; 8]]%float
  else with_circulation [:: [:: 9; 10]; [:: 11; 12]]%float.

Definition coupled_world : world (spec_collaborators binary64) :=
  initialised (fresh_world coupled_heap [:: 0; 1] [:: (2, 2)] [:: (1, 2)] true).

(** Reading the arguments of a recorded call of [solve_step]. *)
Definition ev_dx (F : dtype) (e : event F) : vec F :=
  if e is EvSolveStep dx _ _ _ then dx else [::].

Definition ev_du_m1 (F : dtype) (e : event F) : option (vec F) :=
  if e is EvSolveStep _ du_m1 _ _ then du_m1 else None.

Definition ev_du_n (F : dtype) (e : event F) : vec F :=
  if e is EvSolveStep _ _ du_n _ then du_n else [::].

Definition ev_transform (F : dtype) (e : event F) : bool :=
  if e is EvSolveStep _ _ _ tf then tf else false.

Definition vec_eqb (u v : vec binary64) : bool :=
  (size u == size v) && all (fun p => PrimFloat.eqb p.1 p.2) (zip u v).

Definition ok_or (A : Type) (d : A) (r : result A) : A :=
  if r is Ok a then a else d.

Definition wing_ready : world (spec_collaborators binary64) :=
  initialised wing_world.

Definition wing_system : LinearSystemState binary64 :=
  ok_or (MkLinearSystemState (MkStateSpaceOperator [::] [::] [::] [::])
           false 0 0 scenario_dt)
    (linear_system wing_ready).

Definition wing_x : vec binary64 :=
  ok_or [::] (linear_vec "x_0" wing_ready).

Definition wing_u : vec binary64 :=
  ok_or [::] (linear_vec "u_0" wing_ready).

Definition wing_y : vec binary64 :=
  ok_or [::] (linear_vec "y_0" wing_ready).

Definition wing_circulation : vec binary64 * vec binary64 * vec binary64 :=
  ok_or ([::], [::], [::]) (spec_unpack_state wing_system wing_x wing_u).

Definition wing_y_long : vec binary64 := wing_y ++ [:: 9%float].

Definition coupled_run : world (spec_collaborators binary64) :=
  (run (Some 2) None None None coupled_world).1.

Definition coupled_call : event binary64 :=
  nth (EvSolveStep [::] None [::] false)
    (emitted coupled_world coupled_run) 1.

Definition scenario_ready : world (spec_collaborators binary64) :=
  initialised scenario_world.

Definition scenario_run : world (spec_collaborators binary64) :=
  (run None None None None scenario_ready).1.

Definition scenario_call : event binary64 :=
  nth (EvSolveStep [::] None [::] false)
    (emitted scenario_ready scenario_run) 1.

(** ** Further scenarios *)

(** A snapshot with no surface. *)
Definition empty_tstep : AeroTimeStepInfo binary64 :=
  MkAeroTimeStepInfo 0 [::] [::] [::] [::] [::] [::] [::] None.

(** The one-surface snapshot with a [gamma_dot] of one element. *)
Definition lone_rate_tstep : AeroTimeStepInfo binary64 :=
  with_gamma_dot [:: ([:: [:: 2%float]] : array2 binary64)] scenario_tstep.

(** The one-surface scenario after the first call of [initialise], which
    stops before the velocity generator is set up. *)
Definition half_initialised : world (spec_collaborators binary64) :=
  (initialise None scenario_world).1.

Definition scenario_dict : dict (spec_collaborators binary64) :=
  if linear half_initialised is Some l then l else [::].

Definition scenario_system : LinearSystemState binary64 :=
  ok_or (MkLinearSystemState (MkStateSpaceOperator [::] [::] [::] [::])
           false 0 0 scenario_dt)
    (linear_system scenario_ready).

Definition scenario_x : vec binary64 :=
  ok_or [::] (linear_vec "x_0" scenario_ready).

Definition scenario_u : vec binary64 :=
  ok_or [::] (linear_vec "u_0" scenario_ready).

Definition scenario_y : vec binary64 :=
  ok_or [::] (linear_vec "y_0" scenario_ready).

Definition scenario_circulation
  : vec binary64 * vec binary64 * vec binary64 :=
  ok_or ([::], [::], [::])
    (spec_unpack_state scenario_system scenario_x scenario_u).

(** What [unpack_ss_vectors] returns on the two-surface scenario. *)
Definition wing_unpacked
  : seq (array3 binary64) * seq (array2 binary64) * seq (array2 binary64)
    * seq (array2 binary64) :=
  ok_or ([::], [::], [::], [::])
    (unpack_ss_vectors wing_ready wing_y wing_x wing_u wing_tstep).

(** The two-surface scenario with stored bound dimensions of the second
    surface that hold four entries where its [gamma] holds two. *)
Definition mismatched_world : world (spec_collaborators binary64) :=
  initialised (fresh_world (fun _ => wing_tstep) [:: 0] [:: (1, 2); (2, 2)]
                 [:: (1, 2); (1, 1)] true).

Definition scenario_generate : event binary64 :=
  nth (EvSolveStep [::] None [::] false) (emitted scenario_ready scenario_run) 0.

Definition scenario_params : gen_params binary64 :=
  if scenario_generate is EvGenerate p then p
  else @MkGenParams binary64 [::] false 0%float 0%Z 0%float [::].

(** ** A structure for the post-processor

    Four entries: a snapshot in the global frame, [None], and twice the
    same snapshot, which is in the global frame when [converted] is set.
    The conversion marks the snapshot and the writing succeeds. *)
Definition pickle_collaborators : PickleData.collaborators nat :=
  PickleData.MkCollaborators
    (fun st _ _ => Ok st)
    (fun s p =>
       Ok (PickleData.MkStructure
             (fun q => if q == p
                       then PickleData.MkStructTimeStepInfo true
                              (PickleData.payload (PickleData.heap s p))
                       else PickleData.heap s q)
             (PickleData.timestep_info s)))
    (fun _ _ => Ok tt).

Definition pickle_structure (converted : bool) : PickleData.Structure nat :=
  PickleData.MkStructure
    (fun p => PickleData.MkStructTimeStepInfo (converted || (p == 0)) p)
    [:: Some 0; None; Some 1; Some 1].

Definition pickle_data (converted : bool) : PickleData.PreSharpy nat :=
  PickleData.MkPreSharpy (pickle_structure converted)
    [:: ("SHARPy"%string, [:: ("case"%string, "wing"%string)]);
        ("PickleData"%string, [::])]
    "output/"%string.

Definition pickle_world (converted : bool) : PickleData.world nat unit :=
  PickleData.MkWorld (pickle_data converted) false None None None None [::].

Definition pickle_ready (converted : bool) : PickleData.world nat unit :=
  (PickleData.initialise pickle_collaborators None None
     (pickle_world converted)).1.

Definition pickle_done : PickleData.world nat unit :=
  (PickleData.run pickle_collaborators false (pickle_ready false)).1.

(** * Properties of the packer *)

Section SequenceFacts.

Variables (A B : Type).

Lemma getitem_drop (s : seq A) (i : nat) :
  getitem s i = if drop i s is x :: _ then Ok x else Raise IndexError.
Proof. by elim: s i => [|x s IH] [|i] //=. Qed.

Lemma getitem_nth (x0 : A) (s : seq A) (i : nat) :
  i < size s -> getitem s i = Ok (nth x0 s i).
Proof. by move=> lt_i; rewrite getitem_drop (drop_nth x0 lt_i). Qed.

Lemma mapM_getitem_from (f : A -> B) (s : seq A) (k n : nat) :
  k + n <= size s ->
  mapM (fun i => a <- getitem s i ;; Ok (f a)) (iota k n)
  = Ok [seq f a | a <- take n (drop k s)].
Proof.
elim: n k => [|n IH] k; first by rewrite take0.
rewrite addnS => lt_k /=.
have lt_ks : k < size s by apply: leq_ltn_trans lt_k; rewrite leq_addr.
rewrite getitem_drop; case Ed: (drop k s) => [|x r] /=.
  move: (congr1 size Ed); rewrite size_drop /= => /eqP.
  by rewrite subn_eq0 leqNgt lt_ks.
have -> : r = drop k.+1 s by rewrite -addn1 addnC -drop_drop Ed /= drop0.
by rewrite IH.
Qed.

Lemma mapM_getitem (f : A -> B) (s : seq A) (n : nat) :
  n <= size s ->
  mapM (fun i => a <- getitem s i ;; Ok (f a)) (iota 0 n)
  = Ok [seq f a | a <- take n s].
Proof. by move=> le_n; rewrite mapM_getitem_from ?drop0. Qed.

End SequenceFacts.

Section PackerFacts.

Variable F : dtype.

Implicit Types (ts : AeroTimeStepInfo F) (v : vec F).

Lemma concat_surfaces_take (A : Type) (ravel : A -> vec F) (arrs : seq A) n :
  0 < n <= size arrs ->
  concat_surfaces ravel arrs n = Ok (block ravel (take n arrs)).
Proof.
case/andP=> n_gt0 le_n; rewrite /concat_surfaces mapM_getitem //=.
case Et: (take n arrs) => [|a r] //=.
move: (congr1 size Et); rewrite size_takel //= => n0.
by rewrite n0 in n_gt0.
Qed.

Lemma concat_surfaces_all (A : Type) (ravel : A -> vec F) (arrs : seq A) n :
  0 < n -> size arrs = n ->
  concat_surfaces ravel arrs n = Ok (block ravel arrs).
Proof.
move=> n_gt0 sz; rewrite concat_surfaces_take ?sz ?n_gt0 ?leqnn //.
by rewrite -sz take_size.
Qed.

Lemma concat_surfaces_empty (A : Type) (ravel : A -> vec F) (arrs : seq A) :
  concat_surfaces ravel arrs 0 = Raise ValueError.
Proof. by []. Qed.

(** *** Shapes and element counts *)

Lemma rect_shape (T : Type) (n : nat) (a : seq (seq T)) :
  all (fun r => size r == n) a -> shape a = nseq (size a) n.
Proof.
move=> all_n; rewrite /shape -(size_map size a).
by apply/all_pred1P; rewrite all_map.
Qed.

Lemma size_ravel2 (d : nat * nat) (a : array2 F) :
  rect2 d a -> size (ravel2 a) = d.1 * d.2.
Proof.
case/andP=> /eqP <- all_d.
by rewrite /ravel2 size_flatten (rect_shape all_d) sumn_nseq mulnC.
Qed.

Lemma asize2_ravel (a : array2 F) : is_array2 a -> size (ravel2 a) = asize2 a.
Proof. exact: size_ravel2. Qed.

Lemma size_block2 (arrs : seq (array2 F)) :
  all (@is_array2 F) arrs ->
  size (block (@ravel2 F) arrs) = sumn [seq asize2 a | a <- arrs].
Proof.
elim: arrs => [|a arrs IH] //= /andP [ok_a ok_arrs].
by rewrite /block /= size_cat asize2_ravel // -IH.
Qed.

Lemma size_np_scale (c : F) v : size (np_scale c v) = size v.
Proof. by rewrite /np_scale size_map. Qed.

Lemma zip_map_r (T U V : Type) (f : U -> V) (s : seq T) (t : seq U) :
  zip s [seq f y | y <- t] = [seq (p.1, f p.2) | p <- zip s t].
Proof. by elim: s t => [|x s IH] [|y t] //=; rewrite IH. Qed.

Lemma np_sub_scale (dt : F) (u v : vec F) :
  size u = size v ->
  np_sub u (np_scale dt v) = Ok [seq fsub p.1 (fmul dt p.2) | p <- zip u v].
Proof.
move=> sz; rewrite /np_sub /np_binop size_np_scale sz eqxx.
by rewrite /np_scale zip_map_r -map_comp.
Qed.

(** *** Well-formed snapshots *)

Lemma pack_input_vector_ok ts :
  wf_grid ts ->
  pack_input_vector ts
  = Ok (block (@ravel3 F) (zeta ts) ++ block (@ravel3 F) (zeta_dot ts)
        ++ block (@ravel3 F) (u_ext ts)).
Proof.
case/and4P=> n_gt0 /eqP sz1 /eqP sz2 /eqP sz3.
by rewrite /pack_input_vector !concat_surfaces_all //= cats0.
Qed.

Lemma nth_flatten_index (T : Type) (x0 : T) (ss : seq (seq T)) (r c : nat) :
  c < size (nth [::] ss r) ->
  nth x0 (flatten ss) (sumn (take r (shape ss)) + c) = nth x0 (nth [::] ss r) c.
Proof.
move=> lt_c; have lt_c' : c < nth 0 (shape ss) r by rewrite nth_shape.
rewrite nth_flatten -/(flatten_index (shape ss) r c).
by rewrite flatten_indexKl // flatten_indexKr.
Qed.

Lemma nth_rect_flatten (T : Type) (x0 : T) (n : nat) (ss : seq (seq T))
    (r c : nat) :
  all (fun row => size row == n) ss -> r < size ss -> c < n ->
  nth x0 (flatten ss) (r * n + c) = nth x0 (nth [::] ss r) c.
Proof.
move=> all_n lt_r lt_c.
have sz_r : size (nth [::] ss r) = n by apply/eqP; apply: (all_nthP [::] all_n).
rewrite -(nth_flatten_index x0) ?sz_r // (rect_shape all_n).
by rewrite take_nseq 1?ltnW // sumn_nseq mulnC.
Qed.

Lemma size_ravel3 (d : nat * nat * nat) (a : array3 F) :
  rect3 d a -> size (ravel3 a) = d.1.1 * d.1.2 * d.2.
Proof.
case/andP=> /eqP sz_a all_r.
have all_f : all (fun r => size r == d.1.2 * d.2) [seq flatten p | p <- a].
  rewrite all_map; apply: sub_all all_r => p /= ok_p.
  by rewrite -[flatten p]/(ravel2 p) (size_ravel2 ok_p).
rewrite /ravel3 size_flatten (rect_shape all_f).
by rewrite size_map sz_a sumn_nseq mulnC mulnA.
Qed.

Lemma ltn_row_major (n m i j : nat) : i < n -> j < m -> i * m + j < n * m.
Proof.
move=> lt_i lt_j; rewrite -addnS.
apply: leq_trans (leq_add (leqnn _) lt_j) _.
by rewrite addnC -mulSn leq_mul.
Qed.

Lemma nth_ravel3 (x0 : F) (d : nat * nat * nat) (a : array3 F) (c i j : nat) :
  rect3 d a -> c < d.1.1 -> i < d.1.2 -> j < d.2 ->
  nth x0 (ravel3 a) ((c * d.1.2 + i) * d.2 + j)
  = nth x0 (nth [::] (nth [::] a c) i) j.
Proof.
case: d => [[d0 d1] d2]; rewrite /rect3 /= => /andP [/eqP sz_a all_r].
move=> lt_c lt_i lt_j.
have lt_ca : c < size a by rewrite sz_a.
have : rect2 (d1, d2) (nth [::] a c) by apply: (all_nthP [::] all_r).
rewrite /rect2 /= => /andP [/eqP sz_p all_p].
have all_f : all (fun row => size row == d1 * d2) [seq flatten p | p <- a].
  rewrite all_map; apply: sub_all all_r => p /= ok_p.
  by rewrite -[flatten p]/(ravel2 p) (size_ravel2 ok_p).
rewrite /ravel3 mulnDl -mulnA -addnA.
rewrite (nth_rect_flatten x0 all_f) ?size_map ?ltn_row_major //.
by rewrite (nth_map [::]) // nth_rect_flatten // sz_p.
Qed.

Lemma nth_block3 (x0 : F) (arrs : seq (array3 F)) (s : nat)
    (d : nat * nat * nat) (c i j : nat) :
  s < size arrs -> rect3 d (nth [::] arrs s) ->
  c < d.1.1 -> i < d.1.2 -> j < d.2 ->
  nth x0 (block (@ravel3 F) arrs) (block_index arrs s d c i j)
  = nth x0 (nth [::] (nth [::] (nth [::] arrs s) c) i) j.
Proof.
move=> lt_s ok_a lt_c lt_i lt_j.
have lt_ij : (c * d.1.2 + i) * d.2 + j < size (ravel3 (nth [::] arrs s)).
  by rewrite (size_ravel3 ok_a) !ltn_row_major.
rewrite /block_index /block -(nth_ravel3 x0 ok_a) //.
have -> : [seq size (ravel3 a) | a <- take s arrs]
          = take s (shape [seq ravel3 a | a <- arrs]).
  by rewrite /shape -map_comp map_take.
by rewrite nth_flatten_index (nth_map [::]).
Qed.

Lemma block_index_lt (arrs : seq (array3 F)) (s : nat) (d : nat * nat * nat)
    (c i j : nat) :
  s < size arrs -> rect3 d (nth [::] arrs s) ->
  c < d.1.1 -> i < d.1.2 -> j < d.2 ->
  block_index arrs s d c i j < size (block (@ravel3 F) arrs).
Proof.
move=> lt_s ok_a lt_c lt_i lt_j.
rewrite /block_index /block size_flatten.
have -> : [seq size (ravel3 a) | a <- take s arrs]
          = take s (shape [seq ravel3 a | a <- arrs]).
  by rewrite /shape -map_comp map_take.
apply: flatten_indexP; rewrite nth_shape (nth_map [::]) //.
by rewrite (size_ravel3 ok_a) !ltn_row_major.
Qed.

(** C4: for a snapshot holding one grid array per surface,
    [pack_input_vector] returns positions, then position rates, then
    external velocities; each block lists the surfaces in index order, and
    inside a surface of shape [d] the element [(c, i, j)] sits at the
    row-major offset [(c * d1 + i) * d2 + j], the component axis [c] varying
    slowest. *)
Theorem pack_input_vector_layout ts :
  wf_grid ts ->
  let Z := block (@ravel3 F) (zeta ts) in
  let ZD := block (@ravel3 F) (zeta_dot ts) in
  let U := block (@ravel3 F) (u_ext ts) in
  pack_input_vector ts = Ok (Z ++ ZD ++ U)
  /\ forall (x0 : F) (s : nat) (d : nat * nat * nat) (c i j : nat),
       s < n_surf ts -> c < d.1.1 -> i < d.1.2 -> j < d.2 ->
       let at3 (a : seq (array3 F)) :=
         nth x0 (nth [::] (nth [::] (nth [::] a s) c) i) j in
       [/\ rect3 d (nth [::] (zeta ts) s) ->
           nth x0 (Z ++ ZD ++ U) (block_index (zeta ts) s d c i j)
           = at3 (zeta ts),
           rect3 d (nth [::] (zeta_dot ts) s) ->
           nth x0 (Z ++ ZD ++ U)
             (size Z + block_index (zeta_dot ts) s d c i j)
           = at3 (zeta_dot ts)
         & rect3 d (nth [::] (u_ext ts) s) ->
           nth x0 (Z ++ ZD ++ U)
             (size Z + size ZD + block_index (u_ext ts) s d c i j)
           = at3 (u_ext ts)].
Proof.
move=> wf; split; first exact: pack_input_vector_ok.
case/and4P: wf => _ /eqP sz1 /eqP sz2 /eqP sz3.
move=> x0 s d c i j lt_s lt_c lt_i lt_j /=; split=> ok_a.
- by rewrite nth_cat block_index_lt ?sz1 // nth_block3 ? sz1.
- rewrite nth_cat ltnNge leq_addr /= addKn.
  by rewrite nth_cat block_index_lt ?sz2 // nth_block3 ?sz2.
- rewrite nth_cat -addnA ltnNge leq_addr /= addKn.
  rewrite nth_cat ltnNge leq_addr /= addKn.
  by rewrite nth_block3 ?sz3.
Qed.

(** C1: for a snapshot with well-formed circulation fields, integration
    order 1 gives [gamma ++ gamma_star ++ dt*gamma_dot] and nothing else, of
    length panels + wake panels + panels; integration order 2 appends the
    bound circulation of the previous snapshot when one is supplied, and
    [gamma - dt*gamma_dot], element by element, when none is. *)
Theorem pack_state_vector_order_branch ts (dt : F) :
  wf_circulation ts ->
  let G := block (@ravel2 F) (gamma ts) in
  let GS := block (@ravel2 F) (gamma_star ts) in
  let GD := block (@ravel2 F) (gamma_dot ts) in
  [/\ forall prev,
        pack_state_vector ts prev dt 1 = Ok (G ++ GS ++ np_scale dt GD),
      size (G ++ GS ++ np_scale dt GD) = panels ts + wake_panels ts + panels ts,
      forall tstep_m1,
        n_surf ts <= size (gamma tstep_m1) ->
        pack_state_vector ts (Some tstep_m1) dt 2
        = Ok (G ++ GS ++ np_scale dt GD
              ++ block (@ravel2 F) (take (n_surf ts) (gamma tstep_m1)))
    & pack_state_vector ts None dt 2
      = Ok (G ++ GS ++ np_scale dt GD
            ++ [seq fsub p.1 (fmul dt p.2) | p <- zip G GD])].
Proof.
case/and5P=> n_gt0 /eqP sz1 /eqP sz2 /eqP sz3 /and4P [ok1 ok2 ok3 /eqP same].
have szGD : size (block (@ravel2 F) (gamma_dot ts))
            = size (block (@ravel2 F) (gamma ts)).
  by rewrite !size_block2 // same.
split=> /=.
- by move=> prev; rewrite /pack_state_vector !concat_surfaces_all //= cats0.
- rewrite !size_cat size_np_scale szGD !size_block2 //.
  by rewrite /panels /wake_panels addnA.
- move=> tstep_m1 le_n.
  rewrite /pack_state_vector (concat_surfaces_all _ n_gt0 sz1).
  rewrite (concat_surfaces_all _ n_gt0 sz2) (concat_surfaces_all _ n_gt0 sz3).
  by rewrite /= concat_surfaces_take ?n_gt0 //= cats0.
- rewrite /pack_state_vector !concat_surfaces_all //=.
  by rewrite np_sub_scale //= cats0.
Qed.

(** C10: the integration order is only compared with 1; every other value
    gives the state vector of integration order 2, on every input. *)
Theorem pack_state_vector_order_not_validated ts prev (dt : F)
    (integr_order : Z) :
  integr_order <> 1%Z ->
  pack_state_vector ts prev dt integr_order = pack_state_vector ts prev dt 2.
Proof.
move=> /Z.eqb_neq neq1.
by rewrite /pack_state_vector neq1.
Qed.

End PackerFacts.

(** * Properties of [unpack_ss_vectors] *)

Section UnpackFacts.

Variable F : dtype.

Implicit Types (ts : AeroTimeStepInfo F) (v y : vec F).

Lemma off_S sh k : off sh k.+1 = off sh k + nth 0 sh k.
Proof.
rewrite /off; case: (ltnP k (size sh)) => [lt_k|le_k].
  by rewrite (take_nth 0 lt_k) sumn_rcons.
by rewrite !take_oversize ?nth_default ?addn0 // ltnW.
Qed.

Lemma off_le sh k : off sh k <= sumn sh.
Proof. by rewrite /off -{2}(cat_take_drop k sh) sumn_cat leq_addr. Qed.

Lemma off_mono sh j k : j <= k -> off sh j <= off sh k.
Proof. by move=> le_jk; rewrite /off -(take_takel sh le_jk) off_le. Qed.

Lemma off_size sh k : size sh <= k -> off sh k = sumn sh.
Proof. by move=> le_k; rewrite /off take_oversize. Qed.

Lemma slice_add (T : Type) (s : seq T) lo n :
  slice s lo (lo + n) = take n (drop lo s).
Proof. by rewrite /slice addKn. Qed.

Lemma chunk_fits sh v k :
  off sh k <= size v ->
  (size (chunk sh v k) == nth 0 sh k) = (off sh k.+1 <= size v).
Proof.
move=> le_o; rewrite /chunk size_take size_drop off_S -(leq_subRL _ le_o).
case: ltnP => [lt_p|le_p]; first by rewrite eqxx (ltnW lt_p).
by rewrite eqn_leq le_p.
Qed.

Lemma chunk_take sh v i :
  chunk sh (take (sumn sh) v) i = chunk sh v i.
Proof.
rewrite /chunk take_drop [in RHS]take_drop; congr drop.
by rewrite take_takel // addnC -off_S off_le.
Qed.

(** *** Reshaping *)

Lemma getitem_rcons_last (T : Type) (s : seq T) (x : T) (k : nat) :
  size s = k -> getitem (rcons s x) k = Ok x.
Proof. by move=> <-; elim: s => [|y s IH]. Qed.

Lemma setitem_rcons_last (T : Type) (s : seq T) (x x' : T) (k : nat) :
  size s = k -> setitem (rcons s x) k x' = Ok (rcons s x').
Proof. by move=> <-; elim: s => [|y s IH] //=; rewrite IH. Qed.

Lemma shape3_unflatten3 (d : nat * nat * nat) v :
  size v = d.1.1 * d.1.2 * d.2 ->
  (shape3 (unflatten3 d v)).1.2 = (shape3 (np_zeros3 F d)).1.2
  /\ (shape3 (unflatten3 d v)).2 = (shape3 (np_zeros3 F d)).2.
Proof.
case: d => [[[|d0] d1] d2] //= sz.
rewrite /unflatten3 /unflatten2 /=; split.
  by rewrite size_reshape !size_nseq.
case: d1 sz => [|d1] //= sz.
have le1 : d1.+1 * d2 <= size v by rewrite sz -mulnA leq_pmull.
by rewrite !size_nseq size_takel ?size_takel // leq_pmull.
Qed.

Lemma np_concatenate3_zeros (d : nat * nat * nat) v :
  size v = d.1.1 * d.1.2 * d.2 ->
  np_concatenate3 (unflatten3 d v) (np_zeros3 F d)
  = Ok (unflatten3 d v ++ np_zeros3 F d).
Proof.
by move=> sz; rewrite /np_concatenate3; case: (shape3_unflatten3 sz) => -> ->;
   rewrite !eqxx.
Qed.

(** *** The loop over the surfaces *)

Variables (dims dims_star : seq (nat * nat)).
Variables (f_aero gamma_vec gamma_star_vec gamma_dot_vec : vec F).
Variable ts : AeroTimeStepInfo F.

Local Abbreviation extend :=
  (extend dims dims_star f_aero gamma_vec gamma_star_vec gamma_dot_vec ts).
Local Abbreviation fits_upto :=
  (fits_upto f_aero gamma_vec gamma_star_vec gamma_dot_vec ts).
Local Abbreviation fits :=
  (fits f_aero gamma_vec gamma_star_vec gamma_dot_vec ts).
Local Abbreviation wf_unpack := (wf_unpack dims dims_star ts).
Local Abbreviation loop_inv := (loop_inv ts).
Local Abbreviation unpacked :=
  (unpacked dims dims_star f_aero gamma_vec gamma_star_vec gamma_dot_vec ts).

Lemma fits_upto_mono j k : j <= k -> fits_upto k -> fits_upto j.
Proof.
move=> le_jk /and4P [h1 h2 h3 h4]; apply/and4P.
by split; [apply: leq_trans h1 | apply: leq_trans h2 | apply: leq_trans h3
          | apply: leq_trans h4]; apply: off_mono.
Qed.

Lemma unpack_surface_step (k : nat) (acc : unpack_vars F) :
  wf_unpack -> k < n_surf ts -> loop_inv k acc -> fits_upto k ->
  unpack_surface dims dims_star f_aero gamma_vec gamma_star_vec gamma_dot_vec
    ts k acc
  = if fits_upto k.+1 then Ok (extend acc k 1) else Raise ValueError.
Proof.
case/and5P=> /eqP sz1 /eqP sz2 /eqP sz3 /eqP sz4.
case/and3P=> /eqP sz5 /eqP pr1 /eqP pr2.
move=> lt_k [szf wp wpan ww] /and4P [f1 f2 f3 f4].
rewrite /unpack_surface.
rewrite (getitem_nth [::]) ?sz1 //= (getitem_nth (0, 0)) ?sz4 //=.
rewrite (getitem_nth (0, 0)) ?sz5 //= (getitem_nth [::]) ?sz2 //=.
rewrite (getitem_nth [::]) ?sz3 //= !slice_add wp wpan ww.
have np : asize3 (nth [::] (zeta ts) k) = nth 0 (surface_points ts) k.
  by rewrite (nth_map [::]) ?sz1.
have npan : asize2 (nth [::] (gamma ts) k) = nth 0 (surface_panels ts) k.
  by rewrite (nth_map [::]) ?sz2.
have nw : asize2 (nth [::] (gamma_star ts) k)
          = nth 0 (surface_wake_panels ts) k.
  by rewrite (nth_map [::]) ?sz3.
have dpan : (nth (0, 0) dims k).1 * (nth (0, 0) dims k).2
            = nth 0 (surface_panels ts) k.
  by rewrite -pr1 (nth_map (0, 0)) ?sz4.
have dw : (nth (0, 0) dims_star k).1 * (nth (0, 0) dims_star k).2
          = nth 0 (surface_wake_panels ts) k.
  by rewrite -pr2 (nth_map (0, 0)) ?sz5.
rewrite np npan nw -!/(chunk _ _ k) /reshape3 /reshape2.
rewrite -[_ * _ * _]/(asize3 (nth [::] (zeta ts) k)) np dpan dw.
rewrite /fits_upto !chunk_fits //.
case: ifP => [le1|_] //=.
have szc : size (chunk (surface_points ts) f_aero k)
           = asize3 (nth [::] (zeta ts) k).
  by apply/eqP; rewrite np chunk_fits.
rewrite (getitem_rcons_last _ szf) /= (np_concatenate3_zeros szc) /=.
rewrite (setitem_rcons_last _ _ szf) /=.
case: ifP => [le2|_] //=; case: ifP => [le3|_] //=; case: ifP => [le4|_] //=.
by rewrite /extend /= -!cats1 addn1 !off_S.
Qed.

Lemma unpack_fold (m k : nat) (acc : unpack_vars F) :
  wf_unpack -> k + m = n_surf ts -> loop_inv k acc -> fits_upto k ->
  foldM (unpack_surface dims dims_star f_aero gamma_vec gamma_star_vec
           gamma_dot_vec ts) (iota k m) acc
  = if fits_upto (k + m) then Ok (extend acc k m) else Raise ValueError.
Proof.
move=> wf; elim: m k acc => [|m IH] k acc km inv fk.
  rewrite addn0 fk /extend /= !cats0 addn0.
  by case: acc inv => fs g gd gs wp wpan ww [/= _ -> -> ->].
have lt_k : k < n_surf ts by rewrite -km -addSnnS leq_addr.
rewrite /= unpack_surface_step //.
case: ifP => [fk1|nfk1] /=; last first.
  case: ifP => // fkm; move: nfk1.
  by rewrite (@fits_upto_mono k.+1 (k + m.+1)) // -addSnnS leq_addr.
have inv1 : loop_inv k.+1 (extend acc k 1).
  case: inv => szf wp wpan ww.
  by split; rewrite /= ?addn1 // size_cat szf addn1.
rewrite IH ?addSnnS //.
by rewrite /extend /= -!catA /= addSnnS.
Qed.

Lemma fitsE : wf_unpack -> fits_upto (n_surf ts) = fits.
Proof.
case/and5P=> /eqP sz1 /eqP sz2 /eqP sz3 _ _.
rewrite /fits_upto /fits /total_points /panels /wake_panels.
by rewrite !off_size // size_map ?sz1 ?sz2 ?sz3.
Qed.

Lemma unpack_loop_outcome :
  wf_unpack ->
  unpack_loop dims dims_star f_aero gamma_vec gamma_star_vec gamma_dot_vec ts
  = if fits then Ok unpacked else Raise ValueError.
Proof.
move=> wf; rewrite /unpack_loop unpack_fold // ?add0n ?fitsE //.
  by split; rewrite /off ?take0.
by rewrite /fits_upto /off take0 take0 take0.
Qed.

End UnpackFacts.

(** * Unpacking through the solver *)

Section UnpackTheorems.

Variable F : dtype.
Variable E : collaborators F.

Implicit Types (w : world E) (ts : AeroTimeStepInfo F) (y x u : vec F).

Lemma all_take_sub (T : Type) (a : pred T) (n : nat) (s : seq T) :
  all a s -> all a (take n s).
Proof. by rewrite -{1}(cat_take_drop n s) all_cat => /andP []. Qed.

Lemma unflatten2_ravel2 (d : nat * nat) (a : array2 F) :
  rect2 d a -> unflatten2 d (ravel2 a) = a.
Proof.
case/andP=> /eqP sz all_d.
by rewrite /unflatten2 /ravel2 -sz -(rect_shape all_d) flattenK.
Qed.

Lemma unflatten3_ravel3 (d : nat * nat * nat) (a : array3 F) :
  rect3 d a -> unflatten3 d (ravel3 a) = a.
Proof.
case/andP=> /eqP sz all_d.
have all_f : all (fun r => size r == d.1.2 * d.2) [seq flatten p | p <- a].
  rewrite all_map; apply: sub_all all_d => p /= ok_p.
  by rewrite -[flatten p]/(ravel2 p) (size_ravel2 ok_p).
rewrite /unflatten3 /ravel3 -sz -(size_map flatten a) -(rect_shape all_f).
rewrite flattenK -map_comp.
elim: a all_d {sz all_f} => [|p a IH] //= /andP [ok_p ok_a].
by rewrite IH // -[flatten p]/(ravel2 p) unflatten2_ravel2.
Qed.

Lemma take3_forces (z f : array3 F) :
  (shape3 z).1.1 == 3 -> rect3 (6, (shape3 z).1.2, (shape3 z).2) f ->
  rect3 (shape3 z) (take 3 f).
Proof.
case: (shape3 z) => [[d0 d1] d2] /= /eqP -> /andP [/eqP /= sz all_f].
by rewrite /rect3 /= size_takel ?sz // eqxx all_take_sub.
Qed.

Lemma pack_forces_ok ts :
  wf_forces ts ->
  pack_forces ts = Ok (block (fun f => ravel3 (take 3 f)) (forces ts)).
Proof.
case/and3P=> n_gt0 /eqP sz _; rewrite /pack_forces.
rewrite (@concat_surfaces_all _ _ _ (forces ts) _ n_gt0 sz).
congr Ok; rewrite /block; congr flatten.
by apply: eq_map => f; rewrite /slice drop0.
Qed.

Lemma shape_packed_forces ts :
  size (zeta ts) = n_surf ts -> wf_forces ts ->
  shape [seq ravel3 (take 3 f) | f <- forces ts] = surface_points ts.
Proof.
move=> szz /and3P [_ /eqP szf]; rewrite /shape /surface_points -map_comp.
move: szf; rewrite -szz; elim: (zeta ts) (forces ts) => [|z zs IH] [|f fs] //=.
case=> sz /andP [/andP [d3 ok_f] ok_fs]; rewrite IH //; congr (_ :: _).
by rewrite (size_ravel3 (take3_forces d3 ok_f)).
Qed.

Lemma unpack_ss_vectors_outcome w y x u ts sys gv gsv gdv :
  wf_unpack (aero_dimensions w) (aero_dimensions_star w) ts ->
  linear_system w = Ok sys ->
  unpack_state sys x u = Ok (gv, gsv, gdv) ->
  unpack_ss_vectors w y x u ts
  = if fits y gv gsv gdv ts
    then Ok ([seq unpacked_forces y ts i | i <- iota 0 (n_surf ts)],
             [seq unpacked_gamma (aero_dimensions w) gv ts i
             | i <- iota 0 (n_surf ts)],
             [seq unpacked_gamma_dot (aero_dimensions w) gdv ts i
             | i <- iota 0 (n_surf ts)],
             [seq unpacked_gamma_star (aero_dimensions_star w) gsv ts i
             | i <- iota 0 (n_surf ts)])
    else Raise ValueError.
Proof.
move=> wf Esys Eun; rewrite /unpack_ss_vectors Esys /= Eun /=.
by rewrite unpack_loop_outcome //; case: (fits _ _ _ _ _).
Qed.

(** C6 (amended): for a template snapshot whose lists and stored lattice
    dimensions are consistent, [unpack_ss_vectors] cuts the output vector
    and the three circulation vectors returned by [unpack_state] in surface
    order, each surface taking its own element count.  When every vector
    holds at least the sum of the element counts the call succeeds, and its
    result is the one obtained from the vectors cut down to exactly that
    sum: elements beyond it are ignored.  When a vector holds fewer it
    raises [ValueError]. *)
Theorem unpack_ss_vectors_element_count w y x u ts sys gv gsv gdv :
  wf_unpack (aero_dimensions w) (aero_dimensions_star w) ts ->
  linear_system w = Ok sys ->
  unpack_state sys x u = Ok (gv, gsv, gdv) ->
  let out y' gv' gsv' gdv' :=
    ([seq unpacked_forces y' ts i | i <- iota 0 (n_surf ts)],
     [seq unpacked_gamma (aero_dimensions w) gv' ts i
     | i <- iota 0 (n_surf ts)],
     [seq unpacked_gamma_dot (aero_dimensions w) gdv' ts i
     | i <- iota 0 (n_surf ts)],
     [seq unpacked_gamma_star (aero_dimensions_star w) gsv' ts i
     | i <- iota 0 (n_surf ts)]) in
  [/\ fits y gv gsv gdv ts ->
      unpack_ss_vectors w y x u ts = Ok (out y gv gsv gdv),
      out y gv gsv gdv
      = out (take (total_points ts) y) (take (panels ts) gv)
          (take (wake_panels ts) gsv) (take (panels ts) gdv),
      fits y gv gsv gdv ts ->
      unpack_ss_vectors w (take (total_points ts) y) x u ts
      = unpack_ss_vectors w y x u ts
    & ~~ fits y gv gsv gdv ts ->
      unpack_ss_vectors w y x u ts = Raise ValueError].
Proof.
move=> wf Esys Eun out.
have forces_take i :
    unpacked_forces (take (total_points ts) y) ts i = unpacked_forces y ts i.
  by rewrite /unpacked_forces chunk_take.
split.
- by move=> ok; rewrite (unpack_ss_vectors_outcome _ wf Esys Eun) ok.
- rewrite /out; congr (_, _, _, _); apply: eq_map => i.
  + by rewrite forces_take.
  + by rewrite /unpacked_gamma chunk_take.
  + by rewrite /unpacked_gamma_dot chunk_take.
  + by rewrite /unpacked_gamma_star chunk_take.
- move=> ok; rewrite !(unpack_ss_vectors_outcome _ wf Esys Eun) ok.
  have -> : fits (take (total_points ts) y) gv gsv gdv ts.
    case/and4P: ok => ok1 ok2 ok3 ok4; apply/and4P; split=> //.
    by rewrite size_takel.
  by congr (Ok (_, _, _, _)); apply: eq_map => i; rewrite forces_take.
- by move=> /negbTE nok; rewrite (unpack_ss_vectors_outcome _ wf Esys Eun) nok.
Qed.

(** C5: for a snapshot with valid shapes, packing the first three force
    rows of every surface as [initialise] does and unpacking that vector
    gives back, for every surface, the original three force rows followed by
    three rows of zeros. *)
Theorem forces_round_trip w x u ts sys gv gsv gdv :
  wf_unpack (aero_dimensions w) (aero_dimensions_star w) ts ->
  wf_forces ts ->
  linear_system w = Ok sys ->
  unpack_state sys x u = Ok (gv, gsv, gdv) ->
  panels ts <= size gv -> panels ts <= size gdv ->
  wake_panels ts <= size gsv ->
  exists y_0 forces' gamma' gamma_dot' gamma_star',
    [/\ pack_forces ts = Ok y_0,
        unpack_ss_vectors w y_0 x u ts
        = Ok (forces', gamma', gamma_dot', gamma_star'),
        size forces' = n_surf ts
      & forall i, i < n_surf ts ->
          let d := shape3 (nth [::] (zeta ts) i) in
          nth [::] forces' i
          = take 3 (nth [::] (forces ts) i)
            ++ nseq 3 (nseq d.1.2 (nseq d.2 (fzero F)))].
Proof.
move=> wf wff Esys Eun ok2 ok3 ok4.
have /and5P [/eqP szz _ _ _ _] := wf.
have /and3P [n_gt0 /eqP szf all_zf] := wff.
set y_0 := block (fun f => ravel3 (take 3 f)) (forces ts).
have sh_y : shape [seq ravel3 (take 3 f) | f <- forces ts] = surface_points ts.
  exact: shape_packed_forces.
have ok : fits y_0 gv gsv gdv ts.
  apply/and4P; split=> //.
  by rewrite /y_0 /block size_flatten sh_y.
exists y_0; do 4!eexists; split.
- exact: pack_forces_ok.
- by rewrite (unpack_ss_vectors_outcome _ wf Esys Eun) ok.
- by rewrite size_map size_iota.
move=> i lt_i /=; rewrite (nth_map 0) ?size_iota // nth_iota // add0n.
have /andP [/= d3 ok_f] :
    ((shape3 (nth [::] (zeta ts) i)).1.1 == 3)
    && rect3 (6, (shape3 (nth [::] (zeta ts) i)).1.2,
              (shape3 (nth [::] (zeta ts) i)).2) (nth [::] (forces ts) i).
  have := all_nthP ([::], [::]) all_zf i.
  by rewrite size_zip szz szf minnn nth_zip ?szz ?szf //; apply.
rewrite /unpacked_forces /chunk -/(off _ _) -nth_reshape -sh_y flattenK.
rewrite (nth_map [::]) ?szf // (unflatten3_ravel3 (take3_forces d3 ok_f)).
by rewrite /np_zeros3 /shape3 /= (eqP d3).
Qed.

End UnpackTheorems.

(** * Properties of [run] and [initialise] *)

Section RunFacts.

Variable F : dtype.
Variable E : collaborators F.

Implicit Types (w : world E) (a : addr).

Lemma bind_reads (A B : Type) (f : world E -> result A) (k : A -> M E B) w :
  (x <~ reads f ;; k x) w
  = match f w with Ok x => k x w | Raise e => (w, Raise e) end.
Proof. by rewrite /bindM /reads; case: (f w). Qed.

Lemma bind_lift (A B : Type) (r : result A) (k : A -> M E B) w :
  (x <~ lift r ;; k x) w
  = match r with Ok x => k x w | Raise e => (w, Raise e) end.
Proof. by rewrite /bindM /lift; case: r. Qed.

Lemma bind_modify (B : Type) (g : world E -> world E) (k : unit -> M E B) w :
  (x <~ modify g ;; k x) w = k tt (g w).
Proof. by []. Qed.

Tactic Notation "run_read" ident(E) ident(x) :=
  rewrite bind_reads;
  lazymatch goal with
  | |- run_spec _ _ _ (match ?c with Ok _ => _ | Raise _ => _ end) =>
      case E: c => [x|?]
  end.

Tactic Notation "run_lift" ident(E) ident(x) :=
  rewrite bind_lift;
  lazymatch goal with
  | |- run_spec _ _ _ (match ?c with Ok _ => _ | Raise _ => _ end) =>
      case E: c => [x|?]
  end.

Lemma run_inv aero_tstep structure_tstep dt t w :
  run_spec aero_tstep dt w (run aero_tstep structure_tstep dt t w).
Proof.
rewrite /run.
run_read Ea a; last exact: RunNotStarted.
run_read Es s; last exact: RunNotStarted.
run_read Ed d; last exact: RunNotStarted.
run_read Et t'; last exact: RunNotStarted.
run_read Est st; last exact: RunNotStarted.
run_read Eg gen; last exact: RunNotStarted.
run_read Ep p; last exact: RunNotStarted.
rewrite bind_modify.
run_read Eu u'; last exact: RunGeneratorFailed.
rewrite bind_modify -/(generated a p u' w).
run_read Eun u_n; last exact: RunInputsFailed.
run_read Eu0 u_0; last exact: RunInputsFailed.
run_lift Edu du_n; last exact: RunInputsFailed.
run_read Edm du_m1; last exact: RunInputsFailed.
run_read Exm x_m1; last exact: RunInputsFailed.
run_read Ex0 x_0; last exact: RunInputsFailed.
run_lift Edx dx_m1; last exact: RunInputsFailed.
run_read Esys sys; last exact: RunInputsFailed.
rewrite bind_modify -/(stepped a p u' dx_m1 du_m1 du_n w).
have inputs : step_inputs aero_tstep dt w a p u' st dx_m1 du_m1 du_n.
  apply: (@StepInputs _ _ _ _ _ _ _ _ _ _ _ _ d gen u_n u_0 x_m1 x_0) => //.
  - by move: Ed Est; rewrite /the_settings; case: (dt) => [d'|] /=;
       [case=> -> | case: (attr _ _) => //= st' [<-] [->]].
  - by move: Eg; case: (velocity_generator w) => //= g [->].
run_lift Esol dxy; last exact: RunStepFailed inputs.
run_read Ex0' x_0'; last exact: RunStepFailed inputs.
run_lift Exn x_n; last exact: RunStepFailed inputs.
run_read Ey0 y_0; last exact: RunStepFailed inputs.
run_lift Eyn y_n; last exact: RunStepFailed inputs.
run_read Eun' r; last exact: RunStepFailed inputs.
rewrite !bind_modify.
exact: (RunCompleted r inputs).
Qed.

Lemma emitted_same w : emitted w w = [::].
Proof. by rewrite /emitted drop_size. Qed.

Lemma emitted_log w e : emitted w (log e w) = [:: e].
Proof. by rewrite /emitted /= -cats1 drop_size_cat. Qed.

Lemma emitted_generated w a p u' :
  emitted w (generated a p u' w) = [:: EvGenerate p].
Proof. exact: emitted_log. Qed.

Lemma emitted_stepped w a p u' dx du_m1 du :
  emitted w (stepped a p u' dx du_m1 du w)
  = [:: EvGenerate p; EvSolveStep dx du_m1 du true].
Proof. by rewrite /emitted /= -!cats1 -catA drop_size_cat. Qed.

Lemma emitted_written w a r p u' dx du_m1 du :
  emitted w (written a r (stepped a p u' dx du_m1 du w))
  = [:: EvGenerate p; EvSolveStep dx du_m1 du true].
Proof. exact: emitted_stepped. Qed.

(** A call of [solve_step] among the emitted events is the one [run] makes
    once its inputs are established. *)
Lemma run_spec_call aero_tstep dt w out pre post dx du_m1 du_n tf :
  run_spec aero_tstep dt w out ->
  emitted w out.1 = pre ++ EvSolveStep dx du_m1 du_n tf :: post ->
  exists a p u' st, step_inputs aero_tstep dt w a p u' st dx du_m1 du_n.
Proof.
case=> [e|p e|a p u' e _|a p u' st dx' du_m1' du_n' e inputs
       |a p u' st dx' du_m1' du_n' r inputs] /=.
- by rewrite emitted_same; case: pre.
- by rewrite emitted_log; case: pre => [|? [|? ?]].
- by rewrite emitted_generated; case: pre => [|? [|? ?]].
- rewrite emitted_stepped.
  case: pre => [|? [|? [|? ?]]] //= [_ Edx Edu Edn _ _].
  by exists a, p, u', st; rewrite -Edx -Edu -Edn.
- rewrite emitted_written.
  case: pre => [|? [|? [|? ?]]] //= [_ Edx Edu Edn _ _].
  by exists a, p, u', st; rewrite -Edx -Edu -Edn.
Qed.

Lemma run_call aero_tstep structure_tstep dt t w pre post dx du_m1 du_n tf :
  emitted w (run aero_tstep structure_tstep dt t w).1
  = pre ++ EvSolveStep dx du_m1 du_n tf :: post ->
  exists a p u' st, step_inputs aero_tstep dt w a p u' st dx du_m1 du_n.
Proof. exact: run_spec_call (run_inv _ _ _ _ _). Qed.

Lemma heap_generated w a p u' b :
  heap (generated a p u' w) b
  = if b == a then with_u_ext u' (heap w a) else heap w b.
Proof. by []. Qed.

(** The state vector does not read [u_ext]: what the generator wrote does
    not change it. *)
Lemma state_m1_generated w a p u' (dt' : F) (k : Z) :
  state_m1 a dt' k (generated a p u' w) = state_m1 a dt' k w.
Proof.
rewrite /state_m1 -[self_data (generated _ _ _ _)]/(self_data w).
rewrite -[timestep_info (generated _ _ _ _)]/(timestep_info w).
case: (self_data w) => //; case: ifP => _.
  by rewrite heap_generated eqxx.
case: (getitem_back _ _) => [a2|//]; rewrite /rbind !heap_generated eqxx.
by case: eqP => [->|_].
Qed.

(** C7 (amended): whenever [run] calls [solve_step], the delta state it
    passes is the packed state minus the stored [x_0], where the state is
    packed from the current snapshot (the [aero_tstep] argument, by default
    the last retained snapshot) together with the second most recent
    retained snapshot when at least two are retained, and from the current
    snapshot with [None] as previous snapshot otherwise. *)
Theorem run_state_delta aero_tstep structure_tstep dt t w pre post dx du_m1
    du_n tf :
  emitted w (run aero_tstep structure_tstep dt t w).1
  = pre ++ EvSolveStep dx du_m1 du_n tf :: post ->
  exists a st x_m1 x_0,
    let dt' := if dt is Some d then d else s_dt st in
    [/\ current aero_tstep w = Ok a,
        the_settings w = Ok st,
        (if size (timestep_info w) < 2
         then pack_state_vector (heap w a) None dt' (s_integr_order st)
         else
           tstep_m1 <- getitem_back (timestep_info w) 2 ;;
           pack_state_vector (heap w a) (Some (heap w tstep_m1)) dt'
             (s_integr_order st)) = Ok x_m1,
        linear_vec "x_0" w = Ok x_0
      & np_sub x_m1 x_0 = Ok dx].
Proof.
case/run_call=> a [p [u' [st inputs]]].
case: inputs => dt' gen u_n u_0 x_m1 x_0 Ea Est -> _ _ _ _ _ _ Ex Ex0 Edx.
exists a, st, x_m1, x_0; split=> //.
by move: Ex; rewrite state_m1_generated /state_m1; case: (self_data w).
Qed.

(** C8: [run] passes a previous-step input delta to [solve_step] exactly
    when the setting [remove_predictor] is set: it is then the input packed
    from the last retained snapshot minus [u_0], and [None] otherwise.  In
    the stepper of the specification the standard form does not depend on
    that argument, and the predictor-removed form without it fails with the
    missing-history error. *)
Theorem previous_input_iff_predictor_removed :
  (forall aero_tstep structure_tstep dt t w pre post dx du_m1 du_n tf,
     emitted w (run aero_tstep structure_tstep dt t w).1
     = pre ++ EvSolveStep dx du_m1 du_n tf :: post ->
     exists a p u' st,
       [/\ current aero_tstep w = Ok a,
           the_settings w = Ok st
         & if s_remove_predictor st
           then exists last_tstep u_m1 u_0 d,
                  [/\ retained 1 w = Ok last_tstep,
                      pack_input_vector (heap (generated a p u' w) last_tstep)
                      = Ok u_m1,
                      linear_vec "u_0" w = Ok u_0,
                      np_sub u_m1 u_0 = Ok d
                    & du_m1 = Some d]
           else du_m1 = None])
  /\ (forall (sys : LinearSystemState F) dx du_m1 du_m1' du_n tf,
        predictor_removed sys = false ->
        spec_solve_step sys dx du_m1 du_n tf
        = spec_solve_step sys dx du_m1' du_n tf)
  /\ (forall (sys : LinearSystemState F) dx du_n tf,
        predictor_removed sys = true ->
        spec_solve_step sys dx None du_n tf = Raise MissingHistoryError).
Proof.
split; last first.
  by split=> [sys dx du_m1 du_m1' du_n tf|sys dx du_n tf];
     rewrite /spec_solve_step => ->.
move=> aero_tstep structure_tstep dt t w pre post dx du_m1 du_n tf.
case/run_call=> a [p [u' [st inputs]]].
case: inputs => dt' gen u_n u_0 x_m1 x_0 Ea Est _ _ _ _ _ _ Edm _ _ _.
exists a, p, u', st; split=> //.
move: Edm; rewrite /input_delta_m1; case: (s_remove_predictor st); last by case.
rewrite -[retained 1 (generated _ _ _ _)]/(retained 1 w).
rewrite -[linear_vec _ (generated _ _ _ _)]/(linear_vec "u_0" w).
case El: (retained 1 w) => [last_tstep|] //=.
case Eu: (pack_input_vector _) => [u_m1|] //=.
case E0: (linear_vec _ w) => [u_0'|] //=.
case Ed: (np_sub _ _) => [d|] //= [<-].
by exists last_tstep, u_m1, u_0', d.
Qed.

(** C9 (amended): a call of [run] leaves the dictionary
    [data.aero.linear] (reference triple, operator and its matrices) and
    the list of retained snapshots as they were, changes no snapshot other
    than the current one, and on the current one leaves [n_surf], [zeta],
    [zeta_dot] and [rho] as they were: only [u_ext] (filled by the velocity
    generator) and [forces], [gamma], [gamma_dot] and [gamma_star] are
    overwritten. *)
Theorem run_frame aero_tstep structure_tstep dt t w :
  let w' := (run aero_tstep structure_tstep dt t w).1 in
  [/\ linear w' = linear w,
      timestep_info w' = timestep_info w,
      forall b, current aero_tstep w <> Ok b -> heap w' b = heap w b
    & forall a, current aero_tstep w = Ok a ->
        [/\ n_surf (heap w' a) = n_surf (heap w a),
            zeta (heap w' a) = zeta (heap w a),
            zeta_dot (heap w' a) = zeta_dot (heap w a)
          & rho (heap w' a) = rho (heap w a)]].
Proof.
have same a p u' st dx du_m1 du_n b :
    step_inputs aero_tstep dt w a p u' st dx du_m1 du_n ->
    current aero_tstep w = Ok b -> b = a.
  by case=> ? ? ? ? ? ? -> _ _ _ _ _ _ _ _ _ _ _ [].
have differs a p u' st dx du_m1 du_n b :
    step_inputs aero_tstep dt w a p u' st dx du_m1 du_n ->
    current aero_tstep w <> Ok b -> (b == a) = false.
  by case=> ? ? ? ? ? ? Ea _ _ _ _ _ _ _ _ _ _ _ neq; apply/eqP => eq_ba;
     apply: neq; rewrite Ea eq_ba.
case: (run_inv aero_tstep structure_tstep dt t w)
  => [e|p e|a p u' e Ea|a p u' st dx du_m1 du_n e inputs
     |a p u' st dx du_m1 du_n r inputs] /=; split=> //.
- move=> b neq; rewrite /assign /=; case: eqP => // eq_ba.
  by case: neq; rewrite Ea eq_ba.
- by move=> b; rewrite Ea => - [<-]; rewrite eqxx.
- by move=> b neq; rewrite (differs _ _ _ _ _ _ _ _ inputs neq).
- by move=> b /(same _ _ _ _ _ _ _ _ inputs) ->; rewrite eqxx.
- by move=> b neq; rewrite !(differs _ _ _ _ _ _ _ _ inputs neq).
- by move=> b /(same _ _ _ _ _ _ _ _ inputs) ->; rewrite !eqxx.
Qed.

(** *** [initialise] *)

Lemma bind_gets (A B : Type) (f : world E -> A) (k : A -> M E B) w :
  (x <~ gets f ;; k x) w = k (f w) w.
Proof. by []. Qed.

Lemma bind_linear_setitem (B : Type) (key : string) (v : pyobj E)
    (k : unit -> M E B) w :
  (x <~ linear_setitem key v ;; k x) w
  = match the_linear w with
    | Ok l => k tt (set_linear (Some (dict_set l key v)) w)
    | Raise e => (w, Raise e)
    end.
Proof.
by rewrite /linear_setitem /bindM /reads /modify; case: (the_linear w).
Qed.

Lemma linearise_raises (st : Settings E) w :
  exists e, (linearise st w).2 = Raise e.
Proof.
rewrite /linearise bind_modify.
rewrite bind_reads; case: (retained _ _) => [a|e]; last by exists e.
rewrite bind_modify.
rewrite bind_reads; case: (Dynamic_new _ _ _ _ _ _ _) => [sys0|e];
  last by exists e.
rewrite bind_reads; case: (pack_input_vector _) => [u_0|e]; last by exists e.
rewrite bind_reads; case: (pack_state_vector _ _ _ _) => [x_0|e];
  last by exists e.
rewrite bind_reads; case: (pack_forces _) => [f_0|e]; last by exists e.
rewrite bind_lift; case: (assemble_ss _) => [sys|e]; last by exists e.
do 5![rewrite bind_linear_setitem; case: (the_linear _) => [?|e];
      last by exists e].
by rewrite bind_lift /unbound_name; exists NameError.
Qed.

Lemma linearise_stops (st : Settings E) w a sys0 sys u_0 x_0 f_0 :
  self_data w ->
  getitem_back (timestep_info w) 1 = Ok a ->
  let snap := with_rho (Some (s_density st)) (heap w a) in
  Dynamic_new E snap (s_dt st) (s_integr_order st) (s_ScalingDict st)
    (s_remove_predictor st) (s_use_sparse st) = Ok sys0 ->
  pack_input_vector snap = Ok u_0 ->
  pack_state_vector snap None (s_dt st) (s_integr_order st) = Ok x_0 ->
  pack_forces snap = Ok f_0 ->
  assemble_ss sys0 = Ok sys ->
  [/\ (linearise st w).2 = Raise NameError,
      linear (linearise st w).1 = Some (reference_dict sys x_0 u_0 f_0)
    & velocity_generator (linearise st w).1 = velocity_generator w].
Proof.
move=> sd Ea snap Esys0 Eu Ex Ef Esys.
rewrite /linearise bind_modify bind_reads /retained /= sd Ea bind_modify.
rewrite bind_reads /assign /= eqxx -/snap Esys0.
rewrite bind_reads /= eqxx -/snap Eu bind_reads /= eqxx -/snap Ex.
rewrite bind_reads /= eqxx -/snap Ef bind_lift Esys.
by do 5![rewrite bind_linear_setitem /the_linear /= sd /=].
Qed.

(** C3: on the first initialisation (no [linear] attribute yet)
    [initialise] never completes.  When the operator is built and the
    snapshot packs, it stores the operator and the reference triple --
    [x_0] from [pack_state_vector], [u_0] from [pack_input_vector], [y_0]
    from the first three force rows of every surface -- and then raises
    [NameError] at the assignment of [gamma_0], before the velocity
    generator is set up. *)
Theorem initialise_first_call custom_settings w :
  linear w = None ->
  let out := initialise custom_settings w in
  (exists e, out.2 = Raise e)
  /\ forall st a sys0 sys u_0 x_0 f_0,
       (if custom_settings is Some s then Ok s
        else attr KeyError (data_settings w)) = Ok st ->
       getitem_back (timestep_info w) 1 = Ok a ->
       let snap := with_rho (Some (s_density st)) (heap w a) in
       Dynamic_new E snap (s_dt st) (s_integr_order st) (s_ScalingDict st)
         (s_remove_predictor st) (s_use_sparse st) = Ok sys0 ->
       pack_input_vector snap = Ok u_0 ->
       pack_state_vector snap None (s_dt st) (s_integr_order st) = Ok x_0 ->
       pack_forces snap = Ok f_0 ->
       assemble_ss sys0 = Ok sys ->
       [/\ out.2 = Raise NameError,
           linear out.1 = Some (reference_dict sys x_0 u_0 f_0)
         & velocity_generator out.1 = velocity_generator w].
Proof.
move=> no_linear /=; rewrite /initialise bind_modify bind_reads /=.
case Est: (if custom_settings is Some s then _ else _) => [st|e]; last first.
  by split; [exists e | ].
rewrite bind_modify bind_gets /= no_linear /=.
set w2 := set_self_settings _ _.
split.
  have [e] := linearise_raises st w2.
  by rewrite /bindM; case: (linearise st w2) => w3 [[]|e'] //= _; exists e'.
move=> st' a sys0 sys u_0 x_0 f_0 [<-] Ea Esys0 Eu Ex Ef Esys.
have [] := @linearise_stops st w2 a sys0 sys u_0 x_0 f_0 isT Ea Esys0 Eu Ex Ef
             Esys.
by rewrite /bindM; case: (linearise st w2) => w3 [[]|e'] //= [->] -> ->.
Qed.

End RunFacts.

(** * Errors and edges of the packer *)

Section PackerEdges.

Variable F : dtype.

Implicit Types (ts : AeroTimeStepInfo F) (v : vec F).

Lemma mapM_getitem_outcome (A B : Type) (f : A -> B) (s : seq A) (k n : nat) :
  k <= size s ->
  mapM (fun i => a <- getitem s i ;; Ok (f a)) (iota k n)
  = if k + n <= size s then Ok [seq f a | a <- take n (drop k s)]
    else Raise IndexError.
Proof.
elim: n k => [|n IH] k le_k; first by rewrite addn0 le_k take0.
rewrite addnS /= getitem_drop; case Ed: (drop k s) => [|x r] /=.
  move: (congr1 size Ed); rewrite size_drop /= => /eqP; rewrite subn_eq0.
  by move=> ge_k; rewrite ltnNge (leq_trans ge_k (leq_addr _ _)).
have lt_k : k < size s.
  by rewrite -subn_gt0 -size_drop Ed.
have -> : r = drop k.+1 s by rewrite -addn1 addnC -drop_drop Ed /= drop0.
by rewrite IH // addSn; case: ifP.
Qed.

Lemma concat_surfaces_outcome (A : Type) (ravel : A -> vec F) (arrs : seq A)
    (n : nat) :
  concat_surfaces ravel arrs n
  = if size arrs < n then Raise IndexError
    else if n == 0 then Raise ValueError
    else Ok (block ravel (take n arrs)).
Proof.
rewrite /concat_surfaces mapM_getitem_outcome // add0n drop0 ltnNge.
case: leqP => //= le_n; case: n le_n => [|n] lt_n; first by rewrite take0.
by case: arrs lt_n.
Qed.

(** X1: [pack_input_vector] fails in two ways only.  It raises
    [IndexError] when one of [zeta], [zeta_dot], [u_ext] holds fewer than
    [n_surf] arrays and [ValueError] when [n_surf] is 0 (numpy refuses to
    concatenate an empty list).  Otherwise it returns the three blocks made
    of the first [n_surf] arrays of each list: arrays beyond [n_surf] are
    ignored and the shapes of the three lists are never compared. *)
Theorem pack_input_vector_outcome ts :
  pack_input_vector ts
  = if [|| size (zeta ts) < n_surf ts, size (zeta_dot ts) < n_surf ts
         | size (u_ext ts) < n_surf ts]
    then Raise IndexError
    else if n_surf ts == 0 then Raise ValueError
    else Ok (block (@ravel3 F) (take (n_surf ts) (zeta ts))
             ++ block (@ravel3 F) (take (n_surf ts) (zeta_dot ts))
             ++ block (@ravel3 F) (take (n_surf ts) (u_ext ts))).
Proof.
rewrite /pack_input_vector !concat_surfaces_outcome.
case: (n_surf ts) => [|n] //=.
case: (size (zeta ts) < n.+1) => //=.
case: (size (zeta_dot ts) < n.+1) => //=.
case: (size (u_ext ts) < n.+1) => //=.
by rewrite cats0.
Qed.

Lemma pack_state_vector_outcome ts prev (dt : F) (integr_order : Z) :
  pack_state_vector ts prev dt integr_order
  = if [|| size (gamma ts) < n_surf ts, size (gamma_star ts) < n_surf ts
         | size (gamma_dot ts) < n_surf ts]
    then Raise IndexError
    else if n_surf ts == 0 then Raise ValueError
    else
      let G := block (@ravel2 F) (take (n_surf ts) (gamma ts)) in
      let GS := block (@ravel2 F) (take (n_surf ts) (gamma_star ts)) in
      let GD := block (@ravel2 F) (take (n_surf ts) (gamma_dot ts)) in
      gamma_m1 <-
        (if (integr_order =? 1)%Z then Ok [::]
         else
           match prev with
           | Some tstep_m1 =>
               if size (gamma tstep_m1) < n_surf ts then Raise IndexError
               else Ok (block (@ravel2 F) (take (n_surf ts) (gamma tstep_m1)))
           | None => np_sub G (np_scale dt GD)
           end) ;;
      Ok (G ++ GS ++ np_scale dt GD ++ gamma_m1).
Proof.
rewrite /pack_state_vector !concat_surfaces_outcome.
case En: (n_surf ts) => [|n] //=.
case: (size (gamma ts) < n.+1) => //=.
case: (size (gamma_star ts) < n.+1) => //=.
case: (size (gamma_dot ts) < n.+1) => //=.
case: (integr_order =? 1)%Z => /=; first by rewrite !cats0.
case: prev => [tstep_m1|] /=.
  rewrite concat_surfaces_outcome /=.
  by case: (size (gamma tstep_m1) < n.+1) => //=; rewrite cats0.
by case: (np_sub _ _) => //= gamma_m1; rewrite cats0.
Qed.

(** X2: the errors of [pack_state_vector] on incomplete snapshots.  A
    circulation list with fewer than [n_surf] arrays raises [IndexError], a
    snapshot with no surface raises [ValueError], and, for an integration
    order other than 1, a previous snapshot holding fewer than [n_surf]
    circulation arrays raises [IndexError]: the surfaces are counted by the
    current snapshot alone. *)
Theorem pack_state_vector_errors ts (dt : F) (integr_order : Z) :
  let missing :=
    [|| size (gamma ts) < n_surf ts, size (gamma_star ts) < n_surf ts
      | size (gamma_dot ts) < n_surf ts] in
  [/\ forall prev,
        missing -> pack_state_vector ts prev dt integr_order = Raise IndexError,
      forall prev,
        n_surf ts = 0 ->
        pack_state_vector ts prev dt integr_order = Raise ValueError
    & forall tstep_m1,
        ~~ missing -> integr_order <> 1%Z ->
        size (gamma tstep_m1) < n_surf ts ->
        pack_state_vector ts (Some tstep_m1) dt integr_order
        = Raise IndexError].
Proof.
split=> [prev missing|prev n0|tstep_m1 /negbTE ok /Z.eqb_neq neq1 lt_n];
  rewrite pack_state_vector_outcome.
- by rewrite missing.
- by rewrite n0.
- by rewrite ok neq1 lt_n; case: (n_surf ts) lt_n.
Qed.

(** X3: [pack_state_vector] does not compare the size of [gamma_dot], or
    of the previous circulation, with the size of [gamma].  For a snapshot
    with its [n_surf] > 0 arrays per list and an integration order other
    than 1: with a previous snapshot the vector is built whatever the
    sizes; without one, a [gamma_dot] of one element in total is broadcast
    over [gamma] in the backward estimate, and sizes that differ with
    neither equal to 1 raise [ValueError]. *)
Theorem pack_state_vector_rate_not_validated ts (dt : F) (integr_order : Z) :
  0 < n_surf ts ->
  [&& n_surf ts <= size (gamma ts), n_surf ts <= size (gamma_star ts)
    & n_surf ts <= size (gamma_dot ts)] ->
  integr_order <> 1%Z ->
  let G := block (@ravel2 F) (take (n_surf ts) (gamma ts)) in
  let GS := block (@ravel2 F) (take (n_surf ts) (gamma_star ts)) in
  let GD := block (@ravel2 F) (take (n_surf ts) (gamma_dot ts)) in
  [/\ forall tstep_m1,
        n_surf ts <= size (gamma tstep_m1) ->
        pack_state_vector ts (Some tstep_m1) dt integr_order
        = Ok (G ++ GS ++ np_scale dt GD
              ++ block (@ravel2 F) (take (n_surf ts) (gamma tstep_m1))),
      size GD = 1 ->
      pack_state_vector ts None dt integr_order
      = Ok (G ++ GS ++ np_scale dt GD
            ++ [seq fsub g (fmul dt (head (fzero F) GD)) | g <- G])
    & size G != size GD -> size GD != 1 -> size G != 1 ->
      pack_state_vector ts None dt integr_order = Raise ValueError].
Proof.
move=> n_gt0 /and3P [le1 le2 le3] /Z.eqb_neq neq1 G GS GD.
have ok : [|| size (gamma ts) < n_surf ts, size (gamma_star ts) < n_surf ts
            | size (gamma_dot ts) < n_surf ts] = false.
  by rewrite !ltnNge le1 le2 le3.
have n0 : (n_surf ts == 0) = false by rewrite eqn0Ngt n_gt0.
split=> [tstep_m1 le_n|szGD|neq neqGD neqG];
  rewrite pack_state_vector_outcome ok n0 neq1 /=.
- by rewrite ltnNge le_n.
- rewrite /np_sub /np_binop size_np_scale -/G -/GD szGD.
  case: (GD) szGD => [|gd [|? ?]] //= _.
  by case: (G) => [|g [|? ?]].
- rewrite /np_sub /np_binop size_np_scale -/G -/GD.
  by rewrite (negbTE neq) (negbTE neqGD) (negbTE neqG).
Qed.

End PackerEdges.

(** * Shapes and round trip of [unpack_ss_vectors] *)

Section UnpackEdges.

Variable F : dtype.
Variable E : collaborators F.

Implicit Types (w : world E) (ts : AeroTimeStepInfo F) (y x u v : vec F).

(** X4: for a snapshot with no surface [unpack_ss_vectors] returns four
    empty lists, whatever the vectors hold, where the packers raise
    [ValueError]. *)
Theorem unpack_ss_vectors_no_surface w y x u ts sys g :
  n_surf ts = 0 ->
  linear_system w = Ok sys ->
  unpack_state sys x u = Ok g ->
  unpack_ss_vectors w y x u ts = Ok ([::], [::], [::], [::])
  /\ pack_input_vector ts = Raise ValueError
  /\ forall prev dt integr_order,
       pack_state_vector ts prev dt integr_order = Raise ValueError.
Proof.
move=> n0 Esys Eun; split; last first.
  rewrite /pack_input_vector concat_surfaces_outcome n0 /=; split=> // prev dt k.
  by rewrite pack_state_vector_outcome n0.
rewrite /unpack_ss_vectors Esys /= Eun /=.
by case: g {Eun} => [[gv gsv] gdv]; rewrite /unpack_loop n0.
Qed.

Lemma chunk_size (sh : seq nat) v (i : nat) :
  sumn sh <= size v -> size (chunk sh v i) = nth 0 sh i.
Proof.
move=> le_v; apply/eqP; rewrite chunk_fits; apply: leq_trans le_v;
  exact: off_le.
Qed.

Lemma all_size_reshape (n m : nat) v :
  n * m <= size v -> all (fun r => size r == m) (reshape (nseq n m) v).
Proof.
move=> le_v.
have sh : shape (reshape (nseq n m) v) = nseq n m.
  by apply: reshapeKl; rewrite sumn_nseq mulnC.
rewrite -(all_map size (pred1 m)) -/(shape _) sh.
exact: all_pred1_nseq.
Qed.

Lemma rect2_unflatten2 (d : nat * nat) v :
  size v = d.1 * d.2 -> rect2 d (unflatten2 d v).
Proof.
move=> sz; rewrite /rect2 /unflatten2 size_reshape size_nseq eqxx /=.
by apply: all_size_reshape; rewrite sz.
Qed.

Lemma rect3_unflatten3 (d : nat * nat * nat) v :
  size v = d.1.1 * d.1.2 * d.2 -> rect3 d (unflatten3 d v).
Proof.
move=> sz; rewrite /rect3 /unflatten3 size_map size_reshape size_nseq eqxx /=.
rewrite all_map.
have : all (fun r => size r == d.1.2 * d.2)
         (reshape (nseq d.1.1 (d.1.2 * d.2)) v).
  by apply: all_size_reshape; rewrite sz mulnA.
by apply: sub_all => p /eqP sz_p /=; apply: rect2_unflatten2.
Qed.

Lemma rect3_zeros (d : nat * nat * nat) : rect3 d (np_zeros3 F d).
Proof.
rewrite /rect3 /np_zeros3 size_nseq eqxx /= all_nseq.
by rewrite /rect2 /= size_nseq eqxx /= all_nseq size_nseq eqxx !orbT.
Qed.

(** X5: the shapes of what [unpack_ss_vectors] returns.  Every list has
    one entry per surface.  The forces of a surface whose grid [zeta] has
    shape [d0 x d1 x d2] form a [2*d0 x d1 x d2] array whose last [d0] rows
    are zero whatever the output vector holds, and the circulation arrays
    have the stored dimensions of the bound and wake lattices. *)
Theorem unpack_ss_vectors_shapes w y x u ts sys gv gsv gdv forces' gamma'
    gamma_dot' gamma_star' :
  wf_unpack (aero_dimensions w) (aero_dimensions_star w) ts ->
  linear_system w = Ok sys ->
  unpack_state sys x u = Ok (gv, gsv, gdv) ->
  unpack_ss_vectors w y x u ts = Ok (forces', gamma', gamma_dot', gamma_star') ->
  [/\ size forces' = n_surf ts, size gamma' = n_surf ts,
      size gamma_dot' = n_surf ts & size gamma_star' = n_surf ts]
  /\ forall i, i < n_surf ts ->
       let d := shape3 (nth [::] (zeta ts) i) in
       [/\ rect3 (d.1.1 + d.1.1, d.1.2, d.2) (nth [::] forces' i),
           drop d.1.1 (nth [::] forces' i) = np_zeros3 F d,
           rect2 (nth (0, 0) (aero_dimensions w) i) (nth [::] gamma' i),
           rect2 (nth (0, 0) (aero_dimensions w) i) (nth [::] gamma_dot' i)
         & rect2 (nth (0, 0) (aero_dimensions_star w) i)
             (nth [::] gamma_star' i)].
Proof.
move=> wf Esys Eun; rewrite (unpack_ss_vectors_outcome _ wf Esys Eun).
case: ifP => // /and4P [ok1 ok2 ok3 ok4] [<- <- <- <-].
case/and5P: wf => /eqP sz1 /eqP sz2 /eqP sz3 /eqP sz4.
case/and3P=> /eqP sz5 /eqP pr1 /eqP pr2.
split; first by split; rewrite size_map size_iota.
move=> i lt_i d; rewrite !(nth_map 0) ?size_iota // nth_iota // add0n.
have szf : size (chunk (surface_points ts) y i) = d.1.1 * d.1.2 * d.2.
  by rewrite chunk_size // (nth_map [::]) ?sz1.
have szg v : panels ts <= size v ->
    size (chunk (surface_panels ts) v i)
    = (nth (0, 0) (aero_dimensions w) i).1
      * (nth (0, 0) (aero_dimensions w) i).2.
  by move=> le_v; rewrite chunk_size // -pr1 (nth_map (0, 0)) ?sz4.
have szs : size (chunk (surface_wake_panels ts) gsv i)
           = (nth (0, 0) (aero_dimensions_star w) i).1
             * (nth (0, 0) (aero_dimensions_star w) i).2.
  by rewrite chunk_size // -pr2 (nth_map (0, 0)) ?sz5.
have szu : size (unflatten3 d (chunk (surface_points ts) y i)) = d.1.1.
  by rewrite /unflatten3 size_map size_reshape size_nseq.
split.
- rewrite /unpacked_forces -/d /rect3 /= size_cat szu.
  rewrite /np_zeros3 size_nseq eqxx /= all_cat.
  have /andP [_ ->] := rect3_unflatten3 szf.
  by have /andP [_ ->] := rect3_zeros d.
- by rewrite /unpacked_forces -/d -{1}szu drop_size_cat.
- exact/rect2_unflatten2/szg.
- exact/rect2_unflatten2/szg.
- exact: rect2_unflatten2.
Qed.

Lemma shape_lattice (dims : seq (nat * nat)) (arrs : seq (array2 F)) :
  size dims = size arrs ->
  all (fun dg => rect2 dg.1 dg.2) (zip dims arrs) ->
  shape [seq ravel2 a | a <- arrs] = [seq d.1 * d.2 | d <- dims].
Proof.
elim: dims arrs => [|d dims IH] [|a arrs] //= [sz] /andP [ok_a ok_arrs].
by rewrite (size_ravel2 ok_a); congr (_ :: _); apply: IH.
Qed.

Lemma chunk_block (arrs : seq (array2 F)) (i : nat) :
  chunk (shape [seq ravel2 a | a <- arrs]) (block (@ravel2 F) arrs) i
  = ravel2 (nth [::] arrs i).
Proof.
rewrite /chunk -/(off _ _) /off -nth_reshape /block flattenK.
case: (ltnP i (size arrs)) => [lt_i|le_i]; first by rewrite (nth_map [::]).
by rewrite !nth_default ?size_map.
Qed.

Lemma unflatten_lattice (dims : seq (nat * nat)) (arrs : seq (array2 F))
    (n : nat) :
  size dims = n -> size arrs = n ->
  all (fun dg => rect2 dg.1 dg.2) (zip dims arrs) ->
  [seq unflatten2 (nth (0, 0) dims i)
         (chunk (shape [seq ravel2 a | a <- arrs]) (block (@ravel2 F) arrs) i)
  | i <- iota 0 n] = arrs.
Proof.
move=> szd sza ok; rewrite -[RHS](mkseq_nth [::]) sza /mkseq.
apply/eq_in_map => i; rewrite mem_iota add0n /= => lt_i.
rewrite chunk_block unflatten2_ravel2 //.
have := all_nthP ((0, 0), [::]) ok i.
by rewrite size_zip szd sza minnn nth_zip ?szd ?sza //; apply.
Qed.

(** X6: round trip of the circulation.  When the arrays of the snapshot
    have the stored lattice dimensions and [unpack_state] returns the
    flattened [gamma], [gamma_star] and [gamma_dot] of the snapshot, surface
    after surface as [pack_state_vector] lays them out, [unpack_ss_vectors]
    returns the three lists of arrays of the snapshot unchanged. *)
Theorem circulation_round_trip w y x u ts sys :
  wf_unpack (aero_dimensions w) (aero_dimensions_star w) ts ->
  wf_lattice (aero_dimensions w) (aero_dimensions_star w) ts ->
  linear_system w = Ok sys ->
  unpack_state sys x u
  = Ok (block (@ravel2 F) (gamma ts), block (@ravel2 F) (gamma_star ts),
        block (@ravel2 F) (gamma_dot ts)) ->
  total_points ts <= size y ->
  exists forces',
    unpack_ss_vectors w y x u ts
    = Ok (forces', gamma ts, gamma_dot ts, gamma_star ts).
Proof.
move=> wf /and4P [/eqP szgd ok_g ok_gd ok_gs] Esys Eun le_y.
rewrite (unpack_ss_vectors_outcome _ wf Esys Eun).
case/and5P: wf => /eqP sz1 /eqP sz2 /eqP sz3 /eqP sz4.
case/and3P=> /eqP sz5 /eqP pr1 /eqP pr2.
have sh_g : shape [seq ravel2 a | a <- gamma ts] = surface_panels ts.
  by rewrite (shape_lattice _ ok_g) ?sz4 ?sz2.
have sh_gd : shape [seq ravel2 a | a <- gamma_dot ts] = surface_panels ts.
  by rewrite (shape_lattice _ ok_gd) ?sz4 ?szgd.
have sh_gs : shape [seq ravel2 a | a <- gamma_star ts]
             = surface_wake_panels ts.
  by rewrite (shape_lattice _ ok_gs) ?sz5 ?sz3.
have -> : fits y (block (@ravel2 F) (gamma ts))
            (block (@ravel2 F) (gamma_star ts))
            (block (@ravel2 F) (gamma_dot ts)) ts.
  apply/and4P; split=> //; rewrite /block size_flatten.
  - by rewrite sh_g.
  - by rewrite sh_gd.
  - by rewrite sh_gs.
eexists; congr (Ok (_, _, _, _)).
- by rewrite /unpacked_gamma -sh_g unflatten_lattice.
- by rewrite /unpacked_gamma_dot -sh_gd unflatten_lattice.
- by rewrite /unpacked_gamma_star -sh_gs unflatten_lattice.
Qed.

(** *** Stored dimensions that disagree with the snapshot *)

Section Mismatch.

Variables (dims dims_star : seq (nat * nat)).
Variables (f_aero gamma_vec gamma_star_vec gamma_dot_vec : vec F).
Variable ts : AeroTimeStepInfo F.

Hypothesis sizes : wf_lists dims dims_star ts.
Hypothesis long_enough : fits f_aero gamma_vec gamma_star_vec gamma_dot_vec ts.

Lemma unpack_surface_agrees (k : nat) (acc : unpack_vars F) :
  k < n_surf ts -> loop_inv ts k acc ->
  unpack_surface dims dims_star f_aero gamma_vec gamma_star_vec gamma_dot_vec
    ts k acc
  = if lattice_agrees dims dims_star ts k
    then Ok (extend dims dims_star f_aero gamma_vec gamma_star_vec
               gamma_dot_vec ts acc k 1)
    else Raise ValueError.
Proof.
case/and5P: sizes => /eqP sz1 /eqP sz2 /eqP sz3 /eqP sz4 /eqP sz5.
case/and4P: long_enough => f1 f2 f3 f4.
move=> lt_k [szf wp wpan ww]; rewrite /unpack_surface.
rewrite (getitem_nth [::]) ?sz1 //= (getitem_nth (0, 0)) ?sz4 //=.
rewrite (getitem_nth (0, 0)) ?sz5 //= (getitem_nth [::]) ?sz2 //=.
rewrite (getitem_nth [::]) ?sz3 //= !slice_add wp wpan ww.
have np : asize3 (nth [::] (zeta ts) k) = nth 0 (surface_points ts) k.
  by rewrite (nth_map [::]) ?sz1.
have npan : asize2 (nth [::] (gamma ts) k) = nth 0 (surface_panels ts) k.
  by rewrite (nth_map [::]) ?sz2.
have nw : asize2 (nth [::] (gamma_star ts) k)
          = nth 0 (surface_wake_panels ts) k.
  by rewrite (nth_map [::]) ?sz3.
rewrite /lattice_agrees np npan nw -!/(chunk _ _ k) /reshape3 /reshape2.
rewrite -[_ * _ * _]/(asize3 (nth [::] (zeta ts) k)) np !chunk_size // eqxx /=.
have szc : size (chunk (surface_points ts) f_aero k)
           = asize3 (nth [::] (zeta ts) k) by rewrite np chunk_size.
rewrite (getitem_rcons_last _ szf) /= (np_concatenate3_zeros szc) /=.
rewrite (setitem_rcons_last _ _ szf) /= [_ == _ * _]eq_sym.
case: ifP => _ //=; rewrite [_ == _ * _]eq_sym; case: ifP => _ //=.
by rewrite /extend /= -!cats1 addn1 !off_S.
Qed.

Lemma unpack_fold_agrees (m k : nat) (acc : unpack_vars F) :
  k + m = n_surf ts -> loop_inv ts k acc ->
  foldM (unpack_surface dims dims_star f_aero gamma_vec gamma_star_vec
           gamma_dot_vec ts) (iota k m) acc
  = if all (lattice_agrees dims dims_star ts) (iota k m)
    then Ok (extend dims dims_star f_aero gamma_vec gamma_star_vec
               gamma_dot_vec ts acc k m)
    else Raise ValueError.
Proof.
elim: m k acc => [|m IH] k acc km inv.
  rewrite /extend /= !cats0 addn0.
  by case: acc inv => fs g gd gs wp wpan ww [/= _ -> -> ->].
have lt_k : k < n_surf ts by rewrite -km -addSnnS leq_addr.
rewrite /= unpack_surface_agrees //; case: ifP => //= _.
have inv1 : loop_inv ts k.+1
              (extend dims dims_star f_aero gamma_vec gamma_star_vec
                 gamma_dot_vec ts acc k 1).
  case: inv => szf wp wpan ww.
  by split; rewrite /= ?addn1 // size_cat szf addn1.
rewrite IH ?addSnnS //; case: ifP => //= _.
by rewrite /extend /= -!catA /= addSnnS.
Qed.

End Mismatch.

(** X7: stored lattice dimensions that disagree with the snapshot.  When
    every list has one entry per surface and the vectors are long enough,
    a surface whose stored bound or wake dimensions do not hold as many
    entries as its [gamma] or [gamma_star] array makes [unpack_ss_vectors]
    raise [ValueError]. *)
Theorem unpack_ss_vectors_lattice_mismatch w y x u ts sys gv gsv gdv i :
  wf_lists (aero_dimensions w) (aero_dimensions_star w) ts ->
  linear_system w = Ok sys ->
  unpack_state sys x u = Ok (gv, gsv, gdv) ->
  fits y gv gsv gdv ts ->
  i < n_surf ts ->
  ~~ lattice_agrees (aero_dimensions w) (aero_dimensions_star w) ts i ->
  unpack_ss_vectors w y x u ts = Raise ValueError.
Proof.
move=> sizes Esys Eun ok lt_i bad.
rewrite /unpack_ss_vectors Esys /= Eun /= /unpack_loop.
have inv0 : loop_inv ts 0 (MkUnpackVars [::] [::] [::] [::] 0 0 0).
  by split; rewrite /off ?take0.
rewrite (unpack_fold_agrees sizes ok (add0n _) inv0).
case: ifP => // /allP /(_ i); rewrite mem_iota add0n lt_i (negbTE bad).
by move/(_ isT).
Qed.

End UnpackEdges.

(** * The calls and the results of [run] *)

Section RunOutcomes.

Variable F : dtype.
Variable E : collaborators F.

Implicit Types (w : world E) (a : addr).

Tactic Notation "out_read" ident(E) ident(x) :=
  rewrite bind_reads;
  lazymatch goal with
  | |- run_outcome _ _ _ _ _ (match ?c with Ok _ => _ | Raise _ => _ end) =>
      case E: c => [x|?]
  end.

Tactic Notation "out_lift" ident(E) ident(x) :=
  rewrite bind_lift;
  lazymatch goal with
  | |- run_outcome _ _ _ _ _ (match ?c with Ok _ => _ | Raise _ => _ end) =>
      case E: c => [x|?]
  end.

Lemma run_outcome_inv aero_tstep structure_tstep dt t w :
  run_outcome aero_tstep structure_tstep dt t w
    (run aero_tstep structure_tstep dt t w).
Proof.
rewrite /run.
out_read Ea a; last exact: NotStarted.
out_read Es s; last exact: NotStarted.
out_read Ed d; last exact: NotStarted.
out_read Et t'; last exact: NotStarted.
out_read Est st; last exact: NotStarted.
out_read Eg gen; last exact: NotStarted.
out_read Ep p; last exact: NotStarted.
have Edt : d = time_step dt st.
  by move: Ed; rewrite /time_step Est; case: (dt) => [d'|] /= [].
have call : generator_call aero_tstep structure_tstep dt t w a p.
  apply: (@GeneratorCall _ _ _ _ _ _ _ _ _ s st) => //.
  - by case: (self_data w) Ep.
  - move: Ep Et; rewrite -Edt /time_of; case: (self_data w) => // - [<-].
    by case: (t) => [t''|] [->].
rewrite bind_modify.
out_read Eu u'; last exact: GeneratorFailed call.
rewrite bind_modify -/(generated a p u' w).
have answer : generator_answer w a p u'.
  by exists gen => //; case: (velocity_generator w) Eg => //= g [->].
out_read Eun u_n; last exact: InputsFailed call answer.
out_read Eu0 u_0; last exact: InputsFailed call answer.
out_lift Edu du_n; last exact: InputsFailed call answer.
out_read Edm du_m1; last exact: InputsFailed call answer.
out_read Exm x_m1; last exact: InputsFailed call answer.
out_read Ex0 x_0; last exact: InputsFailed call answer.
out_lift Edx dx_m1; last exact: InputsFailed call answer.
out_read Esys sys; last exact: InputsFailed call answer.
rewrite bind_modify -/(stepped a p u' dx_m1 du_m1 du_n w).
have inputs : step_inputs aero_tstep dt w a p u' st dx_m1 du_m1 du_n.
  apply: (@StepInputs _ _ _ _ _ _ _ _ _ _ _ _ d gen u_n u_0 x_m1 x_0) => //.
  by case: (velocity_generator w) Eg => //= g [->].
out_lift Esol dxy; last exact: StepFailed call inputs.
out_read Ex0' x_0'; last exact: StepFailed call inputs.
out_lift Exn x_n; last exact: StepFailed call inputs.
out_read Ey0 y_0; last exact: StepFailed call inputs.
out_lift Eyn y_n; last exact: StepFailed call inputs.
out_read Eun' r; last exact: StepFailed call inputs.
rewrite !bind_modify.
apply: (Completed call inputs).
case: dxy Esol Exn Eyn => dx_n dy_n /= Esol Exn Eyn.
apply: (@StepOutputs _ _ _ _ _ _ _ _ _ sys dx_n dy_n x_0' y_0 x_n y_n u_n)
  => //.
- by move: Eun; rewrite heap_generated eqxx.
- move: Eun'.
  rewrite -[heap (stepped _ _ _ _ _ _ _) a]/(heap (generated a p u' w) a).
  by rewrite heap_generated eqxx.
Qed.

Lemma run_outcome_events aero_tstep structure_tstep dt t w out pre e post :
  run_outcome aero_tstep structure_tstep dt t w out ->
  emitted w out.1 = pre ++ e :: post ->
  (exists a p, generator_call aero_tstep structure_tstep dt t w a p
               /\ e = EvGenerate p)
  \/ (exists a p u' st dx_m1 du_m1 du_n,
        [/\ generator_answer w a p u',
            step_inputs aero_tstep dt w a p u' st dx_m1 du_m1 du_n
          & e = EvSolveStep dx_m1 du_m1 du_n true]).
Proof.
case=> [e'|a p e' call|a p u' e' call answer
       |a p u' st dx_m1 du_m1 du_n e' call inputs
       |a p u' st dx_m1 du_m1 du_n r call inputs outputs] /=.
- by rewrite emitted_same; case: pre.
- rewrite emitted_log; case: pre => [|? [|? ?]] //= [<- _].
  by left; exists a, p.
- rewrite emitted_generated; case: pre => [|? [|? ?]] //= [<- _].
  by left; exists a, p.
- have answer : generator_answer w a p u'.
    by case: inputs => ? gen ? ? ? ? _ _ _ Eg Eu _ _ _ _ _ _ _; exists gen.
  rewrite emitted_stepped; case: pre => [|? [|? [|? ?]]] //= [].
    by move=> <- _; left; exists a, p.
  by move=> _ <- _; right; exists a, p, u', st, dx_m1, du_m1, du_n.
- have answer : generator_answer w a p u'.
    by case: inputs => ? gen ? ? ? ? _ _ _ Eg Eu _ _ _ _ _ _ _; exists gen.
  rewrite emitted_written; case: pre => [|? [|? [|? ?]]] //= [].
    by move=> <- _; left; exists a, p.
  by move=> _ <- _; right; exists a, p, u', st, dx_m1, du_m1, du_n.
Qed.

(** X8: the calls of one [run].  The velocity generator is called at
    most once and [solve_step] at most once, the generator first and
    [solve_step] with [transform_state=True]; when the generator was not
    called nothing has changed, and a call that returns has made both
    calls. *)
Theorem run_call_protocol aero_tstep structure_tstep dt t w :
  let out := run aero_tstep structure_tstep dt t w in
  [\/ out.1 = w /\ emitted w out.1 = [::],
      exists p, emitted w out.1 = [:: EvGenerate p]
    | exists p dx_m1 du_m1 du_n,
        emitted w out.1 = [:: EvGenerate p; EvSolveStep dx_m1 du_m1 du_n true]]
  /\ (out.2 = Ok tt ->
      exists p dx_m1 du_m1 du_n,
        emitted w out.1 = [:: EvGenerate p; EvSolveStep dx_m1 du_m1 du_n true]).
Proof.
case: (run_outcome_inv aero_tstep structure_tstep dt t w)
  => [e|a p e _|a p u' e _ _|a p u' st dx_m1 du_m1 du_n e _ _
     |a p u' st dx_m1 du_m1 du_n r _ _ _] /=; split=> //.
- by constructor 1; rewrite emitted_same.
- by constructor 2; exists p; rewrite emitted_log.
- by constructor 2; exists p; rewrite emitted_generated.
- by constructor 3; exists p, dx_m1, du_m1, du_n; rewrite emitted_stepped.
- by constructor 3; exists p, dx_m1, du_m1, du_n; rewrite emitted_written.
- by move=> _; exists p, dx_m1, du_m1, du_n; rewrite emitted_written.
Qed.

(** X9: what the velocity generator is called with.  The dictionary
    holds the grid [zeta] of the current snapshot, [override = True], the
    counter [data.ts], the time increment (the argument [dt], or the setting
    [dt] when it is [None]), the time (the argument [t], or [data.ts * dt]
    when it is [None]) and [for_pos] of the structural snapshot (the
    argument, or the last retained one when it is [None]). *)
Theorem run_generator_arguments aero_tstep structure_tstep dt t w pre p post :
  emitted w (run aero_tstep structure_tstep dt t w).1
  = pre ++ EvGenerate p :: post ->
  exists a s st,
    [/\ current aero_tstep w = Ok a,
        current_structure structure_tstep w = Ok s,
        the_settings w = Ok st
      & p = MkGenParams (zeta (heap w a)) true
              (time_of t w (time_step dt st)) (ts w) (time_step dt st)
              (for_pos s)].
Proof.
move/(run_outcome_events (run_outcome_inv _ _ _ _ _)).
case=> [[a [p' [call [Ep]]]]|[? [? [? [? [? [? [? [_ _]]]]]]]]] //.
by case: call => s st Ea Es Est _; rewrite -Ep => ->; exists a, s, st.
Qed.

(** X10: the current input delta.  Whenever [run] calls [solve_step], its
    third argument is the input vector packed from the current snapshot
    after the velocity generator has filled [u_ext], minus the stored
    [u_0]; the flag [transform_state] is [True]. *)
Theorem run_input_delta aero_tstep structure_tstep dt t w pre post dx du_m1
    du_n tf :
  emitted w (run aero_tstep structure_tstep dt t w).1
  = pre ++ EvSolveStep dx du_m1 du_n tf :: post ->
  exists a p u' u_n u_0,
    [/\ current aero_tstep w = Ok a,
        generator_answer w a p u',
        pack_input_vector (with_u_ext u' (heap w a)) = Ok u_n,
        linear_vec "u_0" w = Ok u_0
      & np_sub u_n u_0 = Ok du_n /\ tf = true].
Proof.
move/(run_outcome_events (run_outcome_inv _ _ _ _ _)).
case=> [[? [? [_]]]|[a [p [u' [st [dx' [du_m1' [du_n' [answer inputs]]]]]]]]] //.
case=> _ _ -> ->.
case: inputs => dt' gen u_n u_0 x_m1 x_0 Ea _ _ _ _ Eun Eu0 Edu _ _ _ _.
exists a, p, u', u_n, u_0; split=> //.
by move: Eun; rewrite heap_generated eqxx.
Qed.

(** X11: aliasing of the previous input.  When the current snapshot is
    the last retained one (as when [aero_tstep] is [None]) and the predictor
    is removed, the previous-step input delta handed to [solve_step] equals
    the current one: [timestep_info[-1]] is packed after the velocity
    generator has written to that same object. *)
Theorem run_previous_input_aliased aero_tstep structure_tstep dt t w pre post
    dx du_m1 du_n tf st :
  emitted w (run aero_tstep structure_tstep dt t w).1
  = pre ++ EvSolveStep dx du_m1 du_n tf :: post ->
  current aero_tstep w = retained 1 w ->
  the_settings w = Ok st ->
  s_remove_predictor st ->
  du_m1 = Some du_n.
Proof.
move/(run_outcome_events (run_outcome_inv _ _ _ _ _)).
case=> [[? [? [_]]]|[a [p [u' [st' [dx' [du_m1' [du_n' [_ inputs]]]]]]]]] //.
case=> _ -> -> _ same Est rp.
case: inputs => dt' gen u_n u_0 x_m1 x_0 Ea Est' _ _ _ Eun Eu0 Edu Edm _ _ _.
move: Est'; rewrite Est => - [Es]; move: Edm; rewrite -Es /input_delta_m1 rp.
rewrite -[retained 1 (generated _ _ _ _)]/(retained 1 w) -same Ea /= Eun /=.
rewrite -[linear_vec _ (generated _ _ _ _)]/(linear_vec "u_0" w) Eu0 /= Edu /=.
by case.
Qed.

(** X12: what a completed step writes.  When [run] returns, it has
    called the generator and [solve_step] once each; with [(dx_n, dy_n)] the
    answer of [solve_step], the stored references are added back,
    [x_n = x_0 + dx_n] and [y_n = y_0 + dy_n], and the current snapshot
    holds the generated [u_ext] and, in [forces], [gamma], [gamma_dot] and
    [gamma_star], what [unpack_ss_vectors] made of [y_n], [x_n] and the
    packed input. *)
Theorem run_completed aero_tstep structure_tstep dt t w :
  let out := run aero_tstep structure_tstep dt t w in
  out.2 = Ok tt ->
  exists a p u' dx_m1 du_m1 du_n sys dx_n dy_n,
    [/\ current aero_tstep w = Ok a,
        emitted w out.1 = [:: EvGenerate p; EvSolveStep dx_m1 du_m1 du_n true],
        linear_system w = Ok sys,
        solve_step sys dx_m1 du_m1 du_n true = Ok (dx_n, dy_n)
      & exists x_0 y_0 x_n y_n u_n r,
          [/\ linear_vec "x_0" w = Ok x_0 /\ np_add x_0 dx_n = Ok x_n,
              linear_vec "y_0" w = Ok y_0 /\ np_add y_0 dy_n = Ok y_n,
              pack_input_vector (with_u_ext u' (heap w a)) = Ok u_n,
              unpack_ss_vectors w y_n x_n u_n (with_u_ext u' (heap w a)) = Ok r
            & [/\ forces (heap out.1 a) = r.1.1.1,
                  gamma (heap out.1 a) = r.1.1.2,
                  gamma_dot (heap out.1 a) = r.1.2,
                  gamma_star (heap out.1 a) = r.2
                & u_ext (heap out.1 a) = u']]].
Proof.
case: (run_outcome_inv aero_tstep structure_tstep dt t w)
  => [e|a p e _|a p u' e _ _|a p u' st dx_m1 du_m1 du_n e _ _
     |a p u' st dx_m1 du_m1 du_n r call inputs outputs] //= _.
case: outputs => sys dx_n dy_n x_0 y_0 x_n y_n u_n Esys Esol Ex0 Exn Ey0 Eyn
  Eun Er.
exists a, p, u', dx_m1, du_m1, du_n, sys, dx_n, dy_n; split=> //.
- by case: call.
- by rewrite emitted_written.
- exists x_0, y_0, x_n, y_n, u_n, r; split=> //.
  by rewrite /written /assign /= !eqxx.
Qed.

(** X13: [run] on a solver that was constructed but never initialised
    raises and changes nothing.  It is [TypeError] (the settings are [None])
    when the two snapshots are given and [dt] is [None] or [t] is given too,
    and [AttributeError] ([self.data] is [None]) otherwise. *)
Theorem run_before_initialise aero_tstep structure_tstep dt t w :
  let w0 := (__init__ w).1 in
  run aero_tstep structure_tstep dt t w0
  = (w0, Raise (if [&& isSome aero_tstep, isSome structure_tstep
                     & isSome dt ==> isSome t]
                then TypeError else AttributeError)).
Proof.
by case: aero_tstep => [a|]; case: structure_tstep => [s|]; case: dt => [d|];
   case: t => [t'|].
Qed.

(** X14: the default arguments of [run].  Calling it with every argument
    [None] is calling it with the last retained aerodynamic snapshot, the
    last retained structural snapshot, the setting [dt] and the time
    [data.ts * dt]. *)
Theorem run_default_arguments w a s st :
  retained 1 w = Ok a ->
  current_structure None w = Ok s ->
  the_settings w = Ok st ->
  run None None None None w
  = run (Some a) (Some s) (Some (s_dt st))
      (Some (fmul (of_int F (ts w)) (s_dt st))) w.
Proof.
move=> Ea Es Est.
have sd : self_data w by move: Ea; rewrite /retained; case: (self_data w).
rewrite /run [LHS]bind_reads [RHS]bind_reads /current Ea.
rewrite [LHS]bind_reads [RHS]bind_reads -/(current_structure None w) Es.
rewrite [LHS]bind_reads [RHS]bind_reads Est /=.
by rewrite [LHS]bind_reads [RHS]bind_reads sd.
Qed.

(** X15: a failed step leaves no partial result.  When [run] raises,
    [forces], [gamma], [gamma_dot] and [gamma_star] of every snapshot are
    as they were before the call: the four are written together, after
    everything that can fail. *)
Theorem run_failure_keeps_results aero_tstep structure_tstep dt t w e :
  (run aero_tstep structure_tstep dt t w).2 = Raise e ->
  forall b,
    let s' := heap (run aero_tstep structure_tstep dt t w).1 b in
    [/\ forces s' = forces (heap w b),
        gamma s' = gamma (heap w b),
        gamma_dot s' = gamma_dot (heap w b)
      & gamma_star s' = gamma_star (heap w b)].
Proof.
case: (run_outcome_inv aero_tstep structure_tstep dt t w)
  => [e'|a p e' _|a p u' e' _ _|a p u' st dx_m1 du_m1 du_n e' _ _
     |a p u' st dx_m1 du_m1 du_n r _ _ _] //= _ b.
- by rewrite /assign /=; case: eqP => [->|].
- by rewrite /assign /=; case: eqP => [->|].
Qed.

End RunOutcomes.

(** * Restarting and retrying [initialise] *)

Section InitialiseOutcomes.

Variable F : dtype.
Variable E : collaborators F.

Implicit Types (w : world E) (a : addr).

(** Lines 132-135: the settings the solver takes. *)
Lemma initialise_with_linear custom_settings w l :
  linear w = Some l ->
  initialise custom_settings w
  = match (if custom_settings is Some s then Ok s
           else attr KeyError (data_settings w)) with
    | Raise e => (set_self_data true w, Raise e)
    | Ok st =>
        let w1 := set_self_settings (Some st) (set_self_data true w) in
        match attr KeyError (s_velocity_field_generator st) with
        | Raise e => (w1, Raise e)
        | Ok name =>
            match generator_from_string E name with
            | Raise e => (w1, Raise e)
            | Ok g0 =>
                let w2 := set_velocity_generator (Some g0) w1 in
                match attr KeyError (s_velocity_field_input st) with
                | Raise e => (w2, Raise e)
                | Ok input =>
                    match generator_initialise g0 input with
                    | Raise e => (w2, Raise e)
                    | Ok g => (set_velocity_generator (Some g) w2, Ok tt)
                    end
                end
            end
        end
    end.
Proof.
move=> Hl; rewrite /initialise bind_modify bind_reads /=.
case: (if custom_settings is Some s then _ else _) => [st|e] //.
rewrite bind_modify bind_gets /= Hl /=.
rewrite {1}/bindM /retM bind_lift.
by case: (attr KeyError (s_velocity_field_generator st)) => [name|e].
Qed.

Lemma initialise_keeps_linear custom_settings w l :
  linear w = Some l ->
  let out := initialise custom_settings w in
  [/\ linear out.1 = Some l, heap out.1 = heap w
    & timestep_info out.1 = timestep_info w].
Proof.
move=> Hl /=; rewrite (initialise_with_linear _ Hl).
case: (if custom_settings is Some s then _ else _) => [st|e] //=.
case: (s_velocity_field_generator st) => [name|] //=.
case: (generator_from_string E name) => [g0|e] //=.
case: (s_velocity_field_input st) => [input|] //=.
by case: (generator_initialise g0 input) => [g|e].
Qed.

(** X16: a restart keeps the linearisation.  When [data.aero.linear]
    exists, [initialise] leaves the dictionary, the snapshots (the density
    is not written again) and the list of retained snapshots as they are,
    however it ends; when the settings name a generator that can be built
    and initialised it returns with these settings and that generator. *)
Theorem initialise_restart custom_settings w l :
  linear w = Some l ->
  let out := initialise custom_settings w in
  [/\ linear out.1 = Some l,
      heap out.1 = heap w,
      timestep_info out.1 = timestep_info w
    & forall st name g0 input g,
        (if custom_settings is Some s then Ok s
         else attr KeyError (data_settings w)) = Ok st ->
        s_velocity_field_generator st = Some name ->
        generator_from_string E name = Ok g0 ->
        s_velocity_field_input st = Some input ->
        generator_initialise g0 input = Ok g ->
        [/\ out.2 = Ok tt,
            self_settings out.1 = Some st
          & velocity_generator out.1 = Some g]].
Proof.
move=> Hl /=; have [-> -> ->] := initialise_keeps_linear custom_settings Hl.
split=> // st name g0 input g Est Egen Eg0 Ein Eg.
by rewrite (initialise_with_linear _ Hl) Est /= Egen /= Eg0 Ein /= Eg.
Qed.

Lemma linearise_effects (st : Settings E) w :
  let out := linearise st w in
  [/\ isSome (linear out.1),
      timestep_info out.1 = timestep_info w,
      velocity_generator out.1 = velocity_generator w,
      heap out.1
      = (if retained 1 w is Ok a
         then heap (assign a (with_rho (Some (s_density st))) w) else heap w)
    & exists e, out.2 = Raise e].
Proof.
rewrite /linearise bind_modify bind_reads.
rewrite -[retained 1 (set_linear _ _)]/(retained 1 w).
case: (retained 1 w) => [a|e] /=; last by split=> //; exists e.
rewrite bind_modify.
rewrite bind_reads; case: (Dynamic_new _ _ _ _ _ _ _) => [sys0|e];
  last by split=> //; exists e.
rewrite bind_reads; case: (pack_input_vector _) => [u_0|e];
  last by split=> //; exists e.
rewrite bind_reads; case: (pack_state_vector _ _ _ _) => [x_0|e];
  last by split=> //; exists e.
rewrite bind_reads; case: (pack_forces _) => [f_0|e];
  last by split=> //; exists e.
rewrite bind_lift; case: (assemble_ss _) => [sys|e];
  last by split=> //; exists e.
do 5![rewrite bind_linear_setitem; case: (the_linear _) => [?|e];
      last by split=> //; exists e].
by rewrite bind_lift /unbound_name; split=> //; exists NameError.
Qed.

(** X17: the first [initialise] writes the density.  When no
    [data.aero.linear] exists, the settings are found and a snapshot is
    retained, the setting [density] is stored in [rho] of the last retained
    snapshot; no other field and no other snapshot is changed, however the
    call ends. *)
Theorem initialise_sets_density custom_settings w st a :
  linear w = None ->
  (if custom_settings is Some s then Ok s
   else attr KeyError (data_settings w)) = Ok st ->
  getitem_back (timestep_info w) 1 = Ok a ->
  let w' := (initialise custom_settings w).1 in
  forall b,
    heap w' b
    = if b == a then with_rho (Some (s_density st)) (heap w a) else heap w b.
Proof.
move=> no_linear Est Ea /= b.
rewrite /initialise bind_modify bind_reads /= Est bind_modify bind_gets /=.
rewrite no_linear /=.
set w2 := set_self_settings _ _.
have [_ _ _ Eh [e Ee]] := linearise_effects st w2.
rewrite /bindM; case: (linearise st w2) Eh Ee => w3 [[]|e'] //= -> _.
by rewrite /retained /= Ea.
Qed.

(** X18: the linearisation is attempted once.  When no
    [data.aero.linear] exists and the settings are found, the first
    [initialise] creates the dictionary before anything can fail; so
    however that call ended, a later [initialise] finds the dictionary and
    leaves it, and the snapshots, exactly as the first call left them. *)
Theorem initialise_not_repeated custom_settings custom_settings' w st :
  linear w = None ->
  (if custom_settings is Some s then Ok s
   else attr KeyError (data_settings w)) = Ok st ->
  let w1 := (initialise custom_settings w).1 in
  let w2 := (initialise custom_settings' w1).1 in
  [/\ isSome (linear w1), linear w2 = linear w1 & heap w2 = heap w1].
Proof.
move=> no_linear Est /=.
set w1 := (initialise custom_settings w).1.
have some1 : isSome (linear w1).
  rewrite /w1 /initialise bind_modify bind_reads /= Est bind_modify bind_gets.
  rewrite /= no_linear /=.
  set w0 := set_self_settings _ _.
  have [Hl _ _ _ [e Ee]] := linearise_effects st w0.
  by rewrite /bindM; case: (linearise st w0) Hl Ee => w3 [[]|e'].
case El: (linear w1) some1 => [l|] // _.
by have [-> -> _] := initialise_keeps_linear custom_settings' El.
Qed.

End InitialiseOutcomes.

(** * The post-processor [PickleData] *)

Section PickleFacts.

Import PickleData.

Variables (Payload Caller : Type).
Variable E : collaborators Payload.

Implicit Types (w : world Payload Caller).

Local Notation "x <~ c ;; k" := (bindM c (fun x => k))
  (at level 100, c at next level, right associativity).

Lemma pickle_bind_reads (A B : Type) (f : world Payload Caller -> result A)
    (k : A -> M Payload Caller B) w :
  (x <~ reads f ;; k x) w
  = match f w with Ok x => k x w | Raise e => (w, Raise e) end.
Proof. by rewrite /bindM /reads; case: (f w). Qed.

Lemma pickle_bind_lift (A B : Type) (r : result A)
    (k : A -> M Payload Caller B) w :
  (x <~ lift r ;; k x) w
  = match r with Ok x => k x w | Raise e => (w, Raise e) end.
Proof. by rewrite /bindM /lift; case: r. Qed.


(** *** The loop over the retained snapshots *)

Lemma to_global_outcome it w :
  to_global_AFoR E it w
  = match (s <- the_structure w ;; getitem (timestep_info s) it) with
    | Ok (Some p) =>
        if in_global_AFoR (heap (structure (data w)) p) then (w, Ok tt)
        else
          match whole_structure_to_global_AFoR E (structure (data w)) p with
          | Ok s' => (set_structure s' (log (EvToGlobal p) w), Ok tt)
          | Raise e => (log (EvToGlobal p) w, Raise e)
          end
    | Ok None => (w, Ok tt)
    | Raise e => (w, Raise e)
    end.
Proof.
rewrite /to_global_AFoR pickle_bind_reads.
case: (s <- the_structure w ;; _) => [[p|]|e] //=.
rewrite /bindM /gets /modify /reads /=.
by case: (in_global_AFoR _).
Qed.



Lemma to_global_skip it w :
  self_data w -> all_global (structure (data w)) ->
  it < size (timestep_info (structure (data w))) ->
  to_global_AFoR E it w = (w, Ok tt).
Proof.
move=> sd ok lt_it; rewrite to_global_outcome /the_structure.
rewrite sd /= (getitem_nth None lt_it).
have := all_nthP None ok it lt_it.
by case: (nth None _ it) => [p|] //= ->.
Qed.

Lemma loop_skip (k m : nat) w :
  self_data w -> all_global (structure (data w)) ->
  k + m <= size (timestep_info (structure (data w))) ->
  forM (to_global_AFoR E) (iota k m) w = (w, Ok tt).
Proof.
move=> sd ok; elim: m k => [|m IH] k //=; rewrite addnS => lt_k.
rewrite /bindM to_global_skip ?IH ?addSn //.
exact: leq_ltn_trans (leq_addr _ _) lt_k.
Qed.

Lemma pickle_run_outcome online w :
  run E online w
  = match (s <- the_structure w ;; Ok (size (timestep_info s))) with
    | Raise e => (w, Raise e)
    | Ok n =>
        match forM (to_global_AFoR E) (iota 0 n) w with
        | (w1, Raise e) => (w1, Raise e)
        | (w1, Ok _) =>
            match self_filename w1 with
            | None => (w1, Raise TypeError)
            | Some f =>
                (log (EvDump f (data w1)) w1,
                 if pickle_dump E f (data w1) is Raise e then Raise e
                 else Ok (data w1))
            end
        end
    end.
Proof.
rewrite /run pickle_bind_reads.
case: (s <- the_structure w ;; _) => [n|e] //=.
rewrite {1}/bindM; case: (forM _ _ w) => w1 [[]|e] //=.
rewrite pickle_bind_reads; case: (self_filename w1) => [f|] //=.
rewrite /bindM /gets /modify /lift /=.
by case: (pickle_dump E f (data w1)) => [[]|e].
Qed.

(** X19: [PickleData.run] on a post-processor that was constructed but
    never initialised raises [AttributeError]; nothing is converted and
    nothing is written. *)
Theorem pickle_run_before_initialise online w :
  let w0 := (__init__ w).1 in
  run E online w0 = (w0, Raise AttributeError).
Proof. by []. Qed.

(** X20: nothing to convert.  When every entry of
    [data.structure.timestep_info] is [None] or a snapshot already in the
    global frame, [PickleData.run] calls no conversion and changes nothing:
    it writes [data] to [self.filename] and returns [data], or raises what
    the writing raised. *)
Theorem pickle_run_nothing_to_convert online w f :
  self_data w ->
  self_filename w = Some f ->
  all_global (structure (data w)) ->
  run E online w
  = (log (EvDump f (data w)) w,
     if pickle_dump E f (data w) is Raise e then Raise e else Ok (data w)).
Proof.
move=> sd Ef ok; rewrite pickle_run_outcome /the_structure sd /=.
by rewrite loop_skip // Ef.
Qed.


(** *** Conversions that mark the snapshot *)

Lemma global_upto_all (s : Structure Payload) :
  global_upto (size (timestep_info s)) s = all_global s.
Proof. by rewrite /global_upto take_size. Qed.

Lemma to_global_step k w :
  marks_the_snapshot E -> self_data w ->
  k < size (timestep_info (structure (data w))) ->
  global_upto k (structure (data w)) ->
  let out := to_global_AFoR E k w in
  out.2 = Ok tt ->
  [/\ self_data out.1,
      self_filename out.1 = self_filename w,
      timestep_info (structure (data out.1))
      = timestep_info (structure (data w))
    & global_upto k.+1 (structure (data out.1))].
Proof.
move=> marks sd lt_k ok /=; rewrite to_global_outcome /the_structure sd /=.
rewrite (getitem_nth None lt_k) /global_upto.
case Ek: (nth None _ k) => [p|] /=; last first.
  by move=> _; split=> //; rewrite (take_nth None lt_k) all_rcons Ek.
case Eg: (in_global_AFoR _) => /=.
  by move=> _; split=> //; rewrite (take_nth None lt_k) all_rcons Ek Eg.
case Es: (whole_structure_to_global_AFoR _ _ _) => [s'|e] //= _.
have [same marked kept] := marks _ _ _ Es.
split=> //; rewrite same (take_nth None lt_k) all_rcons Ek marked /=.
by apply: sub_all ok => - [q|] //; apply: kept.
Qed.

Lemma loop_converts (m k : nat) w :
  marks_the_snapshot E -> self_data w ->
  k + m = size (timestep_info (structure (data w))) ->
  global_upto k (structure (data w)) ->
  let out := forM (to_global_AFoR E) (iota k m) w in
  out.2 = Ok tt ->
  [/\ self_data out.1, self_filename out.1 = self_filename w
    & all_global (structure (data out.1))].
Proof.
move=> marks; elim: m k w => [|m IH] k w sd km ok /=.
  by move=> _; split=> //; rewrite -global_upto_all -km addn0.
have lt_k : k < size (timestep_info (structure (data w))).
  by rewrite -km -addSnnS leq_addr.
rewrite /bindM; have := to_global_step marks sd lt_k ok.
case: (to_global_AFoR E k w) => w1 [[]|e] //= /(_ erefl) [sd1 sf1 same ok1].
by rewrite -sf1; apply: IH => //; rewrite same addSnnS.
Qed.

(** X22: what the loop is for.  When the conversion of a snapshot marks
    it as being in the global frame, keeps the list of retained snapshots
    and clears no mark, a [PickleData.run] that returns leaves every
    retained snapshot in the global frame and returns the [data] it wrote;
    running it again converts nothing and writes that same [data]. *)
Theorem pickle_run_converts_all online online' w d :
  marks_the_snapshot E ->
  (run E online w).2 = Ok d ->
  let w1 := (run E online w).1 in
  [/\ all_global (structure (data w1)),
      d = data w1
    & exists f,
        self_filename w = Some f
        /\ run E online' w1
           = (log (EvDump f (data w1)) w1,
              if pickle_dump E f (data w1) is Raise e then Raise e
              else Ok (data w1))].
Proof.
move=> marks; rewrite !pickle_run_outcome /the_structure.
case sd: (self_data w) => //=.
have ok0 : global_upto 0 (structure (data w)) by rewrite /global_upto take0.
have := @loop_converts (size (timestep_info (structure (data w)))) 0 w marks sd
          (add0n _) ok0.
case: (forM _ _ w) => w2 [[]|e] //= /(_ erefl) [sd2 sf2 ok2].
case Ef: (self_filename w2) => [f|] //=.
case Ed: (pickle_dump E f (data w2)) => [[]|e] //= [<-].
split=> //; exists f; split; first by rewrite -sf2.
by rewrite pickle_run_outcome /the_structure /= sd2 /= loop_skip //= Ef Ed.
Qed.

(** *** [initialise] *)

Lemma dict_get_set_other (V : Type) (d : seq (string * V)) (k k' : string)
    (v : V) :
  String.eqb k k' = false -> dict_get (dict_set d k v) k' = dict_get d k'.
Proof.
move=> neq; elim: d => [|[k0 v0] d IH] /=; first by rewrite neq.
case E0: (String.eqb k0 k) => /=; last by rewrite IH.
by move/String.eqb_eq: E0 => ->; rewrite neq.
Qed.

Lemma pickle_initialise_outcome custom_settings caller w :
  initialise E custom_settings caller w
  = match (if custom_settings is Some s then Ok s
           else dict_get (settings (data w)) solver_id) with
    | Raise e => (set_self_data true w, Raise e)
    | Ok st =>
        let w1 := set_self_settings (Some st) (set_self_data true w) in
        match to_custom_types E st settings_types settings_default with
        | Raise e => (w1, Raise e)
        | Ok st' =>
            let w2 := set_self_settings (Some st') w1 in
            let w3 := if custom_settings is Some _ then w2
                      else set_settings solver_id st' w2 in
            let w4 := set_self_folder (Some (output_folder (data w))) w3 in
            match dict_get (settings (data w)) "SHARPy" with
            | Raise e => (w4, Raise e)
            | Ok sharpy =>
                match dict_get sharpy "case" with
                | Raise e => (w4, Raise e)
                | Ok case =>
                    (set_self_caller caller
                       (set_self_filename
                          (Some (output_folder (data w) ++ case ++ ".pkl")%string)
                          w4), Ok tt)
                end
            end
        end
    end.
Proof.
rewrite /initialise {1}/bindM /modify pickle_bind_reads /=.
case: (if custom_settings is Some s then _ else _) => [st|e] //=.
rewrite {1}/bindM pickle_bind_lift.
case: (to_custom_types E st _ _) => [st'|e] //=.
rewrite /retM /bindM /gets /modify /reads /lift /=.
case: custom_settings => [s|] //=.
by rewrite dict_get_set_other.
Qed.

(** X23: the file name.  When [PickleData.initialise] returns, the file
    name is the output folder of [data] followed by
    [data.settings['SHARPy']['case']] and [.pkl], with no separator put in
    between; the folder and the caller are stored, the structure is not
    touched and no collaborator of [run] has been called. *)
Theorem pickle_initialise_filename custom_settings caller w :
  let out := initialise E custom_settings caller w in
  out.2 = Ok tt ->
  exists sharpy case,
    [/\ dict_get (settings (data w)) "SHARPy" = Ok sharpy,
        dict_get sharpy "case" = Ok case,
        self_filename out.1
        = Some (output_folder (data w) ++ case ++ ".pkl")%string,
        self_folder out.1 = Some (output_folder (data w))
      & [/\ self_data out.1,
            self_caller out.1 = caller,
            structure (data out.1) = structure (data w)
          & trace out.1 = trace w]].
Proof.
rewrite pickle_initialise_outcome /=.
case: (if custom_settings is Some s then _ else _) => [st|e] //=.
case: (to_custom_types E st _ _) => [st'|e] //=.
case Es: (dict_get (settings (data w)) "SHARPy") => [sharpy|e] //=.
case Ec: (dict_get sharpy "case") => [case|e] //= _.
by exists sharpy, case; split=> //; split=> //; case: (custom_settings).
Qed.

End PickleFacts.

(** * Concrete scenarios *)

(** C2: in the concrete scenario of the specification (one surface, 2 x 2
    vertices, dt = 0.1, integration order 2, no previous snapshot, zero
    [gamma_dot] and [gamma_star]) the packed state has 14 entries and its
    last four are 1, 2, 3, 4. *)
Theorem pack_state_vector_scenario :
  exists x,
    [/\ pack_state_vector scenario_tstep None scenario_dt 2 = Ok x,
        size x = 14
      & drop 10 x = [:: 1; 2; 3; 4]%float].
Proof.
exists [:: 1; 2; 3; 4; 0; 0; 0; 0; 0; 0; 1; 2; 3; 4]%float.
by split; vm_compute.
Qed.

(** *** The packer on the two-surface snapshot *)

(** The two-surface snapshot is well formed; with integration order 1 its
    packed state has no previous-circulation block. *)
Lemma pack_state_vector_order_branch_wing :
  wf_circulation wing_tstep
  /\ forall prev,
       pack_state_vector wing_tstep prev scenario_dt 1
       = Ok (block (@ravel2 binary64) (gamma wing_tstep)
             ++ block (@ravel2 binary64) (gamma_star wing_tstep)
             ++ np_scale scenario_dt
                  (block (@ravel2 binary64) (gamma_dot wing_tstep))).
Proof.
split; first by vm_compute.
have wf : wf_circulation wing_tstep by vm_compute.
by case: (pack_state_vector_order_branch scenario_dt wf).
Defined.

(** The input vector of the two-surface snapshot. *)
Lemma pack_input_vector_layout_wing :
  wf_grid wing_tstep
  /\ pack_input_vector wing_tstep
     = Ok (block (@ravel3 binary64) (zeta wing_tstep)
           ++ block (@ravel3 binary64) (zeta_dot wing_tstep)
           ++ block (@ravel3 binary64) (u_ext wing_tstep)).
Proof.
split; first by vm_compute.
have wf : wf_grid wing_tstep by vm_compute.
by case: (pack_input_vector_layout wf).
Defined.

(** Integration order 0 packs the state of integration order 2. *)
Lemma pack_state_vector_order_zero :
  0%Z <> 1%Z
  /\ pack_state_vector scenario_tstep None scenario_dt 0
     = pack_state_vector scenario_tstep None scenario_dt 2.
Proof.
have neq : 0%Z <> 1%Z by [].
by split; [ | exact: (pack_state_vector_order_not_validated _ _ _ neq)].
Defined.

(** *** Unpacking on the two-surface snapshot *)

(** The forces of the two-surface snapshot survive packing and unpacking,
    with their last three rows replaced by zeros. *)
Lemma forces_round_trip_wing :
  [/\ wf_unpack (aero_dimensions wing_ready) (aero_dimensions_star wing_ready)
        wing_tstep,
      wf_forces wing_tstep,
      linear_system wing_ready = Ok wing_system
    & unpack_state (c:=spec_collaborators binary64) wing_system wing_x wing_u
      = Ok (wing_circulation.1.1, wing_circulation.1.2, wing_circulation.2)]
  /\ exists y_0 forces' gamma' gamma_dot' gamma_star',
       [/\ pack_forces wing_tstep = Ok y_0,
           unpack_ss_vectors wing_ready y_0 wing_x wing_u wing_tstep
           = Ok (forces', gamma', gamma_dot', gamma_star'),
           size forces' = 2
         & forall i, i < 2 ->
             let d := shape3 (nth [::] (zeta wing_tstep) i) in
             nth [::] forces' i
             = take 3 (nth [::] (forces wing_tstep) i)
               ++ nseq 3 (nseq d.1.2 (nseq d.2 0%float))].
Proof.
have wf : wf_unpack (aero_dimensions wing_ready)
            (aero_dimensions_star wing_ready) wing_tstep by vm_compute.
have wff : wf_forces wing_tstep by vm_compute.
have Esys : linear_system wing_ready = Ok wing_system by vm_compute.
have Eun : unpack_state (c:=spec_collaborators binary64) wing_system wing_x
             wing_u
           = Ok (wing_circulation.1.1, wing_circulation.1.2,
                 wing_circulation.2) by vm_compute.
split; first by split.
by apply: (forces_round_trip wf wff Esys Eun); vm_compute.
Defined.

(** An output vector with one element too many fits, and is unpacked like
    the vector cut down to the total element count. *)
Lemma unpack_ss_vectors_element_count_wing :
  [/\ wf_unpack (aero_dimensions wing_ready) (aero_dimensions_star wing_ready)
        wing_tstep,
      linear_system wing_ready = Ok wing_system,
      unpack_state (c:=spec_collaborators binary64) wing_system wing_x wing_u
      = Ok (wing_circulation.1.1, wing_circulation.1.2, wing_circulation.2)
    & fits wing_y_long wing_circulation.1.1 wing_circulation.1.2
        wing_circulation.2 wing_tstep]
  /\ unpack_ss_vectors wing_ready (take (total_points wing_tstep) wing_y_long)
       wing_x wing_u wing_tstep
     = unpack_ss_vectors wing_ready wing_y_long wing_x wing_u wing_tstep.
Proof.
have wf : wf_unpack (aero_dimensions wing_ready)
            (aero_dimensions_star wing_ready) wing_tstep by vm_compute.
have Esys : linear_system wing_ready = Ok wing_system by vm_compute.
have Eun : unpack_state (c:=spec_collaborators binary64) wing_system wing_x
             wing_u
           = Ok (wing_circulation.1.1, wing_circulation.1.2,
                 wing_circulation.2) by vm_compute.
have ok : fits wing_y_long wing_circulation.1.1 wing_circulation.1.2
            wing_circulation.2 wing_tstep by vm_compute.
split; first by split.
by case: (unpack_ss_vectors_element_count wing_y_long wf Esys Eun)
     => _ _ /(_ ok).
Defined.

(** The output vector of the two-surface snapshot with one element too
    many is unpacked without an error, into the same arrays as the vector of
    the exact length. *)
Lemma unpack_ss_vectors_accepts_excess :
  [/\ size wing_y = total_points wing_tstep,
      size wing_y_long = (total_points wing_tstep).+1,
      is_ok (unpack_ss_vectors wing_ready wing_y_long wing_x wing_u wing_tstep)
    & unpack_ss_vectors wing_ready wing_y_long wing_x wing_u wing_tstep
      = unpack_ss_vectors wing_ready wing_y wing_x wing_u wing_tstep].
Proof. by split; vm_compute. Qed.

(** *** [initialise] and [run] on the concrete scenarios *)

(** The first initialisation of the one-surface scenario raises. *)
Lemma initialise_first_call_scenario :
  linear scenario_world = None
  /\ (exists e, (initialise None scenario_world).2 = Raise e).
Proof.
have no_linear : linear scenario_world = None by [].
by split; [ | case: (initialise_first_call None no_linear)].
Defined.

(** The first call stores the linearisation and stops with [NameError]; the
    velocity generator is still missing. *)
Lemma initialise_scenario_outcome :
  let out := initialise None scenario_world in
  [/\ out.2 = Raise NameError,
      linear_vec "x_0" out.1
      = Ok [:: 1; 2; 3; 4; 0; 0; 0; 0; 0; 0; 1; 2; 3; 4]%float,
      linear_vec "y_0" out.1 = Ok (nseq 12 0%float)
    & isSome (velocity_generator out.1) = false].
Proof. by split; vm_compute. Qed.

(** Two snapshots are retained and a third one, the working copy, is
    passed as the current snapshot: the recorded call of [solve_step] gets
    the state packed from the working copy and the second most recent
    retained snapshot. *)
Lemma run_state_delta_coupled :
  emitted coupled_world (run (Some 2) None None None coupled_world).1
  = take 1 (emitted coupled_world coupled_run)
    ++ EvSolveStep (ev_dx coupled_call) (ev_du_m1 coupled_call)
         (ev_du_n coupled_call) (ev_transform coupled_call)
       :: [::]
  /\ exists a st x_m1 x_0,
       [/\ current (Some 2) coupled_world = Ok a,
           the_settings coupled_world = Ok st,
           (if size (timestep_info coupled_world) < 2
            then pack_state_vector (heap coupled_world a) None (s_dt st)
                   (s_integr_order st)
            else
              tstep_m1 <- getitem_back (timestep_info coupled_world) 2 ;;
              pack_state_vector (heap coupled_world a)
                (Some (heap coupled_world tstep_m1)) (s_dt st)
                (s_integr_order st)) = Ok x_m1,
           linear_vec "x_0" coupled_world = Ok x_0
         & np_sub x_m1 x_0 = Ok (ev_dx coupled_call)].
Proof.
have called :
    emitted coupled_world (run (Some 2) None None None coupled_world).1
    = take 1 (emitted coupled_world coupled_run)
      ++ EvSolveStep (ev_dx coupled_call) (ev_du_m1 coupled_call)
           (ev_du_n coupled_call) (ev_transform coupled_call)
         :: [::] by vm_compute.
by split; [ | exact: (run_state_delta called)].
Defined.

(** In the same call the delta state given to [solve_step] is not the one
    packed from the two most recent retained snapshots: the bound
    circulation comes from the working copy, not from the last retained
    snapshot. *)
Lemma run_state_not_from_retained :
  exists x_m1 x_0 dx_retained,
    [/\ timestep_info coupled_world = [:: 0; 1]
        /\ emitted coupled_world (run (Some 2) None None None coupled_world).1
           = take 1 (emitted coupled_world coupled_run)
             ++ EvSolveStep (ev_dx coupled_call) (ev_du_m1 coupled_call)
                  (ev_du_n coupled_call) true
                :: [::],
        pack_state_vector (heap coupled_world 1) (Some (heap coupled_world 0))
          scenario_dt 2 = Ok x_m1,
        linear_vec "x_0" coupled_world = Ok x_0,
        np_sub x_m1 x_0 = Ok dx_retained
      & ev_dx coupled_call <> dx_retained].
Proof.
exists [:: 5; 6; 7; 8; 0; 0; 0; 0; 0; 0; 1; 2; 3; 4]%float.
exists [:: 5; 6; 7; 8; 0; 0; 0; 0; 0; 0; 5; 6; 7; 8]%float.
exists [:: 0; 0; 0; 0; 0; 0; 0; 0; 0; 0; -4; -4; -4; -4]%float.
split; first (by split; vm_compute).
- by vm_compute.
- by vm_compute.
- by vm_compute.
- move/(congr1 (vec_eqb [:: 4; 4; 4; 4; 0; 0; 0; 0; 0; 0;
                            -4; -4; -4; -4]%float)).
  by vm_compute.
Qed.

(** With the predictor removed, the recorded call of [solve_step] in the
    one-surface scenario gets the input of the last retained snapshot minus
    [u_0]. *)
Lemma previous_input_scenario :
  emitted scenario_ready (run None None None None scenario_ready).1
  = take 1 (emitted scenario_ready scenario_run)
    ++ EvSolveStep (ev_dx scenario_call) (ev_du_m1 scenario_call)
         (ev_du_n scenario_call) (ev_transform scenario_call)
       :: [::]
  /\ exists a p u' st,
       [/\ current None scenario_ready = Ok a,
           the_settings scenario_ready = Ok st
         & if s_remove_predictor st
           then exists last_tstep u_m1 u_0 d,
                  [/\ retained 1 scenario_ready = Ok last_tstep,
                      pack_input_vector
                        (heap (generated a p u' scenario_ready) last_tstep)
                      = Ok u_m1,
                      linear_vec "u_0" scenario_ready = Ok u_0,
                      np_sub u_m1 u_0 = Ok d
                    & ev_du_m1 scenario_call = Some d]
           else ev_du_m1 scenario_call = None].
Proof.
have called :
    emitted scenario_ready (run None None None None scenario_ready).1
    = take 1 (emitted scenario_ready scenario_run)
      ++ EvSolveStep (ev_dx scenario_call) (ev_du_m1 scenario_call)
           (ev_du_n scenario_call) (ev_transform scenario_call)
         :: [::] by vm_compute.
case: (@previous_input_iff_predictor_removed binary64
         (spec_collaborators binary64)) => H _.
by split; [ | exact: (H _ _ _ _ _ _ _ _ _ _ _ called)].
Defined.

(** A completed step has overwritten [u_ext] of the current snapshot: the
    generator filled it with the uniform velocity. *)
Lemma run_overwrites_u_ext :
  (run None None None None scenario_ready).2 = Ok tt
  /\ u_ext (heap (run None None None None scenario_ready).1 0)
     <> u_ext (heap scenario_ready 0).
Proof.
split; first by vm_compute.
move/(congr1 (fun u : seq (array3 binary64) =>
                 PrimFloat.eqb
                   (nth 0%float
                      (nth [::] (nth [::] (nth [::] u 0) 0) 0) 0) 0%float)).
by vm_compute.
Qed.

(** *** The packer on incomplete or inconsistent snapshots *)

(** A [gamma_dot] of one element is broadcast over the four entries of
    [gamma]. *)
Lemma pack_state_vector_rate_lone :
  [/\ 0 < n_surf lone_rate_tstep,
      [&& n_surf lone_rate_tstep <= size (gamma lone_rate_tstep),
          n_surf lone_rate_tstep <= size (gamma_star lone_rate_tstep)
        & n_surf lone_rate_tstep <= size (gamma_dot lone_rate_tstep)],
      2%Z <> 1%Z
    & size (block (@ravel2 binary64) (take 1 (gamma_dot lone_rate_tstep))) = 1]
  /\ pack_state_vector lone_rate_tstep None scenario_dt 2
     = Ok ([:: 1; 2; 3; 4] ++ [:: 0; 0] ++ np_scale scenario_dt [:: 2]
           ++ [seq PrimFloat.sub g (PrimFloat.mul scenario_dt 2)
              | g <- [:: 1; 2; 3; 4]])%float.
Proof.
have n_gt0 : 0 < n_surf lone_rate_tstep by [].
have sizes : [&& n_surf lone_rate_tstep <= size (gamma lone_rate_tstep),
                 n_surf lone_rate_tstep <= size (gamma_star lone_rate_tstep)
               & n_surf lone_rate_tstep <= size (gamma_dot lone_rate_tstep)].
  by [].
have neq : 2%Z <> 1%Z by [].
have one : size (block (@ravel2 binary64)
                   (take 1 (gamma_dot lone_rate_tstep))) = 1 by [].
split; first by split.
by case: (pack_state_vector_rate_not_validated scenario_dt n_gt0 sizes neq)
     => _ /(_ one) ->.
Defined.

(** *** Unpacking: no surface, shapes, circulation, stored dimensions *)

(** On the snapshot with no surface the unpacking returns empty lists and
    the packers raise. *)
Lemma unpack_ss_vectors_no_surface_empty :
  [/\ n_surf empty_tstep = 0,
      linear_system scenario_ready = Ok scenario_system
    & unpack_state (c:=spec_collaborators binary64) scenario_system scenario_x
        scenario_u = Ok scenario_circulation]
  /\ unpack_ss_vectors scenario_ready scenario_y scenario_x scenario_u
       empty_tstep = Ok ([::], [::], [::], [::]).
Proof.
have n0 : n_surf empty_tstep = 0 by [].
have Esys : linear_system scenario_ready = Ok scenario_system by vm_compute.
have Eun : unpack_state (c:=spec_collaborators binary64) scenario_system
             scenario_x scenario_u = Ok scenario_circulation by vm_compute.
split; first by split.
by case: (unpack_ss_vectors_no_surface scenario_y n0 Esys Eun).
Defined.

(** The forces unpacked on the two-surface scenario have six rows, the last
    three of them zero. *)
Lemma unpack_ss_vectors_shapes_wing :
  [/\ wf_unpack (aero_dimensions wing_ready) (aero_dimensions_star wing_ready)
        wing_tstep,
      linear_system wing_ready = Ok wing_system,
      unpack_state (c:=spec_collaborators binary64) wing_system wing_x wing_u
      = Ok (wing_circulation.1.1, wing_circulation.1.2, wing_circulation.2)
    & unpack_ss_vectors wing_ready wing_y wing_x wing_u wing_tstep
      = Ok (wing_unpacked.1.1.1, wing_unpacked.1.1.2, wing_unpacked.1.2,
            wing_unpacked.2)]
  /\ [/\ size wing_unpacked.1.1.1 = 2,
         rect3 (6, 1, 2) (nth [::] wing_unpacked.1.1.1 0)
       & drop 3 (nth [::] wing_unpacked.1.1.1 1) = np_zeros3 binary64 (3, 2, 1)].
Proof.
have wf : wf_unpack (aero_dimensions wing_ready)
            (aero_dimensions_star wing_ready) wing_tstep by vm_compute.
have Esys : linear_system wing_ready = Ok wing_system by vm_compute.
have Eun : unpack_state (c:=spec_collaborators binary64) wing_system wing_x
             wing_u
           = Ok (wing_circulation.1.1, wing_circulation.1.2,
                 wing_circulation.2) by vm_compute.
have Eout : unpack_ss_vectors wing_ready wing_y wing_x wing_u wing_tstep
            = Ok (wing_unpacked.1.1.1, wing_unpacked.1.1.2, wing_unpacked.1.2,
                  wing_unpacked.2) by vm_compute.
split; first by split.
case: (unpack_ss_vectors_shapes wf Esys Eun Eout) => [[sz _ _ _] shapes].
have lt0 : 0 < n_surf wing_tstep by [].
have lt1 : 1 < n_surf wing_tstep by [].
by case: (shapes 0 lt0) => r0 _ _ _ _; case: (shapes 1 lt1) => _ z1 _ _ _.
Defined.

(** The circulation of the one-surface scenario survives packing and
    unpacking. *)
Lemma circulation_round_trip_scenario :
  [/\ wf_unpack (aero_dimensions scenario_ready)
        (aero_dimensions_star scenario_ready) scenario_tstep,
      wf_lattice (aero_dimensions scenario_ready)
        (aero_dimensions_star scenario_ready) scenario_tstep,
      linear_system scenario_ready = Ok scenario_system,
      unpack_state (c:=spec_collaborators binary64) scenario_system scenario_x
        scenario_u
      = Ok (block (@ravel2 binary64) (gamma scenario_tstep),
            block (@ravel2 binary64) (gamma_star scenario_tstep),
            block (@ravel2 binary64) (gamma_dot scenario_tstep))
    & total_points scenario_tstep <= size scenario_y]
  /\ exists forces',
       unpack_ss_vectors scenario_ready scenario_y scenario_x scenario_u
         scenario_tstep
       = Ok (forces', gamma scenario_tstep, gamma_dot scenario_tstep,
             gamma_star scenario_tstep).
Proof.
have wf : wf_unpack (aero_dimensions scenario_ready)
            (aero_dimensions_star scenario_ready) scenario_tstep by vm_compute.
have wfl : wf_lattice (aero_dimensions scenario_ready)
             (aero_dimensions_star scenario_ready) scenario_tstep.
  by vm_compute.
have Esys : linear_system scenario_ready = Ok scenario_system by vm_compute.
have Eun : unpack_state (c:=spec_collaborators binary64) scenario_system
             scenario_x scenario_u
           = Ok (block (@ravel2 binary64) (gamma scenario_tstep),
                 block (@ravel2 binary64) (gamma_star scenario_tstep),
                 block (@ravel2 binary64) (gamma_dot scenario_tstep)).
  by vm_compute.
have le_y : total_points scenario_tstep <= size scenario_y by vm_compute.
split; first by split.
exact: (circulation_round_trip wf wfl Esys Eun le_y).
Defined.

(** Stored bound dimensions of 2 x 2 for a surface whose [gamma] holds two
    entries: the unpacking raises. *)
Lemma unpack_ss_vectors_lattice_mismatch_wing :
  [/\ wf_lists (aero_dimensions mismatched_world)
        (aero_dimensions_star mismatched_world) wing_tstep,
      linear_system mismatched_world = Ok wing_system,
      unpack_state (c:=spec_collaborators binary64) wing_system wing_x wing_u
      = Ok (wing_circulation.1.1, wing_circulation.1.2, wing_circulation.2),
      fits wing_y wing_circulation.1.1 wing_circulation.1.2
        wing_circulation.2 wing_tstep
    & (1 < n_surf wing_tstep)
      /\ ~~ lattice_agrees (aero_dimensions mismatched_world)
              (aero_dimensions_star mismatched_world) wing_tstep 1]
  /\ unpack_ss_vectors mismatched_world wing_y wing_x wing_u wing_tstep
     = Raise ValueError.
Proof.
have sizes : wf_lists (aero_dimensions mismatched_world)
               (aero_dimensions_star mismatched_world) wing_tstep.
  by vm_compute.
have Esys : linear_system mismatched_world = Ok wing_system by vm_compute.
have Eun : unpack_state (c:=spec_collaborators binary64) wing_system wing_x
             wing_u
           = Ok (wing_circulation.1.1, wing_circulation.1.2,
                 wing_circulation.2) by vm_compute.
have ok : fits wing_y wing_circulation.1.1 wing_circulation.1.2
            wing_circulation.2 wing_tstep by vm_compute.
have lt1 : 1 < n_surf wing_tstep by [].
have bad : ~~ lattice_agrees (aero_dimensions mismatched_world)
                (aero_dimensions_star mismatched_world) wing_tstep 1.
  by vm_compute.
split; first by split.
exact: (unpack_ss_vectors_lattice_mismatch sizes Esys Eun ok lt1 bad).
Defined.

(** *** The calls of [run] on the one-surface scenario *)

(** The generator is called at time [0 * dt] with the grid of the
    snapshot and the position of the last structural snapshot. *)
Lemma run_generator_arguments_scenario :
  emitted scenario_ready (run None None None None scenario_ready).1
  = [::] ++ EvGenerate scenario_params
      :: drop 1 (emitted scenario_ready scenario_run)
  /\ exists a s st,
       [/\ current None scenario_ready = Ok a,
           current_structure None scenario_ready = Ok s,
           the_settings scenario_ready = Ok st
         & scenario_params
           = MkGenParams (zeta (heap scenario_ready a)) true
               (time_of None scenario_ready (time_step None st))
               (ts scenario_ready) (time_step None st) (for_pos s)].
Proof.
have called :
    emitted scenario_ready (run None None None None scenario_ready).1
    = [::] ++ EvGenerate scenario_params
        :: drop 1 (emitted scenario_ready scenario_run) by vm_compute.
by split; [ | exact: (run_generator_arguments called)].
Defined.

(** The current input delta of the recorded call of [solve_step]. *)
Lemma run_input_delta_scenario :
  emitted scenario_ready (run None None None None scenario_ready).1
  = take 1 (emitted scenario_ready scenario_run)
    ++ EvSolveStep (ev_dx scenario_call) (ev_du_m1 scenario_call)
         (ev_du_n scenario_call) (ev_transform scenario_call)
       :: [::]
  /\ exists a p u' u_n u_0,
       [/\ current None scenario_ready = Ok a,
           generator_answer scenario_ready a p u',
           pack_input_vector (with_u_ext u' (heap scenario_ready a)) = Ok u_n,
           linear_vec "u_0" scenario_ready = Ok u_0
         & np_sub u_n u_0 = Ok (ev_du_n scenario_call)
           /\ ev_transform scenario_call = true].
Proof.
have called :
    emitted scenario_ready (run None None None None scenario_ready).1
    = take 1 (emitted scenario_ready scenario_run)
      ++ EvSolveStep (ev_dx scenario_call) (ev_du_m1 scenario_call)
           (ev_du_n scenario_call) (ev_transform scenario_call)
         :: [::] by vm_compute.
by split; [ | exact: (run_input_delta called)].
Defined.

(** With the default arguments and the predictor removed, [solve_step]
    gets the same vector as previous and as current input delta. *)
Lemma run_previous_input_aliased_scenario :
  [/\ emitted scenario_ready (run None None None None scenario_ready).1
      = take 1 (emitted scenario_ready scenario_run)
        ++ EvSolveStep (ev_dx scenario_call) (ev_du_m1 scenario_call)
             (ev_du_n scenario_call) (ev_transform scenario_call)
           :: [::],
      current None scenario_ready = retained 1 scenario_ready,
      the_settings scenario_ready = Ok (example_settings true)
    & s_remove_predictor (example_settings true)]
  /\ ev_du_m1 scenario_call = Some (ev_du_n scenario_call).
Proof.
have called :
    emitted scenario_ready (run None None None None scenario_ready).1
    = take 1 (emitted scenario_ready scenario_run)
      ++ EvSolveStep (ev_dx scenario_call) (ev_du_m1 scenario_call)
           (ev_du_n scenario_call) (ev_transform scenario_call)
         :: [::] by vm_compute.
have same : current None scenario_ready = retained 1 scenario_ready by [].
have Est : the_settings scenario_ready = Ok (example_settings true).
  by vm_compute.
have rp : s_remove_predictor (example_settings true) by [].
split; first by split.
exact: (run_previous_input_aliased called same Est rp).
Defined.

(** The step of the one-surface scenario completes. *)
Lemma run_completed_scenario :
  let out := run None None None None scenario_ready in
  out.2 = Ok tt
  /\ exists a p u' dx_m1 du_m1 du_n sys dx_n dy_n,
       [/\ current None scenario_ready = Ok a,
           emitted scenario_ready out.1
           = [:: EvGenerate p; EvSolveStep dx_m1 du_m1 du_n true],
           linear_system scenario_ready = Ok sys,
           solve_step sys dx_m1 du_m1 du_n true = Ok (dx_n, dy_n)
         & exists x_0 y_0 x_n y_n u_n r,
             [/\ linear_vec "x_0" scenario_ready = Ok x_0
                 /\ np_add x_0 dx_n = Ok x_n,
                 linear_vec "y_0" scenario_ready = Ok y_0
                 /\ np_add y_0 dy_n = Ok y_n,
                 pack_input_vector (with_u_ext u' (heap scenario_ready a))
                 = Ok u_n,
                 unpack_ss_vectors scenario_ready y_n x_n u_n
                   (with_u_ext u' (heap scenario_ready a)) = Ok r
               & [/\ forces (heap out.1 a) = r.1.1.1,
                     gamma (heap out.1 a) = r.1.1.2,
                     gamma_dot (heap out.1 a) = r.1.2,
                     gamma_star (heap out.1 a) = r.2
                   & u_ext (heap out.1 a) = u']]].
Proof.
have done : (run None None None None scenario_ready).2 = Ok tt by vm_compute.
by split; [ | exact: (run_completed done)].
Defined.

(** The defaults of the one-surface scenario: snapshot 0, the structural
    snapshot at the origin, the setting [dt] and the time [0 * dt]. *)
Lemma run_default_arguments_scenario :
  [/\ retained 1 scenario_ready = Ok 0,
      current_structure None scenario_ready
      = Ok (@MkStructTimeStepInfo binary64 [:: 0; 0; 0]%float)
    & the_settings scenario_ready = Ok (example_settings true)]
  /\ run None None None None scenario_ready
     = run (Some 0) (Some (@MkStructTimeStepInfo binary64 [:: 0; 0; 0]%float))
         (Some scenario_dt)
         (Some (PrimFloat.mul (float_of_Z (ts scenario_ready)) scenario_dt))
         scenario_ready.
Proof.
have Ea : retained 1 scenario_ready = Ok 0 by vm_compute.
have Es : current_structure None scenario_ready
          = Ok (@MkStructTimeStepInfo binary64 [:: 0; 0; 0]%float).
  by vm_compute.
have Est : the_settings scenario_ready = Ok (example_settings true).
  by vm_compute.
split; first by split.
exact: (run_default_arguments Ea Es Est).
Defined.

(** After the first call of [initialise] alone no generator is set up: the
    step raises and the results of the snapshot are untouched. *)
Lemma run_failure_keeps_results_half :
  (run None None None None half_initialised).2 = Raise AttributeError
  /\ forces (heap (run None None None None half_initialised).1 0)
     = forces (heap half_initialised 0).
Proof.
have failed : (run None None None None half_initialised).2
              = Raise AttributeError by vm_compute.
by split; [ | case: (run_failure_keeps_results failed 0)].
Defined.

(** *** [initialise] on the one-surface scenario *)

(** The second call of [initialise] keeps the dictionary of the first one
    and returns. *)
Lemma initialise_restart_scenario :
  linear half_initialised = Some scenario_dict
  /\ [/\ linear (initialise None half_initialised).1 = Some scenario_dict,
         heap (initialise None half_initialised).1 = heap half_initialised
       & (initialise None half_initialised).2 = Ok tt].
Proof.
have Hl : linear half_initialised = Some scenario_dict by vm_compute.
split; first exact: Hl.
case: (initialise_restart None Hl) => El Eh _ ok.
split; [exact: El | exact: Eh | ].
have Est : attr KeyError (data_settings half_initialised)
           = Ok (example_settings true) by vm_compute.
have Egen : s_velocity_field_generator (example_settings true)
            = Some "SteadyVelocityField"%string by [].
have Eg0 : generator_from_string (spec_collaborators binary64)
             "SteadyVelocityField" = Ok [::] by [].
have Ein : s_velocity_field_input (example_settings true)
           = Some [:: 1; 0; 0]%float by [].
have Eg : generator_initialise (c:=spec_collaborators binary64) [::]
            [:: 1; 0; 0]%float = Ok [:: 1; 0; 0]%float by [].
by case: (ok _ _ _ _ _ Est Egen Eg0 Ein Eg).
Defined.

(** The first call writes the density 1 to the only retained snapshot. *)
Lemma initialise_sets_density_scenario :
  [/\ linear scenario_world = None,
      attr KeyError (data_settings scenario_world) = Ok (example_settings true)
    & getitem_back (timestep_info scenario_world) 1 = Ok 0]
  /\ rho (heap (initialise None scenario_world).1 0) = Some 1%float.
Proof.
have no_linear : linear scenario_world = None by [].
have Est : attr KeyError (data_settings scenario_world)
           = Ok (example_settings true) by [].
have Ea : getitem_back (timestep_info scenario_world) 1 = Ok 0 by [].
split; first by split.
by rewrite (@initialise_sets_density _ _ None _ _ _ no_linear Est Ea 0).
Defined.

(** A second call keeps what the first call stored. *)
Lemma initialise_not_repeated_scenario :
  (linear scenario_world = None
   /\ attr KeyError (data_settings scenario_world)
      = Ok (example_settings true))
  /\ linear (initialise None (initialise None scenario_world).1).1
     = linear (initialise None scenario_world).1.
Proof.
have no_linear : linear scenario_world = None by [].
have Est : attr KeyError (data_settings scenario_world)
           = Ok (example_settings true) by [].
split; first by split.
by case: (@initialise_not_repeated _ _ None None _ _ no_linear Est).
Defined.

(** *** The post-processor on the structure of four entries *)

(** Every snapshot is in the global frame: the data is written as it is. *)
Lemma pickle_run_nothing_to_convert_ready :
  [/\ PickleData.self_data (pickle_ready true),
      PickleData.self_filename (pickle_ready true)
      = Some "output/wing.pkl"%string
    & PickleData.all_global
        (PickleData.structure (PickleData.data (pickle_ready true)))]
  /\ PickleData.emitted (pickle_ready true)
       (PickleData.run pickle_collaborators false (pickle_ready true)).1
     = [:: PickleData.EvDump "output/wing.pkl"
             (PickleData.data (pickle_ready true))].
Proof.
have sd : PickleData.self_data (pickle_ready true) by [].
have Ef : PickleData.self_filename (pickle_ready true)
          = Some "output/wing.pkl"%string by [].
have ok : PickleData.all_global
            (PickleData.structure (PickleData.data (pickle_ready true))).
  by [].
split; first by split.
by rewrite (pickle_run_nothing_to_convert pickle_collaborators false sd Ef ok).
Defined.

(** Snapshot 1 is retained twice and is not in the global frame: the run
    returns with every snapshot in the global frame. *)
Lemma pickle_run_converts_all_ready :
  (PickleData.marks_the_snapshot pickle_collaborators
   /\ (PickleData.run pickle_collaborators false (pickle_ready false)).2
      = Ok (PickleData.data pickle_done))
  /\ PickleData.all_global
       (PickleData.structure (PickleData.data pickle_done)).
Proof.
have marks : PickleData.marks_the_snapshot pickle_collaborators.
  move=> s p s' [<-] /=; split=> //; first by rewrite eqxx.
  by move=> q; case: eqP => [->|].
have done : (PickleData.run pickle_collaborators false (pickle_ready false)).2
            = Ok (PickleData.data pickle_done) by [].
split; first by split.
by case: (pickle_run_converts_all false marks done).
Defined.

(** The file of the case [wing] in the folder [output/]. *)
Lemma pickle_initialise_filename_world :
  (PickleData.initialise pickle_collaborators None None (pickle_world false)).2
  = Ok tt
  /\ PickleData.self_filename (pickle_ready false)
     = Some "output/wing.pkl"%string.
Proof.
have done : (PickleData.initialise pickle_collaborators None None
               (pickle_world false)).2 = Ok tt by [].
split; first exact: done.
case: (pickle_initialise_filename done) => sharpy [case [Es Ec Ef _ _]].
by rewrite Ef; move: Es Ec => /= [<-] /= [<-].
Defined.
